(** * docker-vxrouter: the IPAM driver and the network-resource cache

    A shallow embedding of [vxrIpam/driver.go] and [docker/client/client.go].
    Go code that returns [(value, error)] is modelled by functions returning
    the same pair; code that talks to the kernel, to the container runtime or
    to the [vxrNet] driver runs in a state monad over an abstract world, and
    every such call is also written to a trace so that statements about the
    calls a function makes (or does not make) can be read off the result. *)

From Stdlib Require Import ZArith String Ascii List Lia Bool DecimalString.
From stdpp Require Import gmap strings list fin_maps.

Local Open Scope string_scope.

(** ** Go runtime: outcomes and the state monad *)

Module Go.

(** Go's [error] interface, by its message; [None] is the nil error. *)
Definition error : Type := string.

(** How a call ends: a normal return, a runtime panic, or (for the model of
    an unbounded [for] loop) the loop still running when the fuel ran out. *)
Inductive Outcome (A : Type) : Type :=
| Done (a : A)
| Panic (msg : string)
| OutOfFuel.
Arguments Done {A} a.
Arguments Panic {A} msg.
Arguments OutOfFuel {A}.

Definition M (S A : Type) : Type := S -> Outcome A * S.

Definition ret {S A} (a : A) : M S A := fun s => (Done a, s).

Definition bind {S A B} (m : M S A) (k : A -> M S B) : M S B :=
  fun s =>
    match m s with
    | (Done a, s') => k a s'
    | (Panic msg, s') => (Panic msg, s')
    | (OutOfFuel, s') => (OutOfFuel, s')
    end.

(** [runtime error: invalid memory address or nil pointer dereference] *)
Definition nilDeref : string := "invalid memory address or nil pointer dereference".

Definition panic {S A} (msg : string) : M S A := fun s => (Panic msg, s).

(** Reading a field through a pointer: a nil pointer panics. *)
Definition deref {S A} (p : option A) : M S A :=
  match p with
  | Some a => ret a
  | None => panic nilDeref
  end.

End Go.

Notation "'let*' x ':=' c 'in' k" := (Go.bind c (fun x => k))
  (at level 10, x name, c at level 100, k at level 200).
Notation "'let*' ' pat ':=' c 'in' k" :=
  (Go.bind c (fun x => match x with pat => k end))
  (at level 10, pat pattern, c at level 100, k at level 200).

(** ** The part of Go's [net] package the driver uses *)

Module net.

Local Open Scope Z_scope.

(** [net.IP] and [net.IPMask] are byte slices; the nil slice is [[]]. None of
    the functions below builds an empty slice that is not nil. *)
Definition IP : Type := list Z.
Definition IPMask : Type := list Z.

(** [net.IPNet]; a [*net.IPNet] is an [option IPNet]. *)
Record IPNet : Type := mkIPNet { IPNet_IP : IP; IPNet_Mask : IPMask }.

Definition IPv4len : Z := 4.
Definition IPv6len : Z := 16.

Definition len {A} (l : list A) : Z := Z.of_nat (length l).

Definition isZeros (p : list Z) : bool := forallb (fun b => b =? 0) p.

(** [func (ip IP) To4() IP] *)
Definition To4 (ip : IP) : IP :=
  if len ip =? IPv4len then ip
  else if (len ip =? IPv6len) && isZeros (take 10 ip)
          && (nth 10 ip 0 =? 255) && (nth 11 ip 0 =? 255)
       then drop 12 ip
       else [].

(** [func (ip IP) Equal(x IP) bool], through [To4] and [To16]'s prefix. *)
Definition v4InV6Prefix : list Z := [0; 0; 0; 0; 0; 0; 0; 0; 0; 0; 255; 255].

Definition bytesEqual (a b : list Z) : bool := bool_decide (a = b).

Definition IP_Equal (ip x : IP) : bool :=
  if len ip =? len x then bytesEqual ip x
  else if (len ip =? IPv4len) && (len x =? IPv6len)
       then bytesEqual (take 12 x) v4InV6Prefix && bytesEqual ip (drop 12 x)
       else if (len ip =? IPv6len) && (len x =? IPv4len)
            then bytesEqual (take 12 ip) v4InV6Prefix && bytesEqual (drop 12 ip) x
            else false.

(** The inner loop of [simpleMaskLength] on one byte:
    [for v&0x80 != 0 { n++; v <<= 1 }]. A byte is empty after eight shifts,
    so eight rounds run it to its end. *)
Fixpoint countOnes (k : nat) (v n : Z) : Z * Z :=
  match k with
  | O => (v, n)
  | S k' =>
      if Z.land v 128 =? 0 then (v, n)
      else countOnes k' (Z.land (Z.shiftl v 1) 255) (n + 1)
  end.

(** [func simpleMaskLength(mask IPMask) int], with the running count [n]. *)
Fixpoint simpleMaskLengthFrom (mask : IPMask) (n : Z) : Z :=
  match mask with
  | [] => n
  | v :: rest =>
      if v =? 255 then simpleMaskLengthFrom rest (n + 8)
      else
        let '(v', n') := countOnes 8 v n in
        if negb (v' =? 0) then -1
        else if isZeros rest then n' else -1
  end.

Definition simpleMaskLength (mask : IPMask) : Z := simpleMaskLengthFrom mask 0.

(** [func (m IPMask) Size() (ones, bits int)] *)
Definition Size (m : IPMask) : Z * Z :=
  let ones := simpleMaskLength m in
  let bits := len m * 8 in
  if ones =? -1 then (0, 0) else (ones, bits).

(** The loop of [CIDRMask] over the [l] bytes of the mask. *)
Fixpoint CIDRMaskBytes (l : nat) (n : Z) : IPMask :=
  match l with
  | O => []
  | S l' =>
      if 8 <=? n then 255 :: CIDRMaskBytes l' (n - 8)
      else Z.lxor (Z.shiftr 255 n) 255 :: CIDRMaskBytes l' 0
  end.

(** [func CIDRMask(ones, bits int) IPMask] *)
Definition CIDRMask (ones bits : Z) : IPMask :=
  if negb (bits =? 8 * IPv4len) && negb (bits =? 8 * IPv6len) then []
  else if (ones <? 0) || (bits <? ones) then []
  else CIDRMaskBytes (Z.to_nat (bits / 8)) ones.

(** [func networkNumberAndMask(n *IPNet) (ip IP, m IPMask)] *)
Definition networkNumberAndMask (n : IPNet) : IP * IPMask :=
  let ip4 := To4 (IPNet_IP n) in
  let ip := if bool_decide (ip4 = []) then IPNet_IP n else ip4 in
  if bool_decide (ip4 = []) && negb (len ip =? IPv6len) then ([], [])
  else
    let m := IPNet_Mask n in
    if len m =? IPv4len then
      if negb (len ip =? IPv4len) then ([], []) else (ip, m)
    else if len m =? IPv6len then
      if len ip =? IPv4len then (ip, drop 12 m) else (ip, m)
    else ([], []).

(** [uitoa]: an unsigned integer in decimal. *)
Definition uitoa (n : Z) : string := NilZero.string_of_uint (N.to_uint (Z.to_N n)).

Definition hexDigit (d : Z) : ascii :=
  nth (Z.to_nat d) (list_ascii_of_string "0123456789abcdef") "0"%char.

(** [func (m IPMask) String() string]: the bytes in hexadecimal. *)
Fixpoint hexString (b : list Z) : string :=
  match b with
  | [] => ""
  | x :: rest =>
      String (hexDigit (Z.shiftr x 4)) (String (hexDigit (Z.land x 15)) (hexString rest))
  end.

(** [func (ip IP) Mask(mask IPMask) IP] *)
Definition allFF (b : list Z) : bool := forallb (fun c => c =? 255) b.

Definition IP_Mask (ip : IP) (mask : IPMask) : IP :=
  let mask :=
    if (len mask =? IPv6len) && (len ip =? IPv4len) && allFF (take 12 mask)
    then drop 12 mask else mask in
  let ip :=
    if (len mask =? IPv4len) && (len ip =? IPv6len) && bytesEqual (take 12 ip) v4InV6Prefix
    then drop 12 ip else ip in
  if negb (len ip =? len mask) then []
  else zip_with Z.land ip mask.

(** The text side of the package: parsing and printing addresses. The source
    of these functions is Go's standard library; the driver is verified for
    every implementation of them.
    - [ParseCIDR s] is [inl (ip, ipnet)] or, for text that is no CIDR subnet,
      [inr err] (Go then returns [nil, nil, err]);
    - [ParseIP s] is the address or nil;
    - [IP_String ip] is [ip.String()]. *)
Class Text : Type := {
  ParseCIDR : string -> (IP * IPNet) + Go.error;
  ParseIP : string -> IP;
  IP_String : IP -> string;
}.

(** [func (n *IPNet) String() string] *)
Definition IPNet_String `{Text} (n : IPNet) : string :=
  let '(nn, m) := networkNumberAndMask n in
  if bool_decide (nn = []) || bool_decide (m = []) then "<nil>"
  else
    let l := simpleMaskLength m in
    if l =? -1 then IP_String nn ++ "/" ++ hexString m
    else IP_String nn ++ "/" ++ uitoa l.

End net.

(** ** The dotted-quad fragment of the [net] package's text functions

    An implementation of [net.Text] for IPv4 text, after [parseIPv4], [dtoi]
    and [ParseCIDR] of the Go sources of the repository's time: an octet
    written with leading zeros is read as decimal, as Go did before release
    1.17 (later releases reject it). IPv6 text is outside the fragment: it
    is rejected here. The fragment serves the concrete runs below only; the
    general theorems hold for every [net.Text]. *)

Module ipv4.

Import net.
Local Open Scope Z_scope.

Definition big : Z := 16777215.

Definition isDigit (c : ascii) : bool :=
  (48 <=? Z.of_nat (nat_of_ascii c)) && (Z.of_nat (nat_of_ascii c) <=? 57).

(** [func dtoi(s string) (n int, i int, ok bool)]; the text after the [i]
    bytes read is returned with them. *)
Fixpoint dtoiFrom (s : string) (n : Z) (i : Z) : Z * Z * bool * string :=
  match s with
  | String c rest =>
      if isDigit c then
        let n' := n * 10 + (Z.of_nat (nat_of_ascii c) - 48) in
        if big <=? n' then (big, i, false, s)
        else dtoiFrom rest n' (i + 1)
      else if i =? 0 then (0, 0, false, s) else (n, i, true, s)
  | EmptyString => if i =? 0 then (0, 0, false, s) else (n, i, true, s)
  end.

Definition dtoi (s : string) : Z * Z * bool * string := dtoiFrom s 0 0.

(** The loop of [parseIPv4] from octet [i] on, [k] octets to go. *)
Fixpoint parseOctets (k : nat) (i : Z) (s : string) : option (list Z * string) :=
  match k with
  | O => Some ([], s)
  | S k' =>
      match s with
      | EmptyString => None
      | String c rest =>
          let dotted :=
            if 0 <? i
            then (if Ascii.eqb c "."%char then Some rest else None)
            else Some s in
          match dotted with
          | None => None
          | Some s1 =>
              let '(n, _, ok, s2) := dtoi s1 in
              if negb ok || (255 <? n) then None
              else
                match parseOctets k' (i + 1) s2 with
                | Some (p, s3) => Some (n :: p, s3)
                | None => None
                end
          end
      end
  end.

(** [func parseIPv4(s string) IP]: the 16-byte form of the address. *)
Definition parseIPv4 (s : string) : IP :=
  match parseOctets 4 0 s with
  | Some (p, EmptyString) => (v4InV6Prefix ++ p)%list
  | _ => []
  end.

Fixpoint byteIndex (s : string) (c : ascii) (i : nat) : option nat :=
  match s with
  | EmptyString => None
  | String d rest => if Ascii.eqb d c then Some i else byteIndex rest c (S i)
  end.

(** [func ParseCIDR(s string) (IP, *IPNet, error)] on IPv4 text. *)
Definition parseCIDR (s : string) : (IP * IPNet) + Go.error :=
  let bad := inr ("invalid CIDR address: " ++ s)%string in
  match byteIndex s "/"%char 0 with
  | None => bad
  | Some i =>
      let addr := String.substring 0 i s in
      let mask := String.substring (S i) (String.length s - S i) s in
      let ip := parseIPv4 addr in
      let '(n, _, ok, rest) := dtoi mask in
      if bool_decide (ip = []) || negb ok || negb (bool_decide (rest = EmptyString))
         || (n <? 0) || (8 * IPv4len <? n)
      then bad
      else
        let m := CIDRMask n (8 * IPv4len) in
        inl (ip, mkIPNet (IP_Mask ip m) m)
  end.

Fixpoint joinDots (p : list Z) : string :=
  match p with
  | [] => ""
  | [a] => uitoa a
  | a :: rest => (uitoa a ++ "." ++ joinDots rest)%string
  end.

(** [func (ip IP) String() string] on nil and on IPv4 addresses. *)
Definition ipString (ip : IP) : string :=
  if len ip =? 0 then "<nil>"
  else if len (To4 ip) =? IPv4len then joinDots (To4 ip)
  else ("?" ++ hexString ip)%string.

#[export] Instance text : Text := {|
  ParseCIDR := parseCIDR;
  ParseIP := parseIPv4;
  IP_String := ipString;
|}.

End ipv4.

(** ** The container runtime's API types ([docker/api/types]) *)

Module types.

(** [network.IPAMConfig] *)
Record IPAMConfig : Type := mkIPAMConfig {
  Subnet : string;
  IPRange : string;
  Gateway : string;
}.

(** [network.IPAM] *)
Record IPAM : Type := mkIPAM {
  IPAM_Driver : string;
  Config : list IPAMConfig;
}.

(** [types.NetworkResource], with the fields this repository reads. *)
Record NetworkResource : Type := mkNetworkResource {
  Name : string;
  ID : string;
  Driver : string;
  NR_IPAM : IPAM;
}.

End types.

(** ** [docker/client/client.go]: the network-resource cache *)

Module client.

Import types.

Definition networkDriverName : string := "vxrNet".

(** [func poolFromNR(nr *types.NetworkResource) (string, error)], with the
    [range] loop over [nr.IPAM.Config] as a recursion over the entries. *)
Fixpoint poolFromConfig (cfg : list IPAMConfig) : string * option Go.error :=
  match cfg with
  | [] => ("", Some "pool not found")
  | c :: rest =>
      if bool_decide (Subnet c <> "") then (Subnet c, None)
      else poolFromConfig rest
  end.

Definition poolFromNR (nr : NetworkResource) : string * option Go.error :=
  poolFromConfig (Config (NR_IPAM nr)).

(** A [*types.NetworkResource] is an address in the heap of network
    resources; two pointers are the same object when they are equal. *)
Definition ptr : Type := nat.

(** The [Client] struct: the two indexes share the records they point to.
    Its [dc] field is the [DockerAPI] interface below; what happens to its
    [nrCacheLock] is written to the trace. *)
Record Client : Type := mkClient {
  nrByID : gmap string ptr;
  nrByPool : gmap string ptr;
}.

(** What the cache does to its lock and its indexes, and what it asks of the
    runtime, in the order it happens. *)
Inductive Event : Type :=
| RLock
| RUnlock
| Lock
| Unlock
| ReadByID (id : string)
| ReadByPool (pool : string)
| WriteByID (id : string) (p : ptr)
| WritePool (pool : string) (p : ptr)
| NetworkInspect (id : string) (res : NetworkResource + Go.error)
| NetworkList (driver : string) (res : list NetworkResource + Go.error).

(** The runtime's API ([c.dc]): inspect a network, list the networks of a
    driver. Each call may change the world [W] it runs in. *)
Class DockerAPI (W : Type) : Type := {
  dcNetworkInspect : string -> W -> (NetworkResource + Go.error) * W;
  dcNetworkList : string -> W -> (list NetworkResource + Go.error) * W;
}.

(** The state a cache operation runs in. *)
Record State (W : Type) : Type := mkState {
  heap : list NetworkResource;
  cache : Client;
  world : W;
  trace : list Event;
}.
Arguments mkState {W} heap cache world trace.
Arguments heap {W} s.
Arguments cache {W} s.
Arguments world {W} s.
Arguments trace {W} s.

Section Cache.
Context {W : Type} `{DockerAPI W}.

Definition emit (e : Event) : Go.M (State W) unit :=
  fun s => (Go.Done tt, mkState (heap s) (cache s) (world s) (trace s ++ [e])).

(** [&nr]: the fetched resource escapes to the heap. *)
Definition new (nr : NetworkResource) : Go.M (State W) ptr :=
  fun s => (Go.Done (length (heap s)),
            mkState (heap s ++ [nr]) (cache s) (world s) (trace s)).

Definition load (p : ptr) : Go.M (State W) NetworkResource :=
  fun s => Go.deref (heap s !! p) s.

Definition readByID (id : string) : Go.M (State W) (option ptr) :=
  fun s => (Go.Done (nrByID (cache s) !! id),
            mkState (heap s) (cache s) (world s) (trace s ++ [ReadByID id])).

Definition readByPool (pool : string) : Go.M (State W) (option ptr) :=
  fun s => (Go.Done (nrByPool (cache s) !! pool),
            mkState (heap s) (cache s) (world s) (trace s ++ [ReadByPool pool])).

Definition writeByID (id : string) (p : ptr) : Go.M (State W) unit :=
  fun s => (Go.Done tt,
            mkState (heap s)
              (mkClient (<[id := p]> (nrByID (cache s))) (nrByPool (cache s)))
              (world s) (trace s ++ [WriteByID id p])).

Definition writeByPool (pool : string) (p : ptr) : Go.M (State W) unit :=
  fun s => (Go.Done tt,
            mkState (heap s)
              (mkClient (nrByID (cache s)) (<[pool := p]> (nrByPool (cache s))))
              (world s) (trace s ++ [WritePool pool p])).

Definition networkInspect (id : string) : Go.M (State W) (NetworkResource + Go.error) :=
  fun s =>
    let '(res, w) := dcNetworkInspect id (world s) in
    (Go.Done res, mkState (heap s) (cache s) w (trace s ++ [NetworkInspect id res])).

Definition networkList (driver : string) : Go.M (State W) (list NetworkResource + Go.error) :=
  fun s =>
    let '(res, w) := dcNetworkList driver (world s) in
    (Go.Done res, mkState (heap s) (cache s) w (trace s ++ [NetworkList driver res])).

(** [func (c *Client) cacheNetworkResource(nr *types.NetworkResource)];
    the deferred [Unlock] runs on both ways out. *)
Definition cacheNetworkResource (nr : ptr) : Go.M (State W) unit :=
  let* _ := emit Lock in
  let* r := load nr in
  let '(pool, err) := poolFromNR r in
  match err with
  | Some _ => emit Unlock
  | None =>
      let* _ := writeByID (ID r) nr in
      let* _ := writeByPool pool nr in
      emit Unlock
  end.

(** [func (c *Client) GetNetworkResourceByID(id string)], returning a
    [*types.NetworkResource] and an [error]. *)
Definition GetNetworkResourceByID (id : string)
  : Go.M (State W) (option ptr * option Go.error) :=
  let* _ := emit RLock in
  let* hit := readByID id in
  match hit with
  | Some nr =>
      let* _ := emit RUnlock in
      Go.ret (Some nr, None)
  | None =>
      let* _ := emit RUnlock in
      let* res := networkInspect id in
      match res with
      | inr err => Go.ret (None, Some err)
      | inl nr =>
          let* p := new nr in
          let* _ := cacheNetworkResource p in
          Go.ret (Some p, None)
      end
  end.

(** The [range nl] loop of [GetNetworkResourceByPool]: [continue] on an
    error, [break] on the first resource whose pool is [pool]. *)
Fixpoint findByPool (pool : string) (nl : list NetworkResource)
  : Go.M (State W) (option ptr) :=
  match nl with
  | [] => Go.ret None
  | n :: rest =>
      let* '(tnr, err) := GetNetworkResourceByID (ID n) in
      match err with
      | Some _ => findByPool pool rest
      | None =>
          let* r := (let* p := Go.deref tnr in load p) in
          let '(tp, _) := poolFromNR r in
          if bool_decide (tp = pool) then Go.ret tnr
          else findByPool pool rest
      end
  end.

(** [func (c *Client) GetNetworkResourceByPool(pool string)], returning a
    [*types.NetworkResource] and an [error]. *)
Definition GetNetworkResourceByPool (pool : string)
  : Go.M (State W) (option ptr * option Go.error) :=
  let* _ := emit RLock in
  let* hit := readByPool pool in
  match hit with
  | Some nr =>
      let* _ := emit RUnlock in
      Go.ret (Some nr, None)
  | None =>
      let* _ := emit RUnlock in
      let* res := networkList networkDriverName in
      match res with
      | inr err => Go.ret (None, Some err)
      | inl nl =>
          let* nr := findByPool pool nl in
          Go.ret (nr, None)
      end
  end.

(** [NewClient]: both indexes start empty. *)
Definition NewClient (w : W) : State W :=
  mkState [] (mkClient ∅ ∅) w [].

(** The cache's states: the new client, and every state an operation leaves
    behind; the runtime's world may change between two operations. *)
Inductive reachable : State W -> Prop :=
| reach_new (w : W) : reachable (NewClient w)
| reach_world (s : State W) (w : W) :
    reachable s -> reachable (mkState (heap s) (cache s) w (trace s))
| reach_ByID (s : State W) (id : string) a s' :
    reachable s -> GetNetworkResourceByID id s = (a, s') -> reachable s'
| reach_ByPool (s : State W) (pool : string) a s' :
    reachable s -> GetNetworkResourceByPool pool s = (a, s') -> reachable s'.

End Cache.

(** The record at [p] is in both indexes. *)
Definition cached {W} (s : State W) (p : ptr) : Prop :=
  (exists id, nrByID (cache s) !! id = Some p) /\
  (exists pool, nrByPool (cache s) !! pool = Some p).

(** The cache invariant of the specification: a record the ID index reaches
    is the record the Pool index holds under the record's derived pool. *)
Definition coherent {W} (s : State W) : Prop :=
  forall id p, nrByID (cache s) !! id = Some p ->
    exists nr pool,
      heap s !! p = Some nr /\
      poolFromNR nr = (pool, None) /\
      nrByPool (cache s) !! pool = Some p.

(** The same, and the ID index holds each record under its own ID. *)
Definition indexed {W} (s : State W) : Prop :=
  forall id p, nrByID (cache s) !! id = Some p ->
    exists nr pool,
      heap s !! p = Some nr /\
      ID nr = id /\
      poolFromNR nr = (pool, None) /\
      nrByPool (cache s) !! pool = Some p.

(** No two of the fetched resources [h] with different IDs derive the same
    pool: a pool has one owner. *)
Definition pool_owners (h : list NetworkResource) : Prop :=
  forall nr1 nr2 pool,
    nr1 ∈ h -> nr2 ∈ h ->
    poolFromNR nr1 = (pool, None) -> poolFromNR nr2 = (pool, None) ->
    ID nr1 = ID nr2.

End client.

(** ** [vishvananda/netlink]: routes *)

Module netlink.

(** [netlink.Route], with the fields the driver sets; the zero route
    [netlink.Route{}] has a nil [Dst] and a nil [Gw]. *)
Record Route : Type := mkRoute {
  Dst : option net.IPNet;
  Gw : net.IP;
}.

Definition zeroRoute : Route := mkRoute None [].

(** The filter masks of [RouteListFiltered]; the driver uses one. *)
Inductive FilterMask : Type := RT_FILTER_DST.

End netlink.

(** ** [go-plugins-helpers/ipam]: the protocol's requests and responses *)

Module ipam.

Record CapabilitiesResponse : Type := mkCapabilitiesResponse {
  RequiresMACAddress : bool;
}.

Record AddressSpacesResponse : Type := mkAddressSpacesResponse {
  LocalDefaultAddressSpace : string;
  GlobalDefaultAddressSpace : string;
}.

Record RequestPoolRequest : Type := mkRequestPoolRequest {
  AddressSpace : string;
  Pool : string;
  SubPool : string;
  RequestPool_Options : gmap string string;
  V6 : bool;
}.

(** A nil [Data] map is the empty map. *)
Record RequestPoolResponse : Type := mkRequestPoolResponse {
  Resp_PoolID : string;
  Resp_Pool : string;
  Resp_Data : gmap string string;
}.

Record ReleasePoolRequest : Type := mkReleasePoolRequest {
  ReleasePool_PoolID : string;
}.

Record RequestAddressRequest : Type := mkRequestAddressRequest {
  PoolID : string;
  Address : string;
  Options : gmap string string;
}.

Record RequestAddressResponse : Type := mkRequestAddressResponse {
  Resp_Address : string;
  Resp_AddressData : gmap string string;
}.

Record ReleaseAddressRequest : Type := mkReleaseAddressRequest {
  ReleaseAddress_PoolID : string;
  ReleaseAddress_Address : string;
}.

End ipam.

(** ** [vxrIpam/driver.go]: the IPAM driver *)

Module vxrIpam.

Import net netlink ipam.

(** The [Driver] struct. Its [vxrNet] field is the [Host] interface below and
    its [log] field is left out: log lines are no part of the model. *)
Record Driver : Type := mkDriver {
  propTime : Z;
  respTime : Z;
  excludeFirst : Z;
  excludeLast : Z;
}.

(** [func NewDriver(vxrNet, propTime, respTime, excludeFirst, excludeLast)] *)
Definition NewDriver (propTime respTime excludeFirst excludeLast : Z)
  : option Driver * option Go.error :=
  (Some (mkDriver propTime respTime excludeFirst excludeLast), None).

(** Every call the driver makes outside its own code, with what came back. *)
Inductive Event : Type :=
| RandAddr (subnet : IPNet) (ip : IP)
| RouteListFiltered (filter : Route) (routes : list Route) (err : option Go.error)
| GetNetworkResourceBySubnet (pool : string)
    (nr : option types.NetworkResource) (err : option Go.error)
| ConnectHost (id : string) (err : option Go.error)
| GetGatewayBySubnet (pool : string) (gw : option IPNet) (err : option Go.error)
| RouteAdd (route : Route) (err : option Go.error).

(** What the driver runs on: [iputil.RandAddr], the kernel's routing table
    through [netlink], and the [vxrNet] driver of this repository (its source
    is not part of the files at hand, so the driver is verified for every
    behaviour of these calls). Each call may change the world [W]:
    - [hostRandAddr subnet]: a random address of the subnet;
    - [hostRouteListFiltered family filter mask]: the routes that match;
    - [hostRouteAdd route];
    - [hostGetNetworkResourceBySubnet pool]: a [*types.NetworkResource]
      and an [error];
    - [hostConnectHost id]: the [error] (the driver drops the other value);
    - [hostGetGatewayBySubnet pool]: a [*net.IPNet] and an [error]. *)
Class Host (W : Type) : Type := {
  hostRandAddr : IPNet -> W -> IP * W;
  hostRouteListFiltered :
    Z -> Route -> FilterMask -> W -> (list Route * option Go.error) * W;
  hostRouteAdd : Route -> W -> option Go.error * W;
  hostGetNetworkResourceBySubnet :
    string -> W -> (option types.NetworkResource * option Go.error) * W;
  hostConnectHost : string -> W -> option Go.error * W;
  hostGetGatewayBySubnet : string -> W -> (option IPNet * option Go.error) * W;
}.

(** The state a driver operation runs in. *)
Record State (W : Type) : Type := mkState {
  world : W;
  trace : list Event;
}.
Arguments mkState {W} world trace.
Arguments world {W} s.
Arguments trace {W} s.

Section Driver.
Context {W : Type} `{Text} `{Host W}.

(** One call into the host: run it on the world, log it with its result. *)
Definition call {A} (f : W -> A * W) (ev : A -> Event) : Go.M (State W) A :=
  fun s =>
    let '(a, w) := f (world s) in
    (Go.Done a, mkState w (trace s ++ [ev a])).

Definition iputil_RandAddr (subnet : IPNet) : Go.M (State W) IP :=
  call (hostRandAddr subnet) (RandAddr subnet).

Definition netlink_RouteListFiltered (family : Z) (filter : Route) (mask : FilterMask)
  : Go.M (State W) (list Route * option Go.error) :=
  call (hostRouteListFiltered family filter mask)
       (fun r => RouteListFiltered filter (fst r) (snd r)).

Definition netlink_RouteAdd (route : Route) : Go.M (State W) (option Go.error) :=
  call (hostRouteAdd route) (RouteAdd route).

Definition vxrNet_GetNetworkResourceBySubnet (pool : string)
  : Go.M (State W) (option types.NetworkResource * option Go.error) :=
  call (hostGetNetworkResourceBySubnet pool)
       (fun r => GetNetworkResourceBySubnet pool (fst r) (snd r)).

Definition vxrNet_ConnectHost (id : string) : Go.M (State W) (option Go.error) :=
  call (hostConnectHost id) (ConnectHost id).

Definition vxrNet_GetGatewayBySubnet (pool : string)
  : Go.M (State W) (option IPNet * option Go.error) :=
  call (hostGetGatewayBySubnet pool)
       (fun r => GetGatewayBySubnet pool (fst r) (snd r)).

(** [func (d *Driver) GetCapabilities()] *)
Definition GetCapabilities (d : Driver)
  : Go.M (State W) (option CapabilitiesResponse * option Go.error) :=
  Go.ret (Some (mkCapabilitiesResponse false), None).

(** [func (d *Driver) GetDefaultAddressSpaces()] *)
Definition GetDefaultAddressSpaces (d : Driver)
  : Go.M (State W) (option AddressSpacesResponse * option Go.error) :=
  Go.ret (Some (mkAddressSpacesResponse "" ""), None).

(** [func (d *Driver) RequestPool(r *ipam.RequestPoolRequest)] *)
Definition RequestPool (d : Driver) (r : RequestPoolRequest)
  : Go.M (State W) (option RequestPoolResponse * option Go.error) :=
  Go.ret (Some (mkRequestPoolResponse (Pool r) (Pool r) ∅), None).

(** [func (d *Driver) ReleasePool(r *ipam.ReleasePoolRequest) error] *)
Definition ReleasePool (d : Driver) (r : ReleasePoolRequest)
  : Go.M (State W) (option Go.error) :=
  Go.ret None.

(** The loop [for len(routes) > 0 { ... }] of [RequestAddress], lines 81-90.
    [routes] and [addr] are the loop's variables; the result is [addr] when
    the loop ends, or the error of the [return nil, err] inside it. The loop
    has no bound in the source: [fuel] bounds the rounds of the model. *)
Fixpoint candidateLoop (fuel : nat) (subnet : IPNet) (routes : list Route) (addr : IPNet)
  : Go.M (State W) (IPNet + Go.error) :=
  if (0 <? len routes)%Z then
    match fuel with
    | O => fun s => (Go.OutOfFuel, s)
    | S fuel' =>
        let* addr :=
          (if bool_decide (IPNet_IP addr = [])
           then let* ip := iputil_RandAddr subnet in
                Go.ret (mkIPNet ip (IPNet_Mask addr))
           else Go.ret addr) in
        let* '(routes, err) :=
          netlink_RouteListFiltered 0 (mkRoute (Some addr) []) RT_FILTER_DST in
        match err with
        | Some e => Go.ret (inr e)
        | None => candidateLoop fuel' subnet routes addr
        end
    end
  else Go.ret (inl addr).

(** The value a Go map gives for a key: the zero value when it is absent. *)
Definition index (m : gmap string string) (k : string) : string :=
  default "" (m !! k).

(** [func (d *Driver) RequestAddress(r *ipam.RequestAddressRequest)] *)
Definition RequestAddress (fuel : nat) (d : Driver) (r : RequestAddressRequest)
  : Go.M (State W) (option RequestAddressResponse * option Go.error) :=
  (* [_, subnet, err := net.ParseCIDR(r.PoolID)]; an error is logged, and
     the function goes on with a nil [subnet] *)
  let subnet : option IPNet :=
    match ParseCIDR (PoolID r) with
    | inl (_, n) => Some n
    | inr _ => None
    end in
  let* subnet_ := Go.deref subnet in
  let addr := mkIPNet (ParseIP (Address r)) (IPNet_Mask subnet_) in
  if bool_decide (index (Options r) "RequestAddressType" = "com.docker.network.gateway")
  then Go.ret (Some (mkRequestAddressResponse (IPNet_String addr) ∅), None)
  else
    let '(_, ml) := Size (IPNet_Mask addr) in
    let addr := mkIPNet (IPNet_IP addr) (CIDRMask ml ml) in
    let* looped := candidateLoop fuel subnet_ [zeroRoute] addr in
    match looped with
    | inr err => Go.ret (None, Some err)
    | inl addr =>
        let* '(nr, err) := vxrNet_GetNetworkResourceBySubnet (PoolID r) in
        match nr with
        | None =>
            match err with
            | Some e => Go.ret (None, Some e)
            | None => Go.ret (None, Some "failed to get network from pool")
            end
        | Some nr =>
            let* err := vxrNet_ConnectHost (types.ID nr) in
            match err with
            | Some e => Go.ret (None, Some e)
            | None =>
                let* '(gw, err) := vxrNet_GetGatewayBySubnet (PoolID r) in
                match err with
                | Some e => Go.ret (None, Some e)
                | None =>
                    let* gw_ := Go.deref gw in
                    let* err := netlink_RouteAdd (mkRoute (Some addr) (IPNet_IP gw_)) in
                    match err with
                    | Some e => Go.ret (None, Some e)
                    | None =>
                        let addr := mkIPNet (IPNet_IP addr) (IPNet_Mask subnet_) in
                        Go.ret (Some (mkRequestAddressResponse (IPNet_String addr) ∅), None)
                    end
                end
            end
        end
    end.

(** [func (d *Driver) ReleaseAddress(r *ipam.ReleaseAddressRequest) error] *)
Definition ReleaseAddress (d : Driver) (r : ReleaseAddressRequest)
  : Go.M (State W) (option Go.error) :=
  Go.ret None.

(** What an event of the trace says about the host: asked in the world [w],
    the host gave the result the event holds and left the world [w']. The
    driver lists routes of every family (0) by destination only. *)
Definition hostAnswered (w : W) (ev : Event) (w' : W) : Prop :=
  match ev with
  | RandAddr subnet ip => hostRandAddr subnet w = (ip, w')
  | RouteListFiltered filter found err =>
      hostRouteListFiltered 0 filter RT_FILTER_DST w = ((found, err), w')
  | GetNetworkResourceBySubnet pool nr err =>
      hostGetNetworkResourceBySubnet pool w = ((nr, err), w')
  | ConnectHost id err => hostConnectHost id w = (err, w')
  | GetGatewayBySubnet pool gw err => hostGetGatewayBySubnet pool w = ((gw, err), w')
  | RouteAdd route err => hostRouteAdd route w = (err, w')
  end.

(** The events [evs], one after the other, are the host's answers from the
    world [w] to the world [w']. *)
Fixpoint replays (w : W) (evs : list Event) (w' : W) : Prop :=
  match evs with
  | [] => w' = w
  | ev :: rest => exists w1, hostAnswered w ev w1 /\ replays w1 rest w'
  end.

End Driver.

End vxrIpam.

(** ** Concrete hosts and runtimes, for running the model *)

Module sim.

Import net netlink types.

(** A runtime whose networks are the fixed list [nets]: inspect finds a
    network by its ID or its name, list keeps the networks of a driver. *)
Definition inspect (nets : list NetworkResource) (id : string)
  : NetworkResource + Go.error :=
  match List.find (fun n => bool_decide (ID n = id) || bool_decide (Name n = id)) nets with
  | Some n => inl n
  | None => inr ("No such network: " ++ id)
  end.

Definition runtime (nets : list NetworkResource) : client.DockerAPI unit := {|
  client.dcNetworkInspect id w := (inspect nets id, w);
  client.dcNetworkList driver w :=
    (inl (List.filter (fun n => bool_decide (Driver n = driver)) nets), w);
|}.

(** A host: its routing table, the addresses [RandAddr] is going to draw
    (nil once they are used up), and the networks of the [vxrNet] driver,
    each with its gateway. *)
Record World : Type := mkWorld {
  routes : list Route;
  draws : list IP;
  networks : list (NetworkResource * IPNet);
}.

(** [RT_FILTER_DST]: same address, same mask length and width. *)
Definition dstMatches (filter route : Route) : bool :=
  match Dst filter, Dst route with
  | Some f, Some d =>
      IP_Equal (IPNet_IP d) (IPNet_IP f)
      && bool_decide (Size (IPNet_Mask d) = Size (IPNet_Mask f))
  | None, None => true
  | _, _ => false
  end.

Definition ownerOf (pool : string) (w : World) : option (NetworkResource * IPNet) :=
  List.find (fun n => bool_decide (fst (client.poolFromNR (fst n)) = pool)) (networks w).

#[export] Instance host : vxrIpam.Host World := {|
  vxrIpam.hostRandAddr subnet w :=
    match draws w with
    | ip :: rest => (ip, mkWorld (routes w) rest (networks w))
    | [] => ([], w)
    end;
  vxrIpam.hostRouteListFiltered family filter mask w :=
    ((List.filter (dstMatches filter) (routes w), None), w);
  vxrIpam.hostRouteAdd route w :=
    (None, mkWorld (routes w ++ [route]) (draws w) (networks w));
  vxrIpam.hostGetNetworkResourceBySubnet pool w :=
    ((fst <$> ownerOf pool w, None), w);
  vxrIpam.hostConnectHost id w := (None, w);
  vxrIpam.hostGetGatewayBySubnet pool w :=
    match ownerOf pool w with
    | Some n => ((Some (snd n), None), w)
    | None => ((None, Some "gateway not found"), w)
    end;
|}.

(** The host of the specification's end-to-end scenario: pool
    [10.1.1.0/24] with gateway [10.1.1.1], and a host route to
    [10.1.1.5/32]. *)
Definition net1 : NetworkResource :=
  mkNetworkResource "net1" "4f1a" "vxrNet"
    (mkIPAM "vxrIpam" [mkIPAMConfig "10.1.1.0/24" "" "10.1.1.1/24"]).

Definition gw1 : IPNet := mkIPNet [10; 1; 1; 1]%Z [255; 255; 255; 0]%Z.

Definition hostMask : IPMask := [255; 255; 255; 255]%Z.

Definition route5 : Route := mkRoute (Some (mkIPNet [10; 1; 1; 5]%Z hostMask)) [10; 1; 1; 1]%Z.

Definition host1 (draws : list IP) : World :=
  mkWorld [route5] draws [(net1, gw1)].

Definition start (w : World) : vxrIpam.State World := vxrIpam.mkState w [].

Definition driver : vxrIpam.Driver := vxrIpam.mkDriver 100 10000 0 0.

Definition gatewayOption : gmap string string :=
  {[ "RequestAddressType" := "com.docker.network.gateway" ]}.

(** The pool of [host1] as [net.ParseCIDR] gives it, the address
    [10.1.1.5] and [10.1.1.9] as [net.ParseIP] gives them, and the filter of
    the route check for an address. *)
Definition subnet1 : IPNet := mkIPNet [10; 1; 1; 0]%Z [255; 255; 255; 0]%Z.

Definition ip5 : IP := (v4InV6Prefix ++ [10; 1; 1; 5]%Z)%list.

Definition ip9 : IP := (v4InV6Prefix ++ [10; 1; 1; 9]%Z)%list.

Definition check (ip : IP) : Route := mkRoute (Some (mkIPNet ip hostMask)) [].

(** Requests on the pool of [host1]: for the address [10.1.1.5], for any
    address, for the gateway address [10.1.1.1], for a gateway with no
    address, and one on a pool identifier that is no subnet. *)
Definition reqTaken : ipam.RequestAddressRequest :=
  ipam.mkRequestAddressRequest "10.1.1.0/24" "10.1.1.5" ∅.

Definition reqAny : ipam.RequestAddressRequest :=
  ipam.mkRequestAddressRequest "10.1.1.0/24" "" ∅.

Definition reqGateway : ipam.RequestAddressRequest :=
  ipam.mkRequestAddressRequest "10.1.1.0/24" "10.1.1.1" gatewayOption.

Definition reqGatewayNoAddress : ipam.RequestAddressRequest :=
  ipam.mkRequestAddressRequest "10.1.1.0/24" "" gatewayOption.

Definition reqBadPool : ipam.RequestAddressRequest :=
  ipam.mkRequestAddressRequest "vxr-pool-1" "" ∅.

Definition requestAddress (fuel : nat) (r : ipam.RequestAddressRequest) (w : World) :=
  @vxrIpam.RequestAddress World ipv4.text host fuel driver r (start w).

(** Runtimes for the cache: [netA] and [netB] sit on one subnet, [netC] on
    its own, and [netBare] has no IPAM configuration. *)
Definition netA : NetworkResource :=
  mkNetworkResource "red" "a1" "vxrNet"
    (mkIPAM "vxrIpam" [mkIPAMConfig "10.0.0.0/24" "" "10.0.0.1/24"]).

Definition netB : NetworkResource :=
  mkNetworkResource "blue" "b2" "vxrNet"
    (mkIPAM "vxrIpam" [mkIPAMConfig "10.0.0.0/24" "" "10.0.0.1/24"]).

Definition netC : NetworkResource :=
  mkNetworkResource "green" "c3" "vxrNet"
    (mkIPAM "vxrIpam" [mkIPAMConfig "" "" ""; mkIPAMConfig "10.0.1.0/24" "" "10.0.1.1/24"]).

Definition netBare : NetworkResource :=
  mkNetworkResource "bare" "d4" "vxrNet" (mkIPAM "vxrIpam" []).

Definition lookupID (nets : list NetworkResource) (id : string) (s : client.State unit) :=
  @client.GetNetworkResourceByID unit (runtime nets) id s.

Definition lookupPool (nets : list NetworkResource) (pool : string) (s : client.State unit) :=
  @client.GetNetworkResourceByPool unit (runtime nets) pool s.

End sim.

(** ** Reading the runs of the cache *)

Module cachelog.

Import types client.

(** The two lookups of the cache, as one type of operation. *)
Inductive Op : Type :=
| ByID (id : string)
| ByPool (pool : string).

Definition exec {W : Type} `{DockerAPI W} (o : Op)
  : Go.M (State W) (option ptr * option Go.error) :=
  match o with
  | ByID id => GetNetworkResourceByID id
  | ByPool pool => GetNetworkResourceByPool pool
  end.

(** The [sync.RWMutex] of the client as one goroutine sees it. *)
Inductive LockState : Type := Free | Shared | Exclusive.

(** What an event needs of the lock and what it leaves: the indexes are read
    under the read lock and written under the write lock, and the runtime
    is called with the lock free. [None]: the event is out of place. *)
Definition lockStep (l : LockState) (e : Event) : option LockState :=
  match l, e with
  | Free, RLock => Some Shared
  | Shared, RUnlock => Some Free
  | Free, Lock => Some Exclusive
  | Exclusive, Unlock => Some Free
  | Shared, ReadByID _ => Some Shared
  | Shared, ReadByPool _ => Some Shared
  | Exclusive, WriteByID _ _ => Some Exclusive
  | Exclusive, WritePool _ _ => Some Exclusive
  | Free, NetworkInspect _ _ => Some Free
  | Free, NetworkList _ _ => Some Free
  | _, _ => None
  end.

Fixpoint lockRun (l : LockState) (evs : list Event) : option LockState :=
  match evs with
  | [] => Some l
  | e :: rest =>
      match lockStep l e with
      | Some l' => lockRun l' rest
      | None => None
      end
  end.

(** What both indexes hold, whatever the runtime answers: an entry of the ID
    index points to a record of the heap that has the key as its ID and a
    pool, and the Pool index has some entry under that pool; an entry of the
    Pool index points to a record of the heap whose pool is the key. *)
Definition sound {W} (s : State W) : Prop :=
  (forall id p, nrByID (cache s) !! id = Some p ->
     exists nr pool,
       heap s !! p = Some nr /\ ID nr = id /\ poolFromNR nr = (pool, None) /\
       is_Some (nrByPool (cache s) !! pool)) /\
  (forall pool p, nrByPool (cache s) !! pool = Some p ->
     exists nr, heap s !! p = Some nr /\ poolFromNR nr = (pool, None)).

(** From [s] to [s']: the records stay where they are and as they are, and
    no key leaves an index. *)
Definition grows {W} (s s' : State W) : Prop :=
  heap s `prefix_of` heap s' /\
  (forall id, is_Some (nrByID (cache s) !! id) -> is_Some (nrByID (cache s') !! id)) /\
  (forall pool, is_Some (nrByPool (cache s) !! pool) ->
                is_Some (nrByPool (cache s') !! pool)).

(** What every step of the cache does, from [s] to [s']: it adds events to
    the trace that take the lock from free to free, it keeps what [grows]
    says, and it keeps [sound]. *)
Definition advances {W} (s s' : State W) : Prop :=
  (exists evs, trace s' = (trace s ++ evs)%list /\ lockRun Free evs = Some Free) /\
  grows s s' /\ (sound s -> sound s').

(** What a lookup [o] may return from [s], leaving [s']: a record of the
    heap (for a lookup by pool, one whose derived pool is that pool); or an
    error, which is the error of the runtime call the lookup made last; or,
    for a lookup by pool only, neither. *)
Definition answers {W} (o : Op) (s s' : State W) (res : option ptr * option Go.error)
  : Prop :=
  match res with
  | (Some p, None) =>
      exists nr, heap s' !! p = Some nr /\
        match o with
        | ByID _ => True
        | ByPool pool => (poolFromNR nr).1 = pool
        end
  | (None, Some e) =>
      exists evs,
        trace s' = (trace s ++ evs ++
          [match o with
           | ByID id => NetworkInspect id (inr e)
           | ByPool _ => NetworkList networkDriverName (inr e)
           end])%list
  | (None, None) =>
      exists pool, o = ByPool pool /\ (pool <> "" -> nrByPool (cache s') !! pool = None)
  | (Some _, Some _) => False
  end.

(** A runtime that lists [nets] and fails every inspect call. *)
Definition deaf (nets : list NetworkResource) : DockerAPI unit := {|
  dcNetworkInspect id w := (inr "network inspect failed", w);
  dcNetworkList driver w := (inl nets, w);
|}.

End cachelog.

(** ** Reading the runs of the driver *)

Module driverlog.

Import net netlink ipam vxrIpam.

Definition isRandAddr (ev : Event) : bool :=
  match ev with RandAddr _ _ => true | _ => false end.

(** A route was added: [RouteAdd] returned the nil error. *)
Definition isRouteAdded (ev : Event) : bool :=
  match ev with RouteAdd _ None => true | _ => false end.

(** The route check of the candidate [addr]. *)
Definition isCheckOf (addr : IPNet) (ev : Event) : Prop :=
  exists found err, ev = RouteListFiltered (mkRoute (Some addr) []) found err.

(** What [RequestAddress] does after the loop (lines 92-123), holding the
    candidate [addr]: the calls it makes with what came back, and how it
    ends. Each call is made only when the one before it succeeded. *)
Inductive afterLoop `{Text} (r : RequestAddressRequest) (subnet addr : IPNet)
  : list Event -> Go.Outcome (option RequestAddressResponse * option Go.error) -> Prop :=
| network_failed (e : Go.error) :
    afterLoop r subnet addr
      [GetNetworkResourceBySubnet (PoolID r) None (Some e)]
      (Go.Done (None, Some e))
| network_missing :
    afterLoop r subnet addr
      [GetNetworkResourceBySubnet (PoolID r) None None]
      (Go.Done (None, Some "failed to get network from pool"))
| connect_failed (nr : types.NetworkResource) (e0 : option Go.error) (e : Go.error) :
    afterLoop r subnet addr
      [GetNetworkResourceBySubnet (PoolID r) (Some nr) e0;
       ConnectHost (types.ID nr) (Some e)]
      (Go.Done (None, Some e))
| gateway_failed (nr : types.NetworkResource) (e0 : option Go.error)
    (gw : option IPNet) (e : Go.error) :
    afterLoop r subnet addr
      [GetNetworkResourceBySubnet (PoolID r) (Some nr) e0;
       ConnectHost (types.ID nr) None;
       GetGatewayBySubnet (PoolID r) gw (Some e)]
      (Go.Done (None, Some e))
| gateway_nil (nr : types.NetworkResource) (e0 : option Go.error) :
    afterLoop r subnet addr
      [GetNetworkResourceBySubnet (PoolID r) (Some nr) e0;
       ConnectHost (types.ID nr) None;
       GetGatewayBySubnet (PoolID r) None None]
      (Go.Panic Go.nilDeref)
| route_failed (nr : types.NetworkResource) (e0 : option Go.error)
    (gw : IPNet) (e : Go.error) :
    afterLoop r subnet addr
      [GetNetworkResourceBySubnet (PoolID r) (Some nr) e0;
       ConnectHost (types.ID nr) None;
       GetGatewayBySubnet (PoolID r) (Some gw) None;
       RouteAdd (mkRoute (Some addr) (IPNet_IP gw)) (Some e)]
      (Go.Done (None, Some e))
| returned (nr : types.NetworkResource) (e0 : option Go.error) (gw : IPNet) :
    afterLoop r subnet addr
      [GetNetworkResourceBySubnet (PoolID r) (Some nr) e0;
       ConnectHost (types.ID nr) None;
       GetGatewayBySubnet (PoolID r) (Some gw) None;
       RouteAdd (mkRoute (Some addr) (IPNet_IP gw)) None]
      (Go.Done
         (Some (mkRequestAddressResponse
                  (IPNet_String (mkIPNet (IPNet_IP addr) (IPNet_Mask subnet))) ∅),
          None)).

(** The candidate a request enters the loop with: the parsed address under
    the mask of all ones of the pool's address width. *)
Definition candidate `{Text} (r : RequestAddressRequest) (subnet : IPNet) : IPNet :=
  mkIPNet (ParseIP (Address r))
    (CIDRMask (Size (IPNet_Mask subnet)).2 (Size (IPNet_Mask subnet)).2).

(** A host on which a route that was added is seen by the route check of
    its destination, and stays seen. *)
Definition addedRoutesShow {W : Type} `{Host W} : Prop :=
  forall (route : Route) (w w' : W),
    hostRouteAdd route w = (None, w') ->
    exists r1 rs,
      hostRouteListFiltered 0 (mkRoute (Dst route) []) RT_FILTER_DST w' = (r1 :: rs, None, w').

(** Requests on the pool of [sim.host1] for the free address [10.1.1.9]. *)
Definition reqFree : RequestAddressRequest :=
  mkRequestAddressRequest "10.1.1.0/24" "10.1.1.9" ∅.

Definition relFree : ReleaseAddressRequest :=
  mkReleaseAddressRequest "10.1.1.0/24" "10.1.1.9".

(** A request on a pool no network of [sim.host1] has. *)
Definition reqNoNetwork : RequestAddressRequest :=
  mkRequestAddressRequest "10.2.0.0/16" "10.2.0.7" ∅.

(** [sim.host1] once the route to [10.1.1.9/32] through the gateway is added. *)
Definition route9 : Route := mkRoute (Some (mkIPNet sim.ip9 sim.hostMask)) [10; 1; 1; 1]%Z.

Definition host1With9 (draws : list IP) : sim.World :=
  sim.mkWorld [sim.route5; route9] draws [(sim.net1, sim.gw1)].

End driverlog.

(** * Properties *)

(** ** Masks: [CIDRMask] and [simpleMaskLength] are inverse to each other *)

Section Masks.
Import net.
Local Open Scope Z_scope.

Lemma countOnes_prefix (n acc : Z) :
  0 <= n < 8 ->
  countOnes 8 (Z.lxor (Z.shiftr 255 n) 255) acc = (0, acc + n).
Proof.
  intros Hn.
  assert (Hc : n = 0 \/ n = 1 \/ n = 2 \/ n = 3 \/ n = 4 \/ n = 5 \/ n = 6 \/ n = 7) by lia.
  destruct Hc as [-> | [-> | [-> | [-> | [-> | [-> | [-> | ->]]]]]]];
    cbn; f_equal; lia.
Qed.

Lemma prefix_byte_not_full (n : Z) :
  0 <= n < 8 -> (Z.lxor (Z.shiftr 255 n) 255 =? 255) = false.
Proof.
  intros Hn.
  assert (Hc : n = 0 \/ n = 1 \/ n = 2 \/ n = 3 \/ n = 4 \/ n = 5 \/ n = 6 \/ n = 7) by lia.
  destruct Hc as [-> | [-> | [-> | [-> | [-> | [-> | [-> | ->]]]]]]]; reflexivity.
Qed.

Lemma isZeros_CIDRMaskBytes (l : nat) : isZeros (CIDRMaskBytes l 0) = true.
Proof. induction l as [| l IH]; [reflexivity | exact IH]. Qed.

Lemma simpleMaskLengthFrom_CIDRMaskBytes (l : nat) :
  forall n acc, 0 <= n <= 8 * Z.of_nat l ->
    simpleMaskLengthFrom (CIDRMaskBytes l n) acc = acc + n.
Proof.
  induction l as [| l IH]; intros n acc Hn.
  - cbn. lia.
  - cbn [CIDRMaskBytes]. destruct (8 <=? n) eqn:Hge.
    + apply Z.leb_le in Hge. cbn [simpleMaskLengthFrom].
      change (255 =? 255) with true. cbn iota.
      rewrite IH by lia. lia.
    + apply Z.leb_gt in Hge. cbn [simpleMaskLengthFrom].
      rewrite prefix_byte_not_full by lia.
      rewrite countOnes_prefix by lia.
      cbn. rewrite isZeros_CIDRMaskBytes. reflexivity.
Qed.

Lemma simpleMaskLength_CIDRMask (ones bits : Z) :
  bits = 32 \/ bits = 128 -> 0 <= ones <= bits ->
  simpleMaskLength (CIDRMask ones bits) = ones.
Proof.
  intros Hb Ho. unfold CIDRMask, simpleMaskLength.
  replace (negb (bits =? 8 * IPv4len) && negb (bits =? 8 * IPv6len)) with false
    by (destruct Hb as [-> | ->]; reflexivity).
  replace ((ones <? 0) || (bits <? ones)) with false
    by (symmetry; apply orb_false_iff; split; apply Z.ltb_ge; lia).
  rewrite simpleMaskLengthFrom_CIDRMaskBytes; [lia |].
  destruct Hb as [-> | ->];
    [change (Z.to_nat (32 / 8)) with 4%nat | change (Z.to_nat (128 / 8)) with 16%nat];
    lia.
Qed.

Lemma length_CIDRMaskBytes (l : nat) (n : Z) : length (CIDRMaskBytes l n) = l.
Proof.
  revert n; induction l as [| l IH]; intros n; [reflexivity |].
  cbn [CIDRMaskBytes]. destruct (8 <=? n); cbn; now rewrite IH.
Qed.

Lemma Size_CIDRMask (ones bits : Z) :
  bits = 32 \/ bits = 128 -> 0 <= ones <= bits ->
  Size (CIDRMask ones bits) = (ones, bits).
Proof.
  intros Hb Ho. unfold Size.
  rewrite simpleMaskLength_CIDRMask by assumption.
  replace (ones =? -1) with false by (symmetry; apply Z.eqb_neq; lia).
  f_equal. unfold CIDRMask, len.
  replace (negb (bits =? 8 * IPv4len) && negb (bits =? 8 * IPv6len)) with false
    by (destruct Hb as [-> | ->]; reflexivity).
  replace ((ones <? 0) || (bits <? ones)) with false
    by (symmetry; apply orb_false_iff; split; apply Z.ltb_ge; lia).
  rewrite length_CIDRMaskBytes.
  destruct Hb as [-> | ->]; reflexivity.
Qed.

(** What [Size] says about a mask it measures. *)
Lemma Size_inv (m : IPMask) (ones bits : Z) :
  Size m = (ones, bits) -> bits <> 0 ->
  simpleMaskLength m = ones /\ ones <> -1 /\ len m * 8 = bits.
Proof.
  unfold Size. destruct (simpleMaskLength m =? -1) eqn:E; intros Heq Hb.
  - injection Heq as _ <-. contradiction.
  - apply Z.eqb_neq in E. injection Heq as <- <-. auto.
Qed.

End Masks.

(** ** How [IPNet.String] prints an address with a canonical mask *)

Section Printing.
Import net.
Context {T : Text}.
Local Open Scope Z_scope.

Lemma IPNet_String_nil (m : IPMask) : IPNet_String (mkIPNet [] m) = "<nil>".
Proof. reflexivity. Qed.

Lemma IPNet_String_v4 (ip : IP) (m : IPMask) (ones : Z) :
  len (To4 ip) = 4 -> Size m = (ones, 32) ->
  IPNet_String (mkIPNet ip m) = (IP_String (To4 ip) ++ "/" ++ uitoa ones)%string.
Proof.
  intros Hip Hm.
  destruct (Size_inv m ones 32 Hm ltac:(lia)) as (Hl & Hn & Hlen).
  assert (Hm4 : len m = 4) by lia.
  assert (Hne : To4 ip <> []) by (intros E; rewrite E in Hip; discriminate).
  assert (Hmne : m <> []) by (intros E; rewrite E in Hm4; discriminate).
  unfold IPNet_String, networkNumberAndMask. cbn [IPNet_IP IPNet_Mask].
  rewrite (bool_decide_eq_false_2 _ Hne). cbn [andb].
  rewrite Hm4, Hip. cbn [Z.eqb Pos.eqb IPv4len negb].
  rewrite (bool_decide_eq_false_2 _ Hne), (bool_decide_eq_false_2 _ Hmne).
  cbn [orb]. rewrite Hl.
  replace (ones =? -1) with false by (symmetry; apply Z.eqb_neq; exact Hn).
  reflexivity.
Qed.

Lemma IPNet_String_v6 (ip : IP) (m : IPMask) (ones : Z) :
  To4 ip = [] -> len ip = 16 -> Size m = (ones, 128) ->
  IPNet_String (mkIPNet ip m) = (IP_String ip ++ "/" ++ uitoa ones)%string.
Proof.
  intros H4 Hip Hm.
  destruct (Size_inv m ones 128 Hm ltac:(lia)) as (Hl & Hn & Hlen).
  assert (Hm16 : len m = 16) by lia.
  assert (Hne : ip <> []) by (intros E; rewrite E in Hip; discriminate).
  assert (Hmne : m <> []) by (intros E; rewrite E in Hm16; discriminate).
  unfold IPNet_String, networkNumberAndMask. cbn [IPNet_IP IPNet_Mask].
  rewrite H4. rewrite bool_decide_eq_true_2 by reflexivity.
  rewrite Hip, Hm16. cbn [Z.eqb Pos.eqb IPv4len IPv6len negb andb].
  rewrite (bool_decide_eq_false_2 _ Hne), (bool_decide_eq_false_2 _ Hmne).
  cbn [orb]. rewrite Hl.
  replace (ones =? -1) with false by (symmetry; apply Z.eqb_neq; exact Hn).
  reflexivity.
Qed.

End Printing.

(** ** The IPAM driver *)

Section DriverProperties.
Import net netlink ipam vxrIpam.
Context {W : Type} {T : Text} {HW : Host W}.

(** C8. [RequestPool] answers with the requested pool as both [PoolID] and
    [Pool], with no error; it leaves the state as it found it (no call
    is made, the world is the same), so whatever [RequestPool] call came
    before it, the answer is the same. *)
Theorem RequestPool_echo (d : Driver) (r : RequestPoolRequest) (s : State W) :
  (exists resp,
     RequestPool d r s = (Go.Done (Some resp, None), s) /\
     Resp_PoolID resp = Pool r /\ Resp_Pool resp = Pool r) /\
  (forall r', (let* _ := RequestPool d r' in RequestPool d r) s = RequestPool d r s).
Proof.
  split.
  - exists (mkRequestPoolResponse (Pool r) (Pool r) ∅). repeat split.
  - intros r'. reflexivity.
Qed.

(** C9. [ReleaseAddress] and [ReleasePool] return the nil error and leave
    the state as it was: no call is made and the world (routing table,
    networks, everything the host holds) is the same. A query of the routing
    table after a release therefore sees what it saw before: the released
    address's route is still there. *)
Theorem Release_noop (d : Driver) (ra : ReleaseAddressRequest) (rp : ReleasePoolRequest)
    (s : State W) :
  ReleaseAddress d ra s = (Go.Done None, s) /\
  ReleasePool d rp s = (Go.Done None, s) /\
  (forall family filter mask,
     (let* _ := ReleaseAddress d ra in netlink_RouteListFiltered family filter mask) s
     = netlink_RouteListFiltered family filter mask s).
Proof.
  split; [reflexivity |]. split; [reflexivity |].
  intros family filter mask. reflexivity.
Qed.

(** C2 (what the code does). When the pool identifier is no CIDR subnet,
    [RequestAddress] logs the parse error and goes on; reading [subnet.Mask]
    through the nil [subnet] then panics. No error value is returned. *)
Theorem RequestAddress_invalid_pool_panics (fuel : nat) (d : Driver)
    (r : RequestAddressRequest) (s : State W) (e : Go.error) :
  ParseCIDR (PoolID r) = inr e ->
  RequestAddress fuel d r s = (Go.Panic Go.nilDeref, s).
Proof.
  intros Hparse. unfold RequestAddress. rewrite Hparse. reflexivity.
Qed.

(** The gateway branch of [RequestAddress], for a pool that parses. *)
Lemma RequestAddress_gateway_eq (fuel : nat) (d : Driver) (r : RequestAddressRequest)
    (s : State W) (ip0 : IP) (subnet : IPNet) :
  ParseCIDR (PoolID r) = inl (ip0, subnet) ->
  index (Options r) "RequestAddressType" = "com.docker.network.gateway" ->
  RequestAddress fuel d r s =
    (Go.Done
       (Some (mkRequestAddressResponse
                (IPNet_String (mkIPNet (ParseIP (Address r)) (IPNet_Mask subnet))) ∅),
        None), s).
Proof.
  intros Hparse Hgw. unfold RequestAddress. rewrite Hparse.
  cbn [Go.deref Go.bind Go.ret IPNet_IP IPNet_Mask].
  rewrite bool_decide_eq_true_2 by exact Hgw. reflexivity.
Qed.

(** C6. A gateway request on a pool that parses returns the address built
    from the supplied address and the pool's mask, and the state is the one
    it started in: nothing was asked of the routing table, of the network
    driver, and no route was added. When address and pool are of one family
    the answer reads [ip/ones]: the supplied address as it is, with the
    pool's prefix length. *)
Theorem RequestAddress_gateway_short_circuit (fuel : nat) (d : Driver)
    (r : RequestAddressRequest) (s : State W) (ip0 : IP) (subnet : IPNet) :
  ParseCIDR (PoolID r) = inl (ip0, subnet) ->
  index (Options r) "RequestAddressType" = "com.docker.network.gateway" ->
  exists resp,
    RequestAddress fuel d r s = (Go.Done (Some resp, None), s) /\
    Resp_Address resp = IPNet_String (mkIPNet (ParseIP (Address r)) (IPNet_Mask subnet)) /\
    (forall ones,
       len (To4 (ParseIP (Address r))) = 4%Z -> Size (IPNet_Mask subnet) = (ones, 32%Z) ->
       Resp_Address resp = IP_String (To4 (ParseIP (Address r))) ++ "/" ++ uitoa ones) /\
    (forall ones,
       To4 (ParseIP (Address r)) = [] -> len (ParseIP (Address r)) = 16%Z ->
       Size (IPNet_Mask subnet) = (ones, 128%Z) ->
       Resp_Address resp = IP_String (ParseIP (Address r)) ++ "/" ++ uitoa ones).
Proof.
  intros Hparse Hgw. eexists. split; [| split; [| split]].
  - apply (RequestAddress_gateway_eq fuel d r s ip0 subnet Hparse Hgw).
  - reflexivity.
  - intros ones H4 Hm. cbn [Resp_Address]. apply IPNet_String_v4; assumption.
  - intros ones H4 H16 Hm. cbn [Resp_Address]. apply IPNet_String_v6; assumption.
Qed.

(** C10. A gateway request whose address does not parse (the empty address
    included) still succeeds: [net.ParseIP] gives the nil address, and the
    answer is what [IPNet.String] prints for it, ["<nil>"], with a nil error
    and an untouched state. *)
Theorem RequestAddress_gateway_unparsed_address (fuel : nat) (d : Driver)
    (r : RequestAddressRequest) (s : State W) (ip0 : IP) (subnet : IPNet) :
  ParseCIDR (PoolID r) = inl (ip0, subnet) ->
  index (Options r) "RequestAddressType" = "com.docker.network.gateway" ->
  ParseIP (Address r) = [] ->
  RequestAddress fuel d r s =
    (Go.Done (Some (mkRequestAddressResponse "<nil>" ∅), None), s).
Proof.
  intros Hparse Hgw Hip.
  rewrite (RequestAddress_gateway_eq fuel d r s ip0 subnet Hparse Hgw).
  rewrite Hip, IPNet_String_nil. reflexivity.
Qed.

End DriverProperties.

(** ** The candidate loop *)

Section CandidateLoop.
Import net netlink ipam vxrIpam.
Context {W : Type} {T : Text} {HW : Host W}.
Local Open Scope list_scope.

Lemma call_eq {A} (f : W -> A * W) (ev : A -> Event) (s : State W) :
  call f ev s = (Go.Done (f (world s)).1, mkState (f (world s)).2 (trace s ++ [ev (f (world s)).1])).
Proof. unfold call. destruct (f (world s)) as [a w]. reflexivity. Qed.

(** With no route left in [routes] the loop is over, whatever the fuel. *)
Lemma candidateLoop_nil (fuel : nat) (subnet addr : IPNet) (s : State W) :
  candidateLoop fuel subnet [] addr s = (Go.Done (inl addr), s).
Proof. destruct fuel; reflexivity. Qed.

(** One round of the loop on a candidate that is set: the routing table is
    asked about this candidate, and the next round starts with the same
    [addr]. *)
Lemma candidateLoop_round (fuel : nat) (subnet addr : IPNet) (routes : list Route)
    (s : State W) :
  routes <> [] -> IPNet_IP addr <> [] ->
  candidateLoop (S fuel) subnet routes addr s =
    let filter := mkRoute (Some addr) [] in
    let '(found, err, w) := hostRouteListFiltered 0 filter RT_FILTER_DST (world s) in
    let s1 := mkState w (trace s ++ [RouteListFiltered filter found err]) in
    match err with
    | Some e => (Go.Done (inr e), s1)
    | None => candidateLoop fuel subnet found addr s1
    end.
Proof.
  intros Hr Ha. destruct routes as [| r0 rs]; [contradiction |].
  cbn [candidateLoop]. change (0 <? len (r0 :: rs))%Z with true. cbn iota.
  rewrite (bool_decide_eq_false_2 _ Ha).
  unfold Go.bind at 1. unfold Go.bind at 1. cbn [Go.ret].
  unfold netlink_RouteListFiltered. rewrite call_eq.
  destruct (hostRouteListFiltered 0 (mkRoute (Some addr) []) RT_FILTER_DST (world s))
    as [[found err] w].
  cbn [fst snd]. destruct err; reflexivity.
Qed.

(** One round on an unset candidate: an address is drawn first. *)
Lemma candidateLoop_round_draw (fuel : nat) (subnet addr : IPNet) (routes : list Route)
    (s : State W) :
  routes <> [] -> IPNet_IP addr = [] ->
  candidateLoop (S fuel) subnet routes addr s =
    let '(ip, w0) := hostRandAddr subnet (world s) in
    let addr1 := mkIPNet ip (IPNet_Mask addr) in
    let filter := mkRoute (Some addr1) [] in
    let '(found, err, w) := hostRouteListFiltered 0 filter RT_FILTER_DST w0 in
    let s1 := mkState w ((trace s ++ [RandAddr subnet ip])
                          ++ [RouteListFiltered filter found err]) in
    match err with
    | Some e => (Go.Done (inr e), s1)
    | None => candidateLoop fuel subnet found addr1 s1
    end.
Proof.
  intros Hr Ha. destruct routes as [| r0 rs]; [contradiction |].
  cbn [candidateLoop]. change (0 <? len (r0 :: rs))%Z with true. cbn iota.
  rewrite (bool_decide_eq_true_2 _ Ha).
  unfold Go.bind at 1. unfold Go.bind at 1. unfold Go.bind at 1.
  unfold iputil_RandAddr. rewrite call_eq.
  destruct (hostRandAddr subnet (world s)) as [ip w0]. cbn [fst snd Go.ret].
  unfold netlink_RouteListFiltered. rewrite call_eq. cbn [world trace].
  destruct (hostRouteListFiltered 0 (mkRoute (Some (mkIPNet ip (IPNet_Mask addr))) [])
              RT_FILTER_DST w0) as [[found err] w].
  cbn [fst snd]. destruct err; reflexivity.
Qed.

(** A candidate the routing table keeps reporting a route for is asked about
    round after round: it is never cleared, and no address is drawn. *)
Lemma candidateLoop_spins (subnet addr : IPNet) (w : W) (r1 : Route) (rs : list Route) :
  IPNet_IP addr <> [] ->
  hostRouteListFiltered 0 (mkRoute (Some addr) []) RT_FILTER_DST w = (r1 :: rs, None, w) ->
  forall fuel routes t, routes <> [] ->
    candidateLoop fuel subnet routes addr (mkState w t) =
      (Go.OutOfFuel,
       mkState w (t ++ repeat (RouteListFiltered (mkRoute (Some addr) []) (r1 :: rs) None) fuel)).
Proof.
  intros Ha Hq. induction fuel as [| fuel IH]; intros routes t Hr.
  - destruct routes as [| r0 rs0]; [contradiction |].
    cbn. rewrite app_nil_r. reflexivity.
  - rewrite candidateLoop_round by assumption. cbn [world trace]. rewrite Hq.
    cbn zeta. rewrite IH by discriminate.
    rewrite <- app_assoc. reflexivity.
Qed.

(** When the loop ends with a candidate, the last thing it did was to ask
    the routing table about that candidate, and no route came back. The
    candidate is the one the loop started with if that was set, and otherwise
    one that [RandAddr] drew. *)
Lemma candidateLoop_done (subnet : IPNet) :
  forall fuel routes addr s addr' s',
    routes <> [] ->
    candidateLoop fuel subnet routes addr s = (Go.Done (inl addr'), s') ->
    exists evs,
      trace s' = trace s ++ evs ++ [RouteListFiltered (mkRoute (Some addr') []) [] None] /\
      IPNet_Mask addr' = IPNet_Mask addr /\
      (IPNet_IP addr <> [] -> IPNet_IP addr' = IPNet_IP addr) /\
      (IPNet_IP addr = [] -> RandAddr subnet (IPNet_IP addr') ∈ evs).
Proof.
  induction fuel as [| fuel IH]; intros routes addr s addr' s' Hr Hrun.
  - destruct routes as [| r0 rs]; [contradiction |].
    cbn [candidateLoop] in Hrun. change (0 <? len (r0 :: rs))%Z with true in Hrun.
    cbn beta iota in Hrun. discriminate Hrun.
  - destruct (decide (IPNet_IP addr = [])) as [Ha | Ha].
    + rewrite candidateLoop_round_draw in Hrun by assumption.
      destruct (hostRandAddr subnet (world s)) as [ip w0].
      cbv beta iota zeta in Hrun.
      destruct (hostRouteListFiltered 0 (mkRoute (Some (mkIPNet ip (IPNet_Mask addr))) [])
                  RT_FILTER_DST w0) as [[found err] w].
      destruct err as [e |]; [discriminate Hrun |].
      destruct found as [| r1 rs].
      * rewrite candidateLoop_nil in Hrun. injection Hrun as <- <-.
        exists [RandAddr subnet ip]. cbn [trace IPNet_Mask IPNet_IP].
        split; [now rewrite <- app_assoc |]. split; [reflexivity |].
        split; [intros; contradiction | intros _; apply list_elem_of_singleton; reflexivity].
      * apply IH in Hrun as (evs & Htr & Hm & Hset & Hdraw); [| discriminate].
        cbn [trace IPNet_Mask IPNet_IP] in *.
        exists (RandAddr subnet ip
                  :: RouteListFiltered (mkRoute (Some (mkIPNet ip (IPNet_Mask addr))) [])
                       (r1 :: rs) None :: evs).
        split; [rewrite Htr; rewrite <- !app_assoc; reflexivity |].
        split; [exact Hm |]. split; [intros; contradiction |].
        intros _. destruct (decide (ip = [])) as [Hip | Hip].
        -- apply list_elem_of_further, list_elem_of_further, Hdraw, Hip.
        -- rewrite (Hset Hip). apply list_elem_of_here.
    + rewrite candidateLoop_round in Hrun by assumption.
      cbv beta iota zeta in Hrun.
      destruct (hostRouteListFiltered 0 (mkRoute (Some addr) []) RT_FILTER_DST (world s))
        as [[found err] w].
      destruct err as [e |]; [discriminate Hrun |].
      destruct found as [| r1 rs].
      * rewrite candidateLoop_nil in Hrun. injection Hrun as <- <-.
        exists []. cbn [trace]. repeat split; try reflexivity. intros; contradiction.
      * apply IH in Hrun as (evs & Htr & Hm & Hset & Hdraw); [| discriminate].
        cbn [trace] in *.
        exists (RouteListFiltered (mkRoute (Some addr) []) (r1 :: rs) None :: evs).
        split; [rewrite Htr; rewrite <- !app_assoc; reflexivity |].
        split; [exact Hm |]. split; [exact Hset | intros; contradiction].
Qed.

End CandidateLoop.

(** ** [RequestAddress] past the gateway branch *)

Section RequestAddressRuns.
Import net netlink ipam vxrIpam.
Context {W : Type} {T : Text} {HW : Host W}.
Local Open Scope list_scope.

(** The candidate of a request as the loop first sees it: the parsed
    address under the single-host mask of the pool's address width. *)
Lemma RequestAddress_enters_loop (fuel : nat) (d : Driver) (r : RequestAddressRequest)
    (s : State W) (ip0 : IP) (subnet : IPNet) :
  ParseCIDR (PoolID r) = inl (ip0, subnet) ->
  index (Options r) "RequestAddressType" <> "com.docker.network.gateway" ->
  forall out s1,
    candidateLoop fuel subnet [zeroRoute]
      (mkIPNet (ParseIP (Address r))
         (CIDRMask (Size (IPNet_Mask subnet)).2 (Size (IPNet_Mask subnet)).2)) s = (out, s1) ->
    match out with
    | Go.Done (inl _) => True
    | Go.Done (inr e) => RequestAddress fuel d r s = (Go.Done (None, Some e), s1)
    | Go.Panic msg => RequestAddress fuel d r s = (Go.Panic msg, s1)
    | Go.OutOfFuel => RequestAddress fuel d r s = (Go.OutOfFuel, s1)
    end.
Proof.
  intros Hparse Hgw out s1 Hloop.
  destruct out as [[addr | e] | msg |]; [exact I | ..];
    unfold RequestAddress; rewrite Hparse;
    cbn [Go.deref Go.bind Go.ret IPNet_IP IPNet_Mask];
    rewrite (bool_decide_eq_false_2 _ Hgw);
    destruct (Size (IPNet_Mask subnet)) as [o ml]; cbn [snd] in Hloop;
    cbv beta iota zeta; unfold Go.bind at 1; rewrite Hloop; reflexivity.
Qed.

(** A request for an address the routing table keeps reporting a route for
    never comes back: round after round asks about the same candidate. *)
Lemma RequestAddress_spins (d : Driver) (r : RequestAddressRequest) (s : State W)
    (ip0 : IP) (subnet : IPNet) (r1 : Route) (rs : list Route) :
  ParseCIDR (PoolID r) = inl (ip0, subnet) ->
  index (Options r) "RequestAddressType" <> "com.docker.network.gateway" ->
  ParseIP (Address r) <> [] ->
  let cand := mkIPNet (ParseIP (Address r))
                (CIDRMask (Size (IPNet_Mask subnet)).2 (Size (IPNet_Mask subnet)).2) in
  hostRouteListFiltered 0 (mkRoute (Some cand) []) RT_FILTER_DST (world s)
    = (r1 :: rs, None, world s) ->
  forall fuel,
    RequestAddress fuel d r s =
      (Go.OutOfFuel,
       mkState (world s)
         (trace s ++ repeat (RouteListFiltered (mkRoute (Some cand) []) (r1 :: rs) None) fuel)).
Proof.
  intros Hparse Hgw Hip cand Hq fuel. destruct s as [w t]. cbn [world trace] in *.
  apply (RequestAddress_enters_loop fuel d r (mkState w t) ip0 subnet Hparse Hgw Go.OutOfFuel).
  apply (candidateLoop_spins subnet cand w r1 rs Hip Hq). discriminate.
Qed.

(** The same for a request with no address, once the address drawn has a
    route: it is drawn once and asked about for ever after. *)
Lemma RequestAddress_spins_drawn (d : Driver) (r : RequestAddressRequest) (s : State W)
    (ip0 : IP) (subnet : IPNet) (ip : IP) (w1 : W) (r1 : Route) (rs : list Route) :
  ParseCIDR (PoolID r) = inl (ip0, subnet) ->
  index (Options r) "RequestAddressType" <> "com.docker.network.gateway" ->
  ParseIP (Address r) = [] ->
  hostRandAddr subnet (world s) = (ip, w1) ->
  ip <> [] ->
  let cand := mkIPNet ip
                (CIDRMask (Size (IPNet_Mask subnet)).2 (Size (IPNet_Mask subnet)).2) in
  hostRouteListFiltered 0 (mkRoute (Some cand) []) RT_FILTER_DST w1 = (r1 :: rs, None, w1) ->
  forall fuel,
    RequestAddress (S fuel) d r s =
      (Go.OutOfFuel,
       mkState w1
         (trace s ++ RandAddr subnet ip
            :: repeat (RouteListFiltered (mkRoute (Some cand) []) (r1 :: rs) None) (S fuel))).
Proof.
  intros Hparse Hgw Hnil Hdraw Hip cand Hq fuel.
  apply (RequestAddress_enters_loop (S fuel) d r s ip0 subnet Hparse Hgw Go.OutOfFuel).
  rewrite candidateLoop_round_draw; [| discriminate | exact Hnil].
  rewrite Hdraw. cbn [IPNet_Mask]. fold cand. rewrite Hq. cbv beta iota zeta.
  rewrite (candidateLoop_spins subnet cand w1 r1 rs Hip Hq) by discriminate.
  rewrite <- !app_assoc. reflexivity.
Qed.

(** A request that is no gateway request and comes back with an address:
    the loop ended with a candidate, and the four calls after the loop all
    succeeded, in the order of the source. *)
Lemma RequestAddress_returned_inv (fuel : nat) (d : Driver)
    (r : RequestAddressRequest) (s s' : State W) (resp : RequestAddressResponse) :
  RequestAddress fuel d r s = (Go.Done (Some resp, None), s') ->
  index (Options r) "RequestAddressType" <> "com.docker.network.gateway" ->
  exists ip0 subnet addr s1 nr e gw,
    ParseCIDR (PoolID r) = inl (ip0, subnet) /\
    candidateLoop fuel subnet [zeroRoute]
      (mkIPNet (ParseIP (Address r))
         (CIDRMask (Size (IPNet_Mask subnet)).2 (Size (IPNet_Mask subnet)).2)) s
      = (Go.Done (inl addr), s1) /\
    Resp_Address resp = IPNet_String (mkIPNet (IPNet_IP addr) (IPNet_Mask subnet)) /\
    trace s' = trace s1 ++
      [GetNetworkResourceBySubnet (PoolID r) (Some nr) e;
       ConnectHost (types.ID nr) None;
       GetGatewayBySubnet (PoolID r) (Some gw) None;
       RouteAdd (mkRoute (Some addr) (IPNet_IP gw)) None].
Proof.
  intros Hrun Hgw. unfold RequestAddress in Hrun.
  destruct (ParseCIDR (PoolID r)) as [[ip0 subnet] | e0] eqn:Hparse; [| discriminate Hrun].
  cbn [Go.deref Go.bind Go.ret IPNet_IP IPNet_Mask] in Hrun.
  rewrite (bool_decide_eq_false_2 _ Hgw) in Hrun.
  destruct (Size (IPNet_Mask subnet)) as [o ml] eqn:HS.
  cbv beta iota zeta in Hrun. unfold Go.bind at 1 in Hrun.
  destruct (candidateLoop fuel subnet [zeroRoute]
              (mkIPNet (ParseIP (Address r)) (CIDRMask ml ml)) s)
    as [[[addr | e1] | msg |] s1] eqn:Hloop; try discriminate Hrun.
  unfold vxrNet_GetNetworkResourceBySubnet, vxrNet_ConnectHost,
    vxrNet_GetGatewayBySubnet, netlink_RouteAdd in Hrun.
  unfold Go.bind at 1 in Hrun. rewrite call_eq in Hrun.
  destruct (hostGetNetworkResourceBySubnet (PoolID r) (world s1)) as [[nr e] w2].
  cbn [fst snd] in Hrun.
  destruct nr as [nr |]; [| destruct e; discriminate Hrun].
  unfold Go.bind at 1 in Hrun. rewrite call_eq in Hrun. cbn [world trace] in Hrun.
  destruct (hostConnectHost (types.ID nr) w2) as [ec w3]. cbn [fst snd] in Hrun.
  destruct ec as [ec |]; [discriminate Hrun |].
  unfold Go.bind at 1 in Hrun. rewrite call_eq in Hrun. cbn [world trace] in Hrun.
  destruct (hostGetGatewayBySubnet (PoolID r) w3) as [[gw eg] w4]. cbn [fst snd] in Hrun.
  destruct eg as [eg |]; [discriminate Hrun |].
  destruct gw as [gw |]; [| discriminate Hrun].
  cbn [Go.deref Go.bind Go.ret] in Hrun. unfold Go.bind at 1 in Hrun.
  rewrite call_eq in Hrun. cbn [world trace] in Hrun.
  destruct (hostRouteAdd (mkRoute (Some addr) (IPNet_IP gw)) w4) as [ea w5].
  cbn [fst snd] in Hrun. destruct ea as [ea |]; [discriminate Hrun |].
  injection Hrun as <- <-.
  exists ip0, subnet, addr, s1, nr, e, gw. rewrite HS. cbn [snd trace Resp_Address].
  split; [reflexivity |]. split; [exact Hloop |]. split; [reflexivity |].
  rewrite <- !app_assoc. reflexivity.
Qed.

(** The host's answers behind a loop that ends with a candidate: the
    events before the last check are the host's answers from the world the
    loop started in, and the last check is the host's answer, in the world
    they led to, that the candidate has no route. *)
Lemma replays_app (w w' : W) (a b : list Event) :
  replays w (a ++ b) w' <-> exists wm, replays w a wm /\ replays wm b w'.
Proof.
  revert w. induction a as [| ev a IH]; intros w; cbn [app replays].
  - split; [intros Hb; now exists w | intros (wm & -> & Hb); exact Hb].
  - split.
    + intros (w1 & Hev & Hrest). apply IH in Hrest as (wm & Ha & Hb).
      exists wm. split; [now exists w1 | exact Hb].
    + intros (wm & (w1 & Hev & Ha) & Hb). exists w1. split; [exact Hev |].
      apply IH. now exists wm.
Qed.

Lemma candidateLoop_done_answered (subnet : IPNet) :
  forall fuel routes addr s addr' s',
    routes <> [] ->
    candidateLoop fuel subnet routes addr s = (Go.Done (inl addr'), s') ->
    exists evs w,
      trace s' = trace s ++ evs ++ [RouteListFiltered (mkRoute (Some addr') []) [] None] /\
      replays (world s) evs w /\
      hostRouteListFiltered 0 (mkRoute (Some addr') []) RT_FILTER_DST w
        = (([], None), world s') /\
      IPNet_Mask addr' = IPNet_Mask addr /\
      (IPNet_IP addr <> [] -> IPNet_IP addr' = IPNet_IP addr) /\
      (IPNet_IP addr = [] -> RandAddr subnet (IPNet_IP addr') ∈ evs).
Proof.
  induction fuel as [| fuel IH]; intros routes addr s addr' s' Hr Hrun.
  - destruct routes as [| r0 rs]; [contradiction |].
    cbn [candidateLoop] in Hrun. change (0 <? len (r0 :: rs))%Z with true in Hrun.
    cbn beta iota in Hrun. discriminate Hrun.
  - destruct (decide (IPNet_IP addr = [])) as [Ha | Ha].
    + rewrite candidateLoop_round_draw in Hrun by assumption.
      destruct (hostRandAddr subnet (world s)) as [ip w0] eqn:Hdrawn.
      cbv beta iota zeta in Hrun.
      destruct (hostRouteListFiltered 0 (mkRoute (Some (mkIPNet ip (IPNet_Mask addr))) [])
                  RT_FILTER_DST w0) as [[found err] w] eqn:Hq.
      destruct err as [e |]; [discriminate Hrun |].
      destruct found as [| r1 rs].
      * rewrite candidateLoop_nil in Hrun. injection Hrun as <- <-.
        exists [RandAddr subnet ip], w0. cbn [trace world IPNet_Mask IPNet_IP].
        split; [now rewrite <- app_assoc |].
        split; [cbn [replays hostAnswered]; now exists w0 |].
        split; [exact Hq |]. split; [reflexivity |].
        split; [intros; contradiction | intros _; apply list_elem_of_singleton; reflexivity].
      * apply IH in Hrun as (evs & wc & Htr & Hrep & Hans & Hm & Hset & Hdraw);
          [| discriminate].
        cbn [trace world IPNet_Mask IPNet_IP] in *.
        exists (RandAddr subnet ip
                  :: RouteListFiltered (mkRoute (Some (mkIPNet ip (IPNet_Mask addr))) [])
                       (r1 :: rs) None :: evs), wc.
        split; [rewrite Htr; rewrite <- !app_assoc; reflexivity |].
        split; [cbn [replays hostAnswered]; exists w0; split; [exact Hdrawn |];
                exists w; split; [exact Hq | exact Hrep] |].
        split; [exact Hans |]. split; [exact Hm |]. split; [intros; contradiction |].
        intros _. destruct (decide (ip = [])) as [Hip | Hip].
        -- apply list_elem_of_further, list_elem_of_further, Hdraw, Hip.
        -- rewrite (Hset Hip). apply list_elem_of_here.
    + rewrite candidateLoop_round in Hrun by assumption.
      cbv beta iota zeta in Hrun.
      destruct (hostRouteListFiltered 0 (mkRoute (Some addr) []) RT_FILTER_DST (world s))
        as [[found err] w] eqn:Hq.
      destruct err as [e |]; [discriminate Hrun |].
      destruct found as [| r1 rs].
      * rewrite candidateLoop_nil in Hrun. injection Hrun as <- <-.
        exists [], (world s). cbn [trace world replays].
        split; [reflexivity |]. split; [reflexivity |]. split; [exact Hq |].
        split; [reflexivity |]. split; [reflexivity | intros; contradiction].
      * apply IH in Hrun as (evs & wc & Htr & Hrep & Hans & Hm & Hset & Hdraw);
          [| discriminate].
        cbn [trace world] in *.
        exists (RouteListFiltered (mkRoute (Some addr) []) (r1 :: rs) None :: evs), wc.
        split; [rewrite Htr; rewrite <- !app_assoc; reflexivity |].
        split; [cbn [replays hostAnswered]; exists w; split; [exact Hq | exact Hrep] |].
        split; [exact Hans |]. split; [exact Hm |].
        split; [exact Hset | intros; contradiction].
Qed.

(** The host's answers behind the four calls after the loop of a request
    that comes back with an address. *)
Lemma RequestAddress_returned_answered (fuel : nat) (d : Driver)
    (r : RequestAddressRequest) (s s' : State W) (resp : RequestAddressResponse) :
  RequestAddress fuel d r s = (Go.Done (Some resp, None), s') ->
  index (Options r) "RequestAddressType" <> "com.docker.network.gateway" ->
  exists ip0 subnet addr s1 nr e gw,
    ParseCIDR (PoolID r) = inl (ip0, subnet) /\
    candidateLoop fuel subnet [zeroRoute]
      (mkIPNet (ParseIP (Address r))
         (CIDRMask (Size (IPNet_Mask subnet)).2 (Size (IPNet_Mask subnet)).2)) s
      = (Go.Done (inl addr), s1) /\
    Resp_Address resp = IPNet_String (mkIPNet (IPNet_IP addr) (IPNet_Mask subnet)) /\
    trace s' = trace s1 ++
      [GetNetworkResourceBySubnet (PoolID r) (Some nr) e;
       ConnectHost (types.ID nr) None;
       GetGatewayBySubnet (PoolID r) (Some gw) None;
       RouteAdd (mkRoute (Some addr) (IPNet_IP gw)) None] /\
    replays (world s1)
      [GetNetworkResourceBySubnet (PoolID r) (Some nr) e;
       ConnectHost (types.ID nr) None;
       GetGatewayBySubnet (PoolID r) (Some gw) None;
       RouteAdd (mkRoute (Some addr) (IPNet_IP gw)) None] (world s').
Proof.
  intros Hrun Hgw. unfold RequestAddress in Hrun.
  destruct (ParseCIDR (PoolID r)) as [[ip0 subnet] | e0] eqn:Hparse; [| discriminate Hrun].
  cbn [Go.deref Go.bind Go.ret IPNet_IP IPNet_Mask] in Hrun.
  rewrite (bool_decide_eq_false_2 _ Hgw) in Hrun.
  destruct (Size (IPNet_Mask subnet)) as [o ml] eqn:HS.
  cbv beta iota zeta in Hrun. unfold Go.bind at 1 in Hrun.
  destruct (candidateLoop fuel subnet [zeroRoute]
              (mkIPNet (ParseIP (Address r)) (CIDRMask ml ml)) s)
    as [[[addr | e1] | msg |] s1] eqn:Hloop; try discriminate Hrun.
  unfold vxrNet_GetNetworkResourceBySubnet, vxrNet_ConnectHost,
    vxrNet_GetGatewayBySubnet, netlink_RouteAdd in Hrun.
  unfold Go.bind at 1 in Hrun. rewrite call_eq in Hrun.
  destruct (hostGetNetworkResourceBySubnet (PoolID r) (world s1)) as [[nr e] w2] eqn:Hnr.
  cbn [fst snd] in Hrun.
  destruct nr as [nr |]; [| destruct e; discriminate Hrun].
  unfold Go.bind at 1 in Hrun. rewrite call_eq in Hrun. cbn [world trace] in Hrun.
  destruct (hostConnectHost (types.ID nr) w2) as [ec w3] eqn:Hcon. cbn [fst snd] in Hrun.
  destruct ec as [ec |]; [discriminate Hrun |].
  unfold Go.bind at 1 in Hrun. rewrite call_eq in Hrun. cbn [world trace] in Hrun.
  destruct (hostGetGatewayBySubnet (PoolID r) w3) as [[gw eg] w4] eqn:Hgate.
  cbn [fst snd] in Hrun.
  destruct eg as [eg |]; [discriminate Hrun |].
  destruct gw as [gw |]; [| discriminate Hrun].
  cbn [Go.deref Go.bind Go.ret] in Hrun. unfold Go.bind at 1 in Hrun.
  rewrite call_eq in Hrun. cbn [world trace] in Hrun.
  destruct (hostRouteAdd (mkRoute (Some addr) (IPNet_IP gw)) w4) as [ea w5] eqn:Hadd.
  cbn [fst snd] in Hrun. destruct ea as [ea |]; [discriminate Hrun |].
  injection Hrun as <- <-.
  exists ip0, subnet, addr, s1, nr, e, gw. rewrite HS. cbn [snd trace world Resp_Address].
  split; [reflexivity |]. split; [exact Hloop |]. split; [reflexivity |].
  split; [rewrite <- !app_assoc; reflexivity |].
  cbn [replays hostAnswered].
  exists w2. split; [exact Hnr |]. exists w3. split; [exact Hcon |].
  exists w4. split; [exact Hgate |]. exists w5. split; [exact Hadd | reflexivity].
Qed.

(** C5. A request that is no gateway request and comes back with an address
    returns a candidate [ip] that had no route in the host's routing table
    at the time of its route check. The calls before the check ([evs]) are
    the host's answers from the world the request started in to a world [w];
    in [w] the host, asked for the routes to [ip] under the single-host mask
    (all [bits] bits set, for a pool of address width [bits]), answered with
    no route and no error; from the world that answer left, the host
    resolved the network, attached itself, resolved the gateway and added
    the route to [ip], and that is the world the request ends in. Read as a
    table: whenever the host's route listing is the routes of a table
    [table w0] that [matches] the filter, none of the routes of [table w]
    matches [ip] under the single-host mask, so [ip] is none of the
    addresses routed there. With no address in the request, [ip] is an
    address [RandAddr] drew; with one, it is that address. *)
Theorem RequestAddress_returns_unrouted (fuel : nat) (d : Driver)
    (r : RequestAddressRequest) (s s' : State W) (resp : RequestAddressResponse) :
  RequestAddress fuel d r s = (Go.Done (Some resp, None), s') ->
  index (Options r) "RequestAddressType" <> "com.docker.network.gateway" ->
  exists ip0 subnet ip evs nr e gw w w1,
    let cand := mkIPNet ip
                  (CIDRMask (Size (IPNet_Mask subnet)).2 (Size (IPNet_Mask subnet)).2) in
    let after :=
      [GetNetworkResourceBySubnet (PoolID r) (Some nr) e;
       ConnectHost (types.ID nr) None;
       GetGatewayBySubnet (PoolID r) (Some gw) None;
       RouteAdd (mkRoute (Some cand) (IPNet_IP gw)) None] in
    ParseCIDR (PoolID r) = inl (ip0, subnet) /\
    Resp_Address resp = IPNet_String (mkIPNet ip (IPNet_Mask subnet)) /\
    trace s' = trace s ++ evs ++
      RouteListFiltered (mkRoute (Some cand) []) [] None :: after /\
    replays (world s) evs w /\
    hostRouteListFiltered 0 (mkRoute (Some cand) []) RT_FILTER_DST w = (([], None), w1) /\
    replays w1 after (world s') /\
    (forall (table : W -> list Route) (matches : Route -> Route -> bool),
       (forall f w0, (hostRouteListFiltered 0 f RT_FILTER_DST w0).1.1
                     = List.filter (matches f) (table w0)) ->
       Forall (fun route => matches (mkRoute (Some cand) []) route = false) (table w)) /\
    (ParseIP (Address r) = [] -> RandAddr subnet ip ∈ evs) /\
    (ParseIP (Address r) <> [] -> ip = ParseIP (Address r)) /\
    (forall ones bits,
       Size (IPNet_Mask subnet) = (ones, bits) -> bits = 32%Z \/ bits = 128%Z ->
       Size (IPNet_Mask cand) = (bits, bits)).
Proof.
  intros Hrun Hgw.
  destruct (RequestAddress_returned_answered fuel d r s s' resp Hrun Hgw)
    as (ip0 & subnet & addr & s1 & nr & e & gw & Hparse & Hloop & Hresp & Htr' & Hafter).
  apply candidateLoop_done_answered in Hloop
    as (evs & w & Htr & Hrep & Hans & Hm & Hset & Hdraw); [| discriminate].
  cbn [IPNet_IP IPNet_Mask] in Hm, Hset, Hdraw.
  assert (Haddr : addr = mkIPNet (IPNet_IP addr)
                           (CIDRMask (Size (IPNet_Mask subnet)).2 (Size (IPNet_Mask subnet)).2))
    by (destruct addr as [i m]; cbn in *; now subst m).
  exists ip0, subnet, (IPNet_IP addr), evs, nr, e, gw, w, (world s1).
  cbv zeta. rewrite <- Haddr.
  split; [exact Hparse |]. split; [exact Hresp |].
  split; [rewrite Htr', Htr, <- !app_assoc; reflexivity |].
  split; [exact Hrep |]. split; [exact Hans |]. split; [exact Hafter |].
  split; [| split; [assumption | split; [assumption |]]].
  - intros table matches Hlist. apply List.Forall_forall. intros route Hin.
    destruct (matches (mkRoute (Some addr) []) route) eqn:Hmatch; [| reflexivity].
    exfalso. specialize (Hlist (mkRoute (Some addr) []) w). rewrite Hans in Hlist.
    cbn [fst] in Hlist.
    assert (Hf : List.In route (List.filter (matches (mkRoute (Some addr) [])) (table w)))
      by (apply List.filter_In; split; assumption).
    rewrite <- Hlist in Hf. exact Hf.
  - intros ones bits HS Hb. rewrite Hm, HS. cbn [snd].
    apply Size_CIDRMask; [exact Hb |]. destruct Hb as [-> | ->]; lia.
Qed.

End RequestAddressRuns.

(** ** The driver on the host of the end-to-end scenario

    Pool [10.1.1.0/24], a host route to [10.1.1.5/32], the dotted-quad
    fragment of the [net] package. *)

Section OnHost1.
Import net netlink ipam vxrIpam.
Local Open Scope list_scope.

(** C1 (what the code does). On a host with a route to [10.1.1.5/32], a
    request for the address [10.1.1.5] is still asking the routing table
    about [10.1.1.5/32] when the fuel runs out, whatever the fuel: the
    candidate is not cleared, and [RandAddr] is not called although the
    host has addresses to draw. A request with no address that draws
    [10.1.1.5] first draws once and is stuck on it in the same way. *)
Theorem RequestAddress_taken_candidate_is_kept :
  (forall fuel draws,
     sim.requestAddress fuel sim.reqTaken (sim.host1 draws) =
       (Go.OutOfFuel,
        mkState (sim.host1 draws)
          (repeat (RouteListFiltered (sim.check sim.ip5) [sim.route5] None) fuel))) /\
  (forall fuel draws,
     sim.requestAddress (S fuel) sim.reqAny (sim.host1 (sim.ip5 :: draws)) =
       (Go.OutOfFuel,
        mkState (sim.host1 draws)
          (RandAddr sim.subnet1 sim.ip5
             :: repeat (RouteListFiltered (sim.check sim.ip5) [sim.route5] None) (S fuel)))).
Proof.
  split; intros fuel draws.
  - apply (@RequestAddress_spins sim.World ipv4.text sim.host sim.driver sim.reqTaken
             (sim.start (sim.host1 draws))
             (v4InV6Prefix ++ [10; 1; 1; 0]%Z) sim.subnet1 sim.route5 []);
      first [reflexivity | discriminate].
  - apply (@RequestAddress_spins_drawn sim.World ipv4.text sim.host sim.driver sim.reqAny
             (sim.start (sim.host1 (sim.ip5 :: draws)))
             (v4InV6Prefix ++ [10; 1; 1; 0]%Z) sim.subnet1 sim.ip5 (sim.host1 draws)
             sim.route5 []);
      first [reflexivity | discriminate].
Qed.

(** A host that answers route queries from its table ([sim.host]): the
    loop leaves the table alone, and the candidate it ends with matches no
    route of the table. *)
Lemma host_candidateLoop_unrouted (subnet : IPNet) :
  forall fuel found addr w t addr' s',
    found <> [] ->
    @candidateLoop sim.World sim.host fuel subnet found addr (mkState w t)
      = (Go.Done (inl addr'), s') ->
    sim.routes (world s') = sim.routes w /\
    List.filter (sim.dstMatches (mkRoute (Some addr') [])) (sim.routes w) = [].
Proof.
  induction fuel as [| fuel IH]; intros found addr w t addr' s' Hf Hrun.
  - destruct found as [| r0 rs]; [contradiction |].
    cbn [candidateLoop] in Hrun. change (0 <? len (r0 :: rs))%Z with true in Hrun.
    cbn beta iota in Hrun. discriminate Hrun.
  - destruct (decide (IPNet_IP addr = [])) as [Ha | Ha].
    + rewrite candidateLoop_round_draw in Hrun by assumption.
      cbn [world trace hostRandAddr hostRouteListFiltered sim.host] in Hrun.
      destruct (sim.draws w) as [| ip rest];
        cbv beta iota zeta in Hrun; cbn [sim.routes] in Hrun;
        match type of Hrun with
        | context [List.filter ?f (sim.routes w)] =>
            destruct (List.filter f (sim.routes w)) as [| r1 rs] eqn:Hq
        end;
        try (rewrite candidateLoop_nil in Hrun; injection Hrun as <- <-;
             cbn [world sim.routes]; split; [reflexivity | exact Hq]);
        apply IH in Hrun as [Hw Hfree]; try discriminate;
        cbn [sim.routes] in Hw, Hfree; split; assumption.
    + rewrite candidateLoop_round in Hrun by assumption.
      cbn [world trace hostRouteListFiltered sim.host] in Hrun.
      cbv beta iota zeta in Hrun.
      destruct (List.filter (sim.dstMatches (mkRoute (Some addr) [])) (sim.routes w))
        as [| r1 rs] eqn:Hq.
      * rewrite candidateLoop_nil in Hrun. injection Hrun as <- <-.
        cbn [world]. split; [reflexivity | exact Hq].
      * apply IH in Hrun; [exact Hrun | discriminate].
Qed.

Lemma filter_nil_Forall {A} (f : A -> bool) (l : list A) :
  List.filter f l = [] -> Forall (fun x => f x = false) l.
Proof.
  induction l as [| x l IH]; cbn; [constructor |].
  destruct (f x) eqn:Hx; [discriminate |]. intros Hl. constructor; auto.
Qed.

(** The conflict avoidance of C5 on such a host, with any routes in its
    table: the address a request returns matches none of them. *)
Lemma RequestAddress_avoids_routes {T : Text} (fuel : nat) (d : Driver)
    (r : RequestAddressRequest) (w : sim.World) (t : list Event)
    (s' : State sim.World) (resp : RequestAddressResponse) :
  @RequestAddress sim.World T sim.host fuel d r (mkState w t)
    = (Go.Done (Some resp, None), s') ->
  index (Options r) "RequestAddressType" <> "com.docker.network.gateway" ->
  exists ip0 subnet ip,
    ParseCIDR (PoolID r) = inl (ip0, subnet) /\
    Resp_Address resp = IPNet_String (mkIPNet ip (IPNet_Mask subnet)) /\
    Forall
      (fun route =>
         sim.dstMatches
           (mkRoute
              (Some (mkIPNet ip (CIDRMask (Size (IPNet_Mask subnet)).2
                                          (Size (IPNet_Mask subnet)).2))) [])
           route = false)
      (sim.routes w).
Proof.
  intros Hrun Hgw.
  destruct (RequestAddress_returned_inv fuel d r _ s' resp Hrun Hgw)
    as (ip0 & subnet & addr & s1 & nr & e & gw & Hparse & Hloop & Hresp & _).
  pose proof Hloop as Hdone.
  apply candidateLoop_done in Hdone as (evs & _ & Hm & _); [| discriminate].
  apply host_candidateLoop_unrouted in Hloop as [_ Hfree]; [| discriminate].
  cbn [IPNet_Mask] in Hm.
  exists ip0, subnet, (IPNet_IP addr). split; [exact Hparse |]. split; [exact Hresp |].
  rewrite <- Hm. apply filter_nil_Forall.
  destruct addr as [i m]. exact Hfree.
Qed.

(** The pool identifier ["vxr-pool-1"] is no subnet: the request panics. *)
Lemma RequestAddress_invalid_pool_panics_witness :
  @ParseCIDR ipv4.text (PoolID sim.reqBadPool) = inr "invalid CIDR address: vxr-pool-1" /\
  sim.requestAddress 3 sim.reqBadPool (sim.host1 []) =
    (Go.Panic Go.nilDeref, sim.start (sim.host1 [])).
Proof.
  split; [reflexivity |].
  apply (@RequestAddress_invalid_pool_panics sim.World ipv4.text sim.host 3 sim.driver
           sim.reqBadPool (sim.start (sim.host1 [])) "invalid CIDR address: vxr-pool-1").
  reflexivity.
Defined.

(** The gateway request for [10.1.1.1] on [10.1.1.0/24] answers
    ["10.1.1.1/24"] and leaves the host as it was. *)
Lemma RequestAddress_gateway_short_circuit_witness :
  @ParseCIDR ipv4.text (PoolID sim.reqGateway)
    = inl (v4InV6Prefix ++ [10; 1; 1; 0]%Z, sim.subnet1) /\
  index (Options sim.reqGateway) "RequestAddressType" = "com.docker.network.gateway" /\
  exists resp,
    sim.requestAddress 3 sim.reqGateway (sim.host1 []) =
      (Go.Done (Some resp, None), sim.start (sim.host1 [])) /\
    Resp_Address resp = "10.1.1.1/24".
Proof.
  split; [reflexivity |]. split; [reflexivity |].
  destruct (@RequestAddress_gateway_short_circuit sim.World ipv4.text sim.host 3 sim.driver
              sim.reqGateway (sim.start (sim.host1 []))
              (v4InV6Prefix ++ [10; 1; 1; 0]%Z) sim.subnet1 eq_refl eq_refl)
    as (resp & Hrun & _ & Hv4 & _).
  exists resp. split; [exact Hrun |].
  exact (Hv4 24%Z eq_refl eq_refl).
Defined.

(** The gateway request with no address on [10.1.1.0/24] answers ["<nil>"]. *)
Lemma RequestAddress_gateway_unparsed_address_witness :
  @ParseCIDR ipv4.text (PoolID sim.reqGatewayNoAddress)
    = inl (v4InV6Prefix ++ [10; 1; 1; 0]%Z, sim.subnet1) /\
  index (Options sim.reqGatewayNoAddress) "RequestAddressType"
    = "com.docker.network.gateway" /\
  @ParseIP ipv4.text (Address sim.reqGatewayNoAddress) = [] /\
  sim.requestAddress 3 sim.reqGatewayNoAddress (sim.host1 []) =
    (Go.Done (Some (mkRequestAddressResponse "<nil>" ∅), None), sim.start (sim.host1 [])).
Proof.
  split; [reflexivity |]. split; [reflexivity |]. split; [reflexivity |].
  apply (@RequestAddress_gateway_unparsed_address sim.World ipv4.text sim.host 3 sim.driver
           sim.reqGatewayNoAddress (sim.start (sim.host1 []))
           (v4InV6Prefix ++ [10; 1; 1; 0]%Z) sim.subnet1);
    reflexivity.
Defined.

(** A request for any address, on the host that has a route to
    [10.1.1.5/32] and whose next draw is [10.1.1.9]: the answer is
    ["10.1.1.9/24"], and the host's answers are those C5 gives. *)
Lemma RequestAddress_returns_unrouted_witness :
  let run := sim.requestAddress 3 sim.reqAny (sim.host1 [sim.ip9]) in
  run.1 = Go.Done (Some (mkRequestAddressResponse "10.1.1.9/24" ∅), None) /\
  index (Options sim.reqAny) "RequestAddressType" <> "com.docker.network.gateway" /\
  exists ip0 subnet ip evs nr e gw w w1,
    let cand := mkIPNet ip
                  (CIDRMask (Size (IPNet_Mask subnet)).2 (Size (IPNet_Mask subnet)).2) in
    let after :=
      [GetNetworkResourceBySubnet (PoolID sim.reqAny) (Some nr) e;
       ConnectHost (types.ID nr) None;
       GetGatewayBySubnet (PoolID sim.reqAny) (Some gw) None;
       RouteAdd (mkRoute (Some cand) (IPNet_IP gw)) None] in
    @ParseCIDR ipv4.text (PoolID sim.reqAny) = inl (ip0, subnet) /\
    "10.1.1.9/24" = @IPNet_String ipv4.text (mkIPNet ip (IPNet_Mask subnet)) /\
    trace run.2 = [] ++ evs ++
      RouteListFiltered (mkRoute (Some cand) []) [] None :: after /\
    @replays sim.World sim.host (sim.host1 [sim.ip9]) evs w /\
    @hostRouteListFiltered sim.World sim.host 0 (mkRoute (Some cand) []) RT_FILTER_DST w
      = (([], None), w1) /\
    @replays sim.World sim.host w1 after (world run.2) /\
    (forall (table : sim.World -> list Route) (matches : Route -> Route -> bool),
       (forall f w0, (@hostRouteListFiltered sim.World sim.host 0 f RT_FILTER_DST w0).1.1
                     = List.filter (matches f) (table w0)) ->
       Forall (fun route => matches (mkRoute (Some cand) []) route = false) (table w)) /\
    (@ParseIP ipv4.text (Address sim.reqAny) = [] -> RandAddr subnet ip ∈ evs) /\
    (@ParseIP ipv4.text (Address sim.reqAny) <> [] ->
     ip = @ParseIP ipv4.text (Address sim.reqAny)) /\
    (forall ones bits,
       Size (IPNet_Mask subnet) = (ones, bits) -> bits = 32%Z \/ bits = 128%Z ->
       Size (IPNet_Mask cand) = (bits, bits)).
Proof.
  intros run. split; [reflexivity |]. split; [discriminate |].
  apply (@RequestAddress_returns_unrouted sim.World ipv4.text sim.host 3 sim.driver
           sim.reqAny (sim.start (sim.host1 [sim.ip9])) run.2
           (mkRequestAddressResponse "10.1.1.9/24" ∅)).
  - reflexivity.
  - discriminate.
Defined.

End OnHost1.

(** ** Deriving the pool of a network resource *)

Section PoolDerivation.
Import types client.
Local Open Scope list_scope.

Lemma poolFromConfig_found (cfg : list IPAMConfig) (s : string) :
  poolFromConfig cfg = (s, None) <->
  exists pre c post,
    cfg = pre ++ c :: post /\ Forall (fun e => Subnet e = "") pre /\
    Subnet c = s /\ s <> "".
Proof.
  induction cfg as [| c0 rest IH]; cbn [poolFromConfig].
  - split; [discriminate |].
    intros (pre & c & post & Hcfg & _). destruct pre; discriminate Hcfg.
  - destruct (decide (Subnet c0 = "")) as [He | Hne].
    + rewrite bool_decide_eq_false_2 by (intros Hn; apply Hn, He).
      rewrite IH. split.
      * intros (pre & c & post & -> & Hpre & Hc & Hs).
        exists (c0 :: pre), c, post. repeat split; auto.
      * intros (pre & c & post & Hcfg & Hpre & Hc & Hs).
        destruct pre as [| e pre]; cbn in Hcfg; injection Hcfg as -> ->.
        -- congruence.
        -- exists pre, c, post. repeat split; auto. now inversion Hpre.
    + rewrite bool_decide_eq_true_2 by exact Hne. split.
      * intros [= <-]. exists [], c0, rest. repeat split; auto.
      * intros (pre & c & post & Hcfg & Hpre & Hc & Hs).
        destruct pre as [| e pre]; cbn in Hcfg; injection Hcfg as -> ->.
        -- now rewrite Hc.
        -- inversion Hpre; contradiction.
Qed.

Lemma poolFromConfig_not_found (cfg : list IPAMConfig) :
  poolFromConfig cfg = ("", Some "pool not found") <->
  Forall (fun e => Subnet e = "") cfg.
Proof.
  induction cfg as [| c0 rest IH]; cbn [poolFromConfig].
  - split; [constructor | reflexivity].
  - destruct (decide (Subnet c0 = "")) as [He | Hne].
    + rewrite bool_decide_eq_false_2 by (intros Hn; apply Hn, He).
      rewrite IH. split; [now constructor | now inversion 1].
    + rewrite bool_decide_eq_true_2 by exact Hne.
      split; [discriminate | inversion 1; contradiction].
Qed.

Lemma poolFromConfig_cases (cfg : list IPAMConfig) :
  (exists s, poolFromConfig cfg = (s, None)) \/
  poolFromConfig cfg = ("", Some "pool not found").
Proof.
  induction cfg as [| c0 rest IH]; cbn [poolFromConfig]; [now right |].
  destruct (bool_decide (Subnet c0 <> "")); [left; eauto | exact IH].
Qed.

(** C7. [poolFromNR] walks the IPAM configuration in order and returns the
    subnet of the first entry whose subnet is not empty: the entries before
    it all have an empty one, the entries after it do not matter. It fails,
    with ["pool not found"], exactly when every entry has an empty subnet;
    and it always does the one or the other. *)
Theorem poolFromNR_first_nonempty_subnet (nr : NetworkResource) :
  (forall s,
     poolFromNR nr = (s, None) <->
     exists pre c post,
       Config (NR_IPAM nr) = pre ++ c :: post /\
       Forall (fun e => Subnet e = "") pre /\ Subnet c = s /\ s <> "") /\
  (poolFromNR nr = ("", Some "pool not found") <->
     Forall (fun e => Subnet e = "") (Config (NR_IPAM nr))) /\
  ((exists s, poolFromNR nr = (s, None)) \/
   poolFromNR nr = ("", Some "pool not found")).
Proof.
  unfold poolFromNR. split; [| split].
  - intros s. apply poolFromConfig_found.
  - apply poolFromConfig_not_found.
  - apply poolFromConfig_cases.
Qed.

End PoolDerivation.

(** ** The network-resource cache *)

Section CacheProperties.
Import types client.
Context {W : Type} {API : DockerAPI W}.
Local Open Scope list_scope.

(** A lookup by ID that hits: the record, and nothing but the read. *)
Lemma GetNetworkResourceByID_hit (id : string) (s : State W) (p : ptr) :
  nrByID (cache s) !! id = Some p ->
  GetNetworkResourceByID id s =
    (Go.Done (Some p, None),
     mkState (heap s) (cache s) (world s) (trace s ++ [RLock; ReadByID id; RUnlock])).
Proof.
  intros Hhit. unfold GetNetworkResourceByID, Go.bind, emit, readByID.
  cbn [heap cache world trace]. rewrite Hhit. unfold Go.bind, emit.
  cbn [heap cache world trace Go.ret]. rewrite <- !app_assoc. reflexivity.
Qed.

(** [cacheNetworkResource] on the record just put at [length h]. *)
Lemma cacheNetworkResource_fresh (h : list NetworkResource) (nr : NetworkResource)
    (c : Client) (w : W) (t : list Event) :
  cacheNetworkResource (length h) (mkState (h ++ [nr]) c w t) =
    match poolFromNR nr with
    | (pool, None) =>
        (Go.Done tt,
         mkState (h ++ [nr])
           (mkClient (<[ID nr := length h]> (nrByID c)) (<[pool := length h]> (nrByPool c)))
           w (t ++ [Lock; WriteByID (ID nr) (length h); WritePool pool (length h); Unlock]))
    | (_, Some _) => (Go.Done tt, mkState (h ++ [nr]) c w (t ++ [Lock; Unlock]))
    end.
Proof.
  unfold cacheNetworkResource, Go.bind, emit, load. cbn [heap cache world trace].
  rewrite lookup_app_r by reflexivity. rewrite Nat.sub_diag. cbn [lookup list_lookup Go.deref Go.ret].
  destruct (poolFromNR nr) as [pool [e |]].
  - cbn [heap cache world trace]. rewrite <- !app_assoc. reflexivity.
  - unfold Go.bind, writeByID, writeByPool, emit. cbn [heap cache world trace nrByID nrByPool].
    rewrite <- !app_assoc. reflexivity.
Qed.

(** A lookup by ID that misses, by what the runtime's inspect call gives. *)
Lemma GetNetworkResourceByID_miss_eq (id : string) (s : State W)
    (res : NetworkResource + Go.error) (w' : W) :
  nrByID (cache s) !! id = None ->
  dcNetworkInspect id (world s) = (res, w') ->
  GetNetworkResourceByID id s =
    let p := length (heap s) in
    let looked := trace s ++ [RLock; ReadByID id; RUnlock; NetworkInspect id res] in
    match res with
    | inr err => (Go.Done (None, Some err), mkState (heap s) (cache s) w' looked)
    | inl nr =>
        match poolFromNR nr with
        | (pool, None) =>
            (Go.Done (Some p, None),
             mkState (heap s ++ [nr])
               (mkClient (<[ID nr := p]> (nrByID (cache s)))
                         (<[pool := p]> (nrByPool (cache s))))
               w' (looked ++ [Lock; WriteByID (ID nr) p; WritePool pool p; Unlock]))
        | (_, Some _) =>
            (Go.Done (Some p, None),
             mkState (heap s ++ [nr]) (cache s) w' (looked ++ [Lock; Unlock]))
        end
    end.
Proof.
  intros Hmiss Hins. unfold GetNetworkResourceByID, Go.bind at 1 2, emit, readByID.
  cbn [heap cache world trace]. rewrite Hmiss.
  unfold Go.bind at 1 2, emit, networkInspect. cbn [heap cache world trace].
  rewrite Hins. cbv zeta. rewrite <- !app_assoc. cbn [app].
  destruct res as [nr | err]; [| reflexivity].
  unfold Go.bind at 1 2, new. cbn [heap cache world trace].
  rewrite cacheNetworkResource_fresh.
  destruct (poolFromNR nr) as [pool [e |]];
    unfold Go.ret; rewrite <- ?app_assoc; reflexivity.
Qed.

(** C3 (amended). A lookup by ID that misses asks the runtime. When the
    inspect call fails, its error is returned and neither index changes.
    When it succeeds and the resource has a pool, the record enters the ID
    index under the resource's ID and the Pool index under that pool, both
    writes between one [Lock] and its [Unlock], and the lookup returns the
    record. When it succeeds and the resource has no pool, the lookup
    returns the record and leaves both indexes as they were. *)
Theorem GetNetworkResourceByID_miss (id : string) (s : State W)
    (res : NetworkResource + Go.error) (w' : W) :
  nrByID (cache s) !! id = None ->
  dcNetworkInspect id (world s) = (res, w') ->
  let p := length (heap s) in
  let looked := trace s ++ [RLock; ReadByID id; RUnlock; NetworkInspect id res] in
  match res with
  | inr err =>
      GetNetworkResourceByID id s =
        (Go.Done (None, Some err), mkState (heap s) (cache s) w' looked)
  | inl nr =>
      match poolFromNR nr with
      | (pool, None) =>
          GetNetworkResourceByID id s =
            (Go.Done (Some p, None),
             mkState (heap s ++ [nr])
               (mkClient (<[ID nr := p]> (nrByID (cache s)))
                         (<[pool := p]> (nrByPool (cache s))))
               w' (looked ++ [Lock; WriteByID (ID nr) p; WritePool pool p; Unlock]))
      | (_, Some _) =>
          GetNetworkResourceByID id s =
            (Go.Done (Some p, None),
             mkState (heap s ++ [nr]) (cache s) w' (looked ++ [Lock; Unlock]))
      end
  end.
Proof.
  intros Hmiss Hins p looked.
  rewrite (GetNetworkResourceByID_miss_eq id s res w' Hmiss Hins).
  destruct res as [nr | err]; [| reflexivity].
  destruct (poolFromNR nr) as [pool [e |]]; reflexivity.
Qed.

End CacheProperties.

(** ** The cache invariant over every run *)

Section CacheInvariant.
Import types client.
Context {W : Type} {API : DockerAPI W}.
Local Open Scope list_scope.

Lemma pool_owners_prefix (h h' : list NetworkResource) :
  h `prefix_of` h' -> pool_owners h' -> pool_owners h.
Proof.
  intros [k ->] Ho nr1 nr2 pool H1 H2. apply Ho; apply elem_of_app; now left.
Qed.

(** Two steps in a row: the heap only grows, and [indexed] is carried along
    as long as the pools of the final heap have one owner each. *)
Lemma steps_compose (s1 s2 s3 : State W) :
  heap s1 `prefix_of` heap s2 /\ (pool_owners (heap s2) -> indexed s1 -> indexed s2) ->
  heap s2 `prefix_of` heap s3 /\ (pool_owners (heap s3) -> indexed s2 -> indexed s3) ->
  heap s1 `prefix_of` heap s3 /\ (pool_owners (heap s3) -> indexed s1 -> indexed s3).
Proof.
  intros [P12 I12] [P23 I23]. split; [now transitivity (heap s2) |].
  intros Ho Hi. apply I23; [exact Ho |]. apply I12; [| exact Hi].
  exact (pool_owners_prefix _ _ P23 Ho).
Qed.

Lemma step_same_store (s s' : State W) :
  heap s' = heap s -> cache s' = cache s ->
  heap s `prefix_of` heap s' /\ (pool_owners (heap s') -> indexed s -> indexed s').
Proof.
  intros Hh Hc. split; [now rewrite Hh |].
  intros _ Hi id p. rewrite Hh, Hc. apply Hi.
Qed.

(** Putting a fetched resource on the heap without indexing it. *)
Lemma step_alloc (s : State W) (nr : NetworkResource) (w : W) (t : list Event) :
  let s' := mkState (heap s ++ [nr]) (cache s) w t in
  heap s `prefix_of` heap s' /\ (pool_owners (heap s') -> indexed s -> indexed s').
Proof.
  cbn. split; [now exists [nr] |].
  intros _ Hi id p Hid. destruct (Hi id p Hid) as (nr0 & pool0 & Hh & Hrest).
  exists nr0, pool0. split; [| exact Hrest].
  cbn [heap]. now apply lookup_app_l_Some.
Qed.

(** Putting a fetched resource on the heap and into both indexes. *)
Lemma step_insert (s : State W) (nr : NetworkResource) (pool : string) (w : W)
    (t : list Event) :
  poolFromNR nr = (pool, None) ->
  let p := length (heap s) in
  let s' := mkState (heap s ++ [nr])
              (mkClient (<[ID nr := p]> (nrByID (cache s)))
                        (<[pool := p]> (nrByPool (cache s)))) w t in
  heap s `prefix_of` heap s' /\ (pool_owners (heap s') -> indexed s -> indexed s').
Proof.
  intros Hpool. cbn. split; [now exists [nr] |].
  intros Ho Hi id p. cbn [cache heap nrByID nrByPool].
  destruct (decide (ID nr = id)) as [<- | Hne].
  - rewrite lookup_insert_eq. intros [= <-]. exists nr, pool.
    split; [| split; [reflexivity | split; [exact Hpool |]]].
    + rewrite lookup_app_r by reflexivity. now rewrite Nat.sub_diag.
    + apply lookup_insert_eq.
  - rewrite lookup_insert_ne by exact Hne. intros Hid.
    destruct (Hi id p Hid) as (nr0 & pool0 & Hh & Hid0 & Hpool0 & Hp).
    exists nr0, pool0.
    split; [now apply lookup_app_l_Some |]. split; [exact Hid0 |].
    split; [exact Hpool0 |].
    destruct (decide (pool = pool0)) as [<- | Hpne].
    + exfalso. apply Hne. rewrite <- Hid0. apply (Ho nr nr0 pool).
      * apply elem_of_app. right. apply list_elem_of_singleton. reflexivity.
      * apply elem_of_app. left. apply list_elem_of_lookup. now exists p.
      * exact Hpool.
      * exact Hpool0.
    + rewrite lookup_insert_ne by exact Hpne. exact Hp.
Qed.

Lemma GetNetworkResourceByID_step (id : string) (s : State W) a (s' : State W) :
  GetNetworkResourceByID id s = (a, s') ->
  heap s `prefix_of` heap s' /\ (pool_owners (heap s') -> indexed s -> indexed s').
Proof.
  intros Hrun. destruct (nrByID (cache s) !! id) as [p |] eqn:Hl.
  - rewrite (GetNetworkResourceByID_hit id s p Hl) in Hrun. injection Hrun as _ <-.
    now apply step_same_store.
  - destruct (dcNetworkInspect id (world s)) as [res w'] eqn:Hins.
    rewrite (GetNetworkResourceByID_miss_eq id s res w' Hl Hins) in Hrun.
    cbv zeta in Hrun. destruct res as [nr | err].
    + destruct (poolFromNR nr) as [pool [e |]] eqn:Hpool; injection Hrun as _ <-.
      * apply step_alloc.
      * now apply step_insert.
    + injection Hrun as _ <-. now apply step_same_store.
Qed.

Lemma findByPool_step (pool : string) (nl : list NetworkResource) :
  forall (s : State W) a (s' : State W),
    findByPool pool nl s = (a, s') ->
    heap s `prefix_of` heap s' /\ (pool_owners (heap s') -> indexed s -> indexed s').
Proof.
  induction nl as [| n rest IH]; intros s a s' Hrun.
  - injection Hrun as _ <-. now apply step_same_store.
  - cbn [findByPool] in Hrun. unfold Go.bind at 1 in Hrun.
    destruct (GetNetworkResourceByID (ID n) s) as [o s1] eqn:Hid.
    apply GetNetworkResourceByID_step in Hid.
    destruct o as [[tnr err] | msg |];
      [| injection Hrun as _ <-; exact Hid | injection Hrun as _ <-; exact Hid].
    destruct err as [e |]; [exact (steps_compose _ _ _ Hid (IH _ _ _ Hrun)) |].
    unfold Go.bind at 1 2 in Hrun. unfold load in Hrun.
    destruct tnr as [p |]; cbn [Go.deref Go.ret Go.panic] in Hrun;
      [| injection Hrun as _ <-; exact Hid].
    destruct (heap s1 !! p) as [r |]; cbn [Go.deref Go.ret Go.panic] in Hrun;
      [| injection Hrun as _ <-; exact Hid].
    destruct (poolFromNR r) as [tp e]. destruct (bool_decide (tp = pool)).
    + injection Hrun as _ <-. exact Hid.
    + exact (steps_compose _ _ _ Hid (IH _ _ _ Hrun)).
Qed.

Lemma GetNetworkResourceByPool_step (pool : string) (s : State W) a (s' : State W) :
  GetNetworkResourceByPool pool s = (a, s') ->
  heap s `prefix_of` heap s' /\ (pool_owners (heap s') -> indexed s -> indexed s').
Proof.
  unfold GetNetworkResourceByPool, Go.bind at 1 2, emit, readByPool.
  cbn [heap cache world trace].
  destruct (nrByPool (cache s) !! pool) as [p |].
  - unfold Go.bind, emit. cbn [heap cache world trace Go.ret].
    intros [= _ <-]. now apply step_same_store.
  - unfold Go.bind at 1 2, emit, networkList. cbn [heap cache world trace].
    destruct (dcNetworkList networkDriverName (world s)) as [res w'].
    destruct res as [nl | err].
    + unfold Go.bind at 1.
      match goal with
      | |- context [findByPool pool nl ?s0] =>
          destruct (findByPool pool nl s0) as [o s1] eqn:Hfind
      end.
      apply findByPool_step in Hfind. cbn [heap cache] in Hfind.
      destruct o as [nr | msg |]; intros [= _ <-];
        (eapply steps_compose; [| exact Hfind]); now apply step_same_store.
    + intros [= _ <-]. now apply step_same_store.
Qed.

Lemma reachable_indexed (s : State W) :
  reachable s -> pool_owners (heap s) -> indexed s.
Proof.
  induction 1 as [w | s w Hs IH | s id a s' Hs IH Hrun | s pool a s' Hs IH Hrun];
    intros Ho.
  - intros id p Hid. cbn in Hid. rewrite lookup_empty in Hid. discriminate.
  - exact (IH Ho).
  - destruct (GetNetworkResourceByID_step id s a s' Hrun) as [Hp Hi].
    apply Hi; [exact Ho |]. apply IH. exact (pool_owners_prefix _ _ Hp Ho).
  - destruct (GetNetworkResourceByPool_step pool s a s' Hrun) as [Hp Hi].
    apply Hi; [exact Ho |]. apply IH. exact (pool_owners_prefix _ _ Hp Ho).
Qed.

Lemma indexed_coherent (s : State W) : indexed s -> coherent s.
Proof.
  intros Hi id p Hid. destruct (Hi id p Hid) as (nr & pool & Hh & _ & Hpool & Hp).
  now exists nr, pool.
Qed.

(** C4 (amended). After any sequence of cache operations in which no two
    fetched resources with different IDs derive the same pool, every record
    the ID index reaches is the record the Pool index holds under the
    record's derived pool; and the ID index holds each record under the
    record's own ID. *)
Theorem reachable_coherent (s : State W) :
  reachable s -> pool_owners (heap s) -> coherent s /\ indexed s.
Proof.
  intros Hs Ho. pose proof (reachable_indexed s Hs Ho) as Hi.
  split; [exact (indexed_coherent s Hi) | exact Hi].
Qed.

End CacheInvariant.


(** ** The cache on concrete runtimes *)

Section OnRuntimes.
Import types client.
Local Open Scope list_scope.

Lemma reachable_ByID_run {W : Type} {API : DockerAPI W} (s : State W) (id : string) :
  reachable s -> reachable (GetNetworkResourceByID id s).2.
Proof. intros Hs. eapply reach_ByID; [exact Hs | apply surjective_pairing]. Qed.

Lemma reachable_ByPool_run {W : Type} {API : DockerAPI W} (s : State W) (pool : string) :
  reachable s -> reachable (GetNetworkResourceByPool pool s).2.
Proof. intros Hs. eapply reach_ByPool; [exact Hs | apply surjective_pairing]. Qed.

(** C3 (as stated, refuted). On a runtime whose network ["d4"] has no IPAM
    configuration, the lookup of ["d4"] misses, the inspect call succeeds,
    the record is returned, and it is in neither index. *)
Lemma GetNetworkResourceByID_miss_uncached :
  nrByID (cache (NewClient tt)) !! "d4" = None /\
  @dcNetworkInspect unit (sim.runtime [sim.netBare]) "d4" tt = (inl sim.netBare, tt) /\
  exists p s',
    sim.lookupID [sim.netBare] "d4" (NewClient tt) = (Go.Done (Some p, None), s') /\
    heap s' !! p = Some sim.netBare /\
    nrByID (cache s') = ∅ /\ nrByPool (cache s') = ∅ /\
    ~ cached s' p.
Proof.
  split; [reflexivity |]. split; [reflexivity |].
  eexists _, _. split; [vm_compute; reflexivity |]. split; [reflexivity |].
  split; [reflexivity |]. split; [reflexivity |].
  intros [[id Hid] _]. vm_compute in Hid. discriminate Hid.
Qed.

(** The first lookup of ["a1"] on a runtime that has it: the record enters
    both indexes between one [Lock] and its [Unlock]. *)
Lemma GetNetworkResourceByID_miss_witness :
  nrByID (cache (NewClient tt)) !! "a1" = None /\
  @dcNetworkInspect unit (sim.runtime [sim.netA]) "a1" tt = (inl sim.netA, tt) /\
  sim.lookupID [sim.netA] "a1" (NewClient tt) =
    (Go.Done (Some 0, None),
     mkState [sim.netA] (mkClient (<["a1" := 0]> ∅) (<["10.0.0.0/24" := 0]> ∅)) tt
       [RLock; ReadByID "a1"; RUnlock; NetworkInspect "a1" (inl sim.netA);
        Lock; WriteByID "a1" 0; WritePool "10.0.0.0/24" 0; Unlock]).
Proof.
  split; [reflexivity |]. split; [reflexivity |].
  exact (@GetNetworkResourceByID_miss unit (sim.runtime [sim.netA]) "a1" (NewClient tt)
           (inl sim.netA) tt eq_refl eq_refl).
Defined.

(** C4 (as stated, refuted). Two networks on one subnet: after the lookups
    of ["a1"] and ["b2"] the ID index still reaches the record of ["a1"],
    and the Pool index holds the record of ["b2"] under their subnet. *)
Lemma reachable_not_coherent :
  @reachable unit (sim.runtime [sim.netA; sim.netB])
    (sim.lookupID [sim.netA; sim.netB] "b2"
       (sim.lookupID [sim.netA; sim.netB] "a1" (NewClient tt)).2).2 /\
  ~ coherent
      (sim.lookupID [sim.netA; sim.netB] "b2"
         (sim.lookupID [sim.netA; sim.netB] "a1" (NewClient tt)).2).2.
Proof.
  split.
  - apply @reachable_ByID_run, @reachable_ByID_run, reach_new.
  - intros Hc.
    assert (Hid : nrByID (cache (sim.lookupID [sim.netA; sim.netB] "b2"
                     (sim.lookupID [sim.netA; sim.netB] "a1" (NewClient tt)).2).2)
                    !! "a1" = Some 0%nat) by (vm_compute; reflexivity).
    destruct (Hc "a1" 0%nat Hid) as (nr & pool & Hh & Hpool & Hp).
    vm_compute in Hh. injection Hh as <-.
    vm_compute in Hpool. injection Hpool as <-.
    vm_compute in Hp. discriminate Hp.
Qed.

(** Two networks on two subnets, a lookup by ID and one by pool: the cache
    is coherent. *)
Lemma reachable_coherent_witness :
  @reachable unit (sim.runtime [sim.netA; sim.netC])
    (sim.lookupPool [sim.netA; sim.netC] "10.0.1.0/24"
       (sim.lookupID [sim.netA; sim.netC] "a1" (NewClient tt)).2).2 /\
  pool_owners
    (heap (sim.lookupPool [sim.netA; sim.netC] "10.0.1.0/24"
             (sim.lookupID [sim.netA; sim.netC] "a1" (NewClient tt)).2).2) /\
  coherent
    (sim.lookupPool [sim.netA; sim.netC] "10.0.1.0/24"
       (sim.lookupID [sim.netA; sim.netC] "a1" (NewClient tt)).2).2.
Proof.
  assert (Hr : @reachable unit (sim.runtime [sim.netA; sim.netC])
                 (sim.lookupPool [sim.netA; sim.netC] "10.0.1.0/24"
                    (sim.lookupID [sim.netA; sim.netC] "a1" (NewClient tt)).2).2).
  { apply @reachable_ByPool_run, @reachable_ByID_run, reach_new. }
  assert (Ho : pool_owners
                 (heap (sim.lookupPool [sim.netA; sim.netC] "10.0.1.0/24"
                          (sim.lookupID [sim.netA; sim.netC] "a1" (NewClient tt)).2).2)).
  { intros nr1 nr2 pool H1 H2 E1 E2. vm_compute in H1, H2.
    apply elem_of_cons in H1 as [-> | H1]; [| apply list_elem_of_singleton in H1 as ->];
      (apply elem_of_cons in H2 as [-> | H2]; [| apply list_elem_of_singleton in H2 as ->]);
      first [reflexivity | vm_compute in E1, E2; congruence]. }
  split; [exact Hr |]. split; [exact Ho |].
  exact (proj1 (@reachable_coherent unit (sim.runtime [sim.netA; sim.netC]) _ Hr Ho)).
Defined.

End OnRuntimes.

(** ** The calls of a [RequestAddress] run, whatever its end *)

Section DriverLog.
Import net netlink ipam vxrIpam driverlog.
Context {W : Type} {T : Text} {HW : Host W}.
Local Open Scope list_scope.

Ltac each_event :=
  repeat first [apply List.Forall_nil | apply List.Forall_cons; [solve [auto] |]].

(** The events of the loop, for every way the loop can end. The loop draws
    and checks, and nothing else; on a candidate that is set it checks that
    candidate only. It ends with a candidate right after a check that found
    no route, or with the error of a check; it does not panic. *)
Lemma candidateLoop_log (subnet : IPNet) :
  forall fuel routes addr s out s1,
    routes <> [] ->
    candidateLoop fuel subnet routes addr s = (out, s1) ->
    exists evs,
      trace s1 = trace s ++ evs /\
      Forall (fun ev => isRandAddr ev = true \/ exists a, isCheckOf a ev) evs /\
      (IPNet_IP addr <> [] -> Forall (isCheckOf addr) evs) /\
      match out with
      | Go.Done (inl a) =>
          (exists evs0, evs = evs0 ++ [RouteListFiltered (mkRoute (Some a) []) [] None]) /\
          (IPNet_IP addr <> [] -> a = addr)
      | Go.Done (inr e) =>
          exists evs0 f found, evs = evs0 ++ [RouteListFiltered f found (Some e)]
      | Go.Panic _ => False
      | Go.OutOfFuel => True
      end.
Proof.
  induction fuel as [| fuel IH]; intros routes addr s out s1 Hr Hrun.
  - destruct routes as [| r0 rs]; [contradiction |].
    cbn [candidateLoop] in Hrun. change (0 <? len (r0 :: rs))%Z with true in Hrun.
    cbn beta iota in Hrun. injection Hrun as <- <-.
    exists []. rewrite app_nil_r. repeat split; intros; each_event.
  - destruct (decide (IPNet_IP addr = [])) as [Ha | Ha].
    + rewrite candidateLoop_round_draw in Hrun by assumption.
      destruct (hostRandAddr subnet (world s)) as [ip w0].
      cbv beta iota zeta in Hrun.
      destruct (hostRouteListFiltered 0 (mkRoute (Some (mkIPNet ip (IPNet_Mask addr))) [])
                  RT_FILTER_DST w0) as [[found err] w].
      assert (Hdraw : isRandAddr (RandAddr subnet ip) = true \/
                      exists a, isCheckOf a (RandAddr subnet ip)) by (left; reflexivity).
      assert (Hcheck : forall fo er,
                 isRandAddr (RouteListFiltered
                     (mkRoute (Some (mkIPNet ip (IPNet_Mask addr))) []) fo er) = true \/
                 exists a, isCheckOf a (RouteListFiltered
                     (mkRoute (Some (mkIPNet ip (IPNet_Mask addr))) []) fo er))
        by (intros fo er; right; eexists _, _, _; reflexivity).
      destruct err as [e |].
      * injection Hrun as <- <-. eexists [_; _]. cbn [trace].
        split; [now rewrite <- app_assoc |].
        split; [each_event |]. split; [intros; contradiction |].
        eexists [_], _, _. reflexivity.
      * destruct found as [| r1 rs].
        -- rewrite candidateLoop_nil in Hrun. injection Hrun as <- <-.
           eexists [_; _]. cbn [trace]. split; [now rewrite <- app_assoc |].
           split; [each_event |]. split; [intros; contradiction |].
           split; [eexists [_]; reflexivity | intros; contradiction].
        -- apply IH in Hrun as (evs & Htr & Hall & _ & Hend); [| discriminate].
           cbn [trace] in Htr.
           exists (RandAddr subnet ip
                     :: RouteListFiltered (mkRoute (Some (mkIPNet ip (IPNet_Mask addr))) [])
                          (r1 :: rs) None :: evs).
           split; [rewrite Htr, <- !app_assoc; reflexivity |].
           split; [each_event; exact Hall |]. split; [intros; contradiction |].
           destruct out as [[a | e] | msg |]; auto.
           ++ destruct Hend as [[evs0 ->] _].
              split; [eexists (_ :: _ :: evs0); reflexivity | intros; contradiction].
           ++ destruct Hend as (evs0 & f & fo & ->).
              eexists (_ :: _ :: evs0), f, fo. reflexivity.
    + rewrite candidateLoop_round in Hrun by assumption.
      cbv beta iota zeta in Hrun.
      destruct (hostRouteListFiltered 0 (mkRoute (Some addr) []) RT_FILTER_DST (world s))
        as [[found err] w].
      assert (Hself : forall fo er,
                 isCheckOf addr (RouteListFiltered (mkRoute (Some addr) []) fo er))
        by (intros fo er; eexists _, _; reflexivity).
      assert (Hcheck : forall fo er,
                 isRandAddr (RouteListFiltered (mkRoute (Some addr) []) fo er) = true \/
                 exists a, isCheckOf a (RouteListFiltered (mkRoute (Some addr) []) fo er))
        by (intros fo er; right; exists addr; apply Hself).
      destruct err as [e |].
      * injection Hrun as <- <-. eexists [_]. cbn [trace].
        split; [reflexivity |]. split; [each_event |].
        split; [intros; each_event |].
        eexists [], _, _. reflexivity.
      * destruct found as [| r1 rs].
        -- rewrite candidateLoop_nil in Hrun. injection Hrun as <- <-.
           eexists [_]. cbn [trace]. split; [reflexivity |].
           split; [each_event |].
           split; [intros; each_event |].
           split; [exists []; reflexivity | reflexivity].
        -- apply IH in Hrun as (evs & Htr & Hall & Hset & Hend); [| discriminate].
           cbn [trace] in Htr.
           exists (RouteListFiltered (mkRoute (Some addr) []) (r1 :: rs) None :: evs).
           split; [rewrite Htr, <- !app_assoc; reflexivity |].
           split; [each_event; assumption |].
           split; [intros; each_event; auto |].
           destruct out as [[a | e] | msg |]; auto.
           ++ destruct Hend as [[evs0 ->] Hkeep].
              split; [eexists (_ :: evs0); reflexivity | exact Hkeep].
           ++ destruct Hend as (evs0 & f & fo & ->).
              eexists (_ :: evs0), f, fo. reflexivity.
Qed.

(** What follows the loop, by how the loop ended. *)
Lemma RequestAddress_after_loop (fuel : nat) (d : Driver) (r : RequestAddressRequest)
    (s s' : State W) (ip0 : IP) (subnet : IPNet) out :
  ParseCIDR (PoolID r) = inl (ip0, subnet) ->
  index (Options r) "RequestAddressType" <> "com.docker.network.gateway" ->
  RequestAddress fuel d r s = (out, s') ->
  exists out1 s1,
    candidateLoop fuel subnet [zeroRoute] (candidate r subnet) s = (out1, s1) /\
    match out1 with
    | Go.Done (inl addr) =>
        exists post, trace s' = trace s1 ++ post /\ afterLoop r subnet addr post out
    | Go.Done (inr e) => out = Go.Done (None, Some e) /\ s' = s1
    | Go.Panic msg => out = Go.Panic msg /\ s' = s1
    | Go.OutOfFuel => out = Go.OutOfFuel /\ s' = s1
    end.
Proof.
  intros Hparse Hgw Hrun. unfold RequestAddress in Hrun. rewrite Hparse in Hrun.
  cbn [Go.deref Go.bind Go.ret IPNet_IP IPNet_Mask] in Hrun.
  rewrite (bool_decide_eq_false_2 _ Hgw) in Hrun. unfold candidate.
  destruct (Size (IPNet_Mask subnet)) as [o ml]. cbn [snd].
  cbv beta iota zeta in Hrun. unfold Go.bind at 1 in Hrun.
  destruct (candidateLoop fuel subnet [zeroRoute]
              (mkIPNet (ParseIP (Address r)) (CIDRMask ml ml)) s) as [out1 s1].
  exists out1, s1. split; [reflexivity |].
  destruct out1 as [[addr | e1] | msg |];
    [| injection Hrun as <- <-; split; reflexivity ..].
  unfold vxrNet_GetNetworkResourceBySubnet, vxrNet_ConnectHost,
    vxrNet_GetGatewayBySubnet, netlink_RouteAdd in Hrun.
  unfold Go.bind at 1 in Hrun. rewrite call_eq in Hrun.
  destruct (hostGetNetworkResourceBySubnet (PoolID r) (world s1)) as [[nr e] w2].
  cbn [fst snd] in Hrun.
  destruct nr as [nr |].
  2:{ destruct e as [e |]; injection Hrun as <- <-; eexists; cbn [trace];
        (split; [reflexivity | constructor]). }
  unfold Go.bind at 1 in Hrun. rewrite call_eq in Hrun. cbn [world trace] in Hrun.
  destruct (hostConnectHost (types.ID nr) w2) as [ec w3]. cbn [fst snd] in Hrun.
  destruct ec as [ec |].
  { injection Hrun as <- <-. eexists. cbn [trace].
    split; [rewrite <- !app_assoc; reflexivity | constructor]. }
  unfold Go.bind at 1 in Hrun. rewrite call_eq in Hrun. cbn [world trace] in Hrun.
  destruct (hostGetGatewayBySubnet (PoolID r) w3) as [[gw eg] w4]. cbn [fst snd] in Hrun.
  destruct eg as [eg |].
  { injection Hrun as <- <-. eexists. cbn [trace].
    split; [rewrite <- !app_assoc; reflexivity | constructor]. }
  destruct gw as [gw |].
  2:{ injection Hrun as <- <-. eexists. cbn [trace].
      split; [rewrite <- !app_assoc; reflexivity | constructor]. }
  cbn [Go.deref Go.bind Go.ret] in Hrun. unfold Go.bind at 1 in Hrun.
  rewrite call_eq in Hrun. cbn [world trace] in Hrun.
  destruct (hostRouteAdd (mkRoute (Some addr) (IPNet_IP gw)) w4) as [ea w5].
  cbn [fst snd] in Hrun.
  destruct ea as [ea |]; injection Hrun as <- <-; eexists; cbn [trace];
    (split; [rewrite <- !app_assoc; reflexivity | constructor]).
Qed.

End DriverLog.

(** ** More on [RequestAddress]: order, failure, explicit addresses, reuse *)

Section DriverMore.
Import net netlink ipam vxrIpam driverlog.
Context {W : Type} {T : Text} {HW : Host W}.
Local Open Scope list_scope.

Lemma loop_event_adds_no_route (ev : Event) :
  isRandAddr ev = true \/ (exists a, isCheckOf a ev) -> isRouteAdded ev = false.
Proof.
  intros [Hd | (a & found & err & ->)]; [| reflexivity].
  destruct ev; try discriminate Hd; reflexivity.
Qed.

Lemma afterLoop_route_added (r : RequestAddressRequest) (subnet addr : IPNet) post out :
  afterLoop r subnet addr post out ->
  (exists ev, ev ∈ post /\ isRouteAdded ev = true) ->
  exists resp, out = Go.Done (Some resp, None).
Proof.
  intros Hpost (ev & Hin & Hadd).
  destruct Hpost; try (eexists; reflexivity);
    repeat (apply elem_of_cons in Hin as [-> | Hin]; [discriminate Hadd |]);
    apply elem_of_nil in Hin; contradiction.
Qed.

Lemma afterLoop_error (r : RequestAddressRequest) (subnet addr : IPNet) post (e : Go.error) :
  afterLoop r subnet addr post (Go.Done (None, Some e)) ->
  exists evs last,
    post = evs ++ [last] /\
    (last = GetNetworkResourceBySubnet (PoolID r) None (Some e) \/
     (last = GetNetworkResourceBySubnet (PoolID r) None None /\
      e = "failed to get network from pool") \/
     (exists id, last = ConnectHost id (Some e)) \/
     (exists gw, last = GetGatewayBySubnet (PoolID r) gw (Some e)) \/
     (exists route, last = RouteAdd route (Some e))).
Proof.
  inversion 1; subst.
  - eexists [], _. split; [reflexivity |]. auto.
  - eexists [], _. split; [reflexivity |]. auto.
  - eexists [_], _. split; [reflexivity |]. right; right; left. eauto.
  - eexists [_; _], _. split; [reflexivity |]. right; right; right; left. eauto.
  - eexists [_; _; _], _. split; [reflexivity |]. right; right; right; right. eauto.
Qed.

(** X1. The steps of a request that is no gateway request, in the order the
    run takes them: first draws and route checks and nothing else; then,
    only after a check that found no route, the network is resolved, the
    host attached, the gateway resolved and the route added, each step only
    when the one before it succeeded, and the first failure ends the run.
    A check that fails ends the run with its error before any of these. *)
Theorem RequestAddress_steps_in_order (fuel : nat) (d : Driver)
    (r : RequestAddressRequest) (s s' : State W) (ip0 : IP) (subnet : IPNet) out :
  ParseCIDR (PoolID r) = inl (ip0, subnet) ->
  index (Options r) "RequestAddressType" <> "com.docker.network.gateway" ->
  RequestAddress fuel d r s = (out, s') ->
  exists evs,
    Forall (fun ev => isRandAddr ev = true \/ exists a, isCheckOf a ev) evs /\
    ((out = Go.OutOfFuel /\ trace s' = trace s ++ evs) \/
     (exists evs0 f found e,
        evs = evs0 ++ [RouteListFiltered f found (Some e)] /\
        out = Go.Done (None, Some e) /\ trace s' = trace s ++ evs) \/
     (exists evs0 addr post,
        evs = evs0 ++ [RouteListFiltered (mkRoute (Some addr) []) [] None] /\
        trace s' = trace s ++ evs ++ post /\
        afterLoop r subnet addr post out)).
Proof.
  intros Hparse Hgw Hrun.
  destruct (RequestAddress_after_loop fuel d r s s' ip0 subnet out Hparse Hgw Hrun)
    as (out1 & s1 & Hloop & Hend).
  apply candidateLoop_log in Hloop as (evs & Htr & Hall & _ & Hlast); [| discriminate].
  exists evs. split; [exact Hall |].
  destruct out1 as [[addr | e] | msg |].
  - destruct Hend as (post & Htr' & Hpost). destruct Hlast as [[evs0 ->] _].
    right; right. exists evs0, addr, post. split; [reflexivity |].
    split; [rewrite Htr', Htr, <- !app_assoc; reflexivity | exact Hpost].
  - destruct Hend as [-> ->]. destruct Hlast as (evs0 & f & found & ->).
    right; left. exists evs0, f, found, e. auto.
  - contradiction.
  - destruct Hend as [-> ->]. left. auto.
Qed.

(** A pool identifier that does not parse: the nil [subnet] is read. *)
Lemma RequestAddress_unparsed_eq (fuel : nat) (d : Driver) (r : RequestAddressRequest)
    (s : State W) (e : Go.error) :
  ParseCIDR (PoolID r) = inr e ->
  RequestAddress fuel d r s = (Go.Panic Go.nilDeref, s).
Proof. intros Hparse. unfold RequestAddress. rewrite Hparse. reflexivity. Qed.

(** The events of any run, and what an added route says about its end. *)
Lemma RequestAddress_route_added_inv (fuel : nat) (d : Driver)
    (r : RequestAddressRequest) (s s' : State W) out :
  RequestAddress fuel d r s = (out, s') ->
  exists evs,
    trace s' = trace s ++ evs /\
    ((exists ev, ev ∈ evs /\ isRouteAdded ev = true) ->
     exists resp, out = Go.Done (Some resp, None)).
Proof.
  intros Hrun.
  destruct (ParseCIDR (PoolID r)) as [[ip0 subnet] | e0] eqn:Hparse.
  2:{ rewrite (RequestAddress_unparsed_eq fuel d r s e0 Hparse) in Hrun.
      injection Hrun as <- <-. exists []. rewrite app_nil_r. split; [reflexivity |].
      intros (ev & Hin & _). apply elem_of_nil in Hin. contradiction. }
  destruct (decide (index (Options r) "RequestAddressType" = "com.docker.network.gateway"))
    as [Hgw | Hgw].
  { rewrite (RequestAddress_gateway_eq fuel d r s ip0 subnet Hparse Hgw) in Hrun.
    injection Hrun as <- <-. exists []. rewrite app_nil_r. split; [reflexivity |].
    intros (ev & Hin & _). apply elem_of_nil in Hin. contradiction. }
  destruct (RequestAddress_after_loop fuel d r s s' ip0 subnet out Hparse Hgw Hrun)
    as (out1 & s1 & Hloop & Hend).
  apply candidateLoop_log in Hloop as (evs & Htr & Hall & _ & Hlast); [| discriminate].
  assert (Hnone : forall ev, ev ∈ evs -> isRouteAdded ev = true -> False).
  { intros ev Hin Hadd. rewrite List.Forall_forall in Hall.
    apply list_elem_of_In in Hin.
    rewrite (loop_event_adds_no_route ev (Hall ev Hin)) in Hadd. discriminate. }
  destruct out1 as [[addr | e] | msg |].
  - destruct Hend as (post & Htr' & Hpost). exists (evs ++ post).
    split; [rewrite Htr', Htr, <- !app_assoc; reflexivity |].
    intros (ev & Hin & Hadd). apply elem_of_app in Hin as [Hin | Hin].
    + exfalso. exact (Hnone ev Hin Hadd).
    + apply (afterLoop_route_added r subnet addr post out Hpost). eauto.
  - destruct Hend as [-> ->]. exists evs. split; [exact Htr |].
    intros (ev & Hin & Hadd). exfalso. exact (Hnone ev Hin Hadd).
  - contradiction.
  - destruct Hend as [-> ->]. exists evs. split; [exact Htr |].
    intros (ev & Hin & Hadd). exfalso. exact (Hnone ev Hin Hadd).
Qed.

(** X2. A request that does not come back with an address has added no
    route: when the run of any request (gateway or not, pool parsed or not)
    ends in an error, a panic or without fuel, no [RouteAdd] of the run
    returned the nil error. *)
Theorem RequestAddress_failure_adds_no_route (fuel : nat) (d : Driver)
    (r : RequestAddressRequest) (s s' : State W) out :
  RequestAddress fuel d r s = (out, s') ->
  (forall resp, out <> Go.Done (Some resp, None)) ->
  exists evs,
    trace s' = trace s ++ evs /\
    Forall (fun ev => isRouteAdded ev = false) evs.
Proof.
  intros Hrun Hfail.
  destruct (RequestAddress_route_added_inv fuel d r s s' out Hrun) as (evs & Htr & Hadd).
  exists evs. split; [exact Htr |].
  apply List.Forall_forall. intros ev Hin.
  destruct (isRouteAdded ev) eqn:Hev; [| reflexivity].
  exfalso. destruct Hadd as [resp Hresp].
  - exists ev. split; [apply list_elem_of_In; exact Hin | exact Hev].
  - exact (Hfail resp Hresp).
Qed.

(** X3. An error that [RequestAddress] returns is the error of the last
    call the run made (of the route check, the network lookup, the host
    attachment, the gateway lookup or the route installation), handed on as
    it came; or it is ["failed to get network from pool"], after a network
    lookup that gave neither a network nor an error. *)
Theorem RequestAddress_error_is_last_call (fuel : nat) (d : Driver)
    (r : RequestAddressRequest) (s s' : State W) (e : Go.error) :
  RequestAddress fuel d r s = (Go.Done (None, Some e), s') ->
  exists evs last,
    trace s' = trace s ++ evs ++ [last] /\
    ((exists f found, last = RouteListFiltered f found (Some e)) \/
     last = GetNetworkResourceBySubnet (PoolID r) None (Some e) \/
     (last = GetNetworkResourceBySubnet (PoolID r) None None /\
      e = "failed to get network from pool") \/
     (exists id, last = ConnectHost id (Some e)) \/
     (exists gw, last = GetGatewayBySubnet (PoolID r) gw (Some e)) \/
     (exists route, last = RouteAdd route (Some e))).
Proof.
  intros Hrun.
  destruct (ParseCIDR (PoolID r)) as [[ip0 subnet] | e0] eqn:Hparse.
  2:{ rewrite (RequestAddress_unparsed_eq fuel d r s e0 Hparse) in Hrun.
      discriminate Hrun. }
  destruct (decide (index (Options r) "RequestAddressType" = "com.docker.network.gateway"))
    as [Hgw | Hgw].
  { rewrite (RequestAddress_gateway_eq fuel d r s ip0 subnet Hparse Hgw) in Hrun.
    discriminate Hrun. }
  destruct (RequestAddress_after_loop fuel d r s s' ip0 subnet _ Hparse Hgw Hrun)
    as (out1 & s1 & Hloop & Hend).
  apply candidateLoop_log in Hloop as (evs & Htr & _ & _ & Hlast); [| discriminate].
  destruct out1 as [[addr | e1] | msg |].
  - destruct Hend as (post & Htr' & Hpost).
    apply afterLoop_error in Hpost as (evs1 & last & -> & Hcase).
    exists (evs ++ evs1), last.
    split; [rewrite Htr', Htr, <- !app_assoc; reflexivity |]. tauto.
  - destruct Hend as [[= <-] ->]. destruct Hlast as (evs0 & f & found & ->).
    exists evs0, (RouteListFiltered f found (Some e)). split; [exact Htr |].
    left. eauto.
  - contradiction.
  - destruct Hend as [Hout _]. discriminate Hout.
Qed.

End DriverMore.

(** ** Requests for a free address, for an explicit address, and after a release *)

Section DriverForward.
Import net netlink ipam vxrIpam driverlog.
Context {W : Type} {T : Text} {HW : Host W}.
Local Open Scope list_scope.

(** From a candidate to the answer, when the four calls after the loop
    succeed. *)
Lemma RequestAddress_finish (fuel : nat) (d : Driver) (r : RequestAddressRequest)
    (s s1 : State W) (ip0 : IP) (subnet addr : IPNet)
    (nr : types.NetworkResource) (e0 : option Go.error) (gw : IPNet) (w2 w3 w4 w5 : W) :
  ParseCIDR (PoolID r) = inl (ip0, subnet) ->
  index (Options r) "RequestAddressType" <> "com.docker.network.gateway" ->
  candidateLoop fuel subnet [zeroRoute] (candidate r subnet) s = (Go.Done (inl addr), s1) ->
  hostGetNetworkResourceBySubnet (PoolID r) (world s1) = (Some nr, e0, w2) ->
  hostConnectHost (types.ID nr) w2 = (None, w3) ->
  hostGetGatewayBySubnet (PoolID r) w3 = (Some gw, None, w4) ->
  hostRouteAdd (mkRoute (Some addr) (IPNet_IP gw)) w4 = (None, w5) ->
  RequestAddress fuel d r s =
    (Go.Done
       (Some (mkRequestAddressResponse
                (IPNet_String (mkIPNet (IPNet_IP addr) (IPNet_Mask subnet))) ∅), None),
     mkState w5
       (trace s1 ++
        [GetNetworkResourceBySubnet (PoolID r) (Some nr) e0;
         ConnectHost (types.ID nr) None;
         GetGatewayBySubnet (PoolID r) (Some gw) None;
         RouteAdd (mkRoute (Some addr) (IPNet_IP gw)) None])).
Proof.
  intros Hparse Hgw Hloop Hnr Hc Hg Ha. unfold RequestAddress. rewrite Hparse.
  cbn [Go.deref Go.bind Go.ret IPNet_IP IPNet_Mask].
  rewrite (bool_decide_eq_false_2 _ Hgw). unfold candidate in Hloop.
  destruct (Size (IPNet_Mask subnet)) as [o ml]. cbn [snd] in Hloop.
  cbv beta iota zeta. unfold Go.bind at 1. rewrite Hloop.
  unfold vxrNet_GetNetworkResourceBySubnet, vxrNet_ConnectHost,
    vxrNet_GetGatewayBySubnet, netlink_RouteAdd.
  unfold Go.bind at 1. rewrite call_eq, Hnr. cbn [fst snd].
  unfold Go.bind at 1. rewrite call_eq. cbn [world trace]. rewrite Hc. cbn [fst snd].
  unfold Go.bind at 1. rewrite call_eq. cbn [world trace]. rewrite Hg. cbn [fst snd].
  cbn [Go.deref Go.bind Go.ret]. unfold Go.bind at 1.
  rewrite call_eq. cbn [world trace]. rewrite Ha. cbn [fst snd].
  unfold Go.ret. rewrite <- !app_assoc. reflexivity.
Qed.

(** A request that came back with an address: the world it leaves is the
    one its [RouteAdd] left, and the route added is the candidate's. *)
Lemma RequestAddress_returned_route (fuel : nat) (d : Driver)
    (r : RequestAddressRequest) (s s' : State W) (resp : RequestAddressResponse)
    (ip0 : IP) (subnet : IPNet) :
  ParseCIDR (PoolID r) = inl (ip0, subnet) ->
  index (Options r) "RequestAddressType" <> "com.docker.network.gateway" ->
  RequestAddress fuel d r s = (Go.Done (Some resp, None), s') ->
  exists addr s1 gw w4,
    candidateLoop fuel subnet [zeroRoute] (candidate r subnet) s = (Go.Done (inl addr), s1) /\
    hostRouteAdd (mkRoute (Some addr) (IPNet_IP gw)) w4 = (None, world s').
Proof.
  intros Hparse Hgw Hrun. unfold RequestAddress in Hrun. rewrite Hparse in Hrun.
  cbn [Go.deref Go.bind Go.ret IPNet_IP IPNet_Mask] in Hrun.
  rewrite (bool_decide_eq_false_2 _ Hgw) in Hrun. unfold candidate.
  destruct (Size (IPNet_Mask subnet)) as [o ml]. cbn [snd].
  cbv beta iota zeta in Hrun. unfold Go.bind at 1 in Hrun.
  destruct (candidateLoop fuel subnet [zeroRoute]
              (mkIPNet (ParseIP (Address r)) (CIDRMask ml ml)) s)
    as [[[addr | e1] | msg |] s1]; try discriminate Hrun.
  unfold vxrNet_GetNetworkResourceBySubnet, vxrNet_ConnectHost,
    vxrNet_GetGatewayBySubnet, netlink_RouteAdd in Hrun.
  unfold Go.bind at 1 in Hrun. rewrite call_eq in Hrun.
  destruct (hostGetNetworkResourceBySubnet (PoolID r) (world s1)) as [[nr e] w2].
  cbn [fst snd] in Hrun.
  destruct nr as [nr |]; [| destruct e; discriminate Hrun].
  unfold Go.bind at 1 in Hrun. rewrite call_eq in Hrun. cbn [world trace] in Hrun.
  destruct (hostConnectHost (types.ID nr) w2) as [ec w3]. cbn [fst snd] in Hrun.
  destruct ec as [ec |]; [discriminate Hrun |].
  unfold Go.bind at 1 in Hrun. rewrite call_eq in Hrun. cbn [world trace] in Hrun.
  destruct (hostGetGatewayBySubnet (PoolID r) w3) as [[gw eg] w4]. cbn [fst snd] in Hrun.
  destruct eg as [eg |]; [discriminate Hrun |].
  destruct gw as [gw |]; [| discriminate Hrun].
  cbn [Go.deref Go.bind Go.ret] in Hrun. unfold Go.bind at 1 in Hrun.
  rewrite call_eq in Hrun. cbn [world trace] in Hrun.
  destruct (hostRouteAdd (mkRoute (Some addr) (IPNet_IP gw)) w4) as [ea w5] eqn:Hadd.
  cbn [fst snd] in Hrun. destruct ea as [ea |]; [discriminate Hrun |].
  injection Hrun as _ <-. exists addr, s1, gw, w4. split; [reflexivity | exact Hadd].
Qed.

(** X4. An explicit address that has no route is the address returned, in
    one round of the loop: when the route check of the requested address
    finds nothing and the four calls after it succeed, [RequestAddress]
    returns the requested address under the pool's mask, for any fuel of at
    least one round, after exactly these five calls; the route added goes
    to the address under the single-host mask, through the gateway's
    address. An error that comes with the network is dropped. *)
Theorem RequestAddress_free_explicit_address (fuel : nat) (d : Driver)
    (r : RequestAddressRequest) (s : State W) (ip0 : IP) (subnet : IPNet)
    (nr : types.NetworkResource) (e0 : option Go.error) (gw : IPNet) (w1 w2 w3 w4 w5 : W) :
  ParseCIDR (PoolID r) = inl (ip0, subnet) ->
  index (Options r) "RequestAddressType" <> "com.docker.network.gateway" ->
  ParseIP (Address r) <> [] ->
  hostRouteListFiltered 0 (mkRoute (Some (candidate r subnet)) []) RT_FILTER_DST (world s)
    = ([], None, w1) ->
  hostGetNetworkResourceBySubnet (PoolID r) w1 = (Some nr, e0, w2) ->
  hostConnectHost (types.ID nr) w2 = (None, w3) ->
  hostGetGatewayBySubnet (PoolID r) w3 = (Some gw, None, w4) ->
  hostRouteAdd (mkRoute (Some (candidate r subnet)) (IPNet_IP gw)) w4 = (None, w5) ->
  RequestAddress (S fuel) d r s =
    (Go.Done
       (Some (mkRequestAddressResponse
                (IPNet_String (mkIPNet (ParseIP (Address r)) (IPNet_Mask subnet))) ∅), None),
     mkState w5
       (trace s ++
        [RouteListFiltered (mkRoute (Some (candidate r subnet)) []) [] None;
         GetNetworkResourceBySubnet (PoolID r) (Some nr) e0;
         ConnectHost (types.ID nr) None;
         GetGatewayBySubnet (PoolID r) (Some gw) None;
         RouteAdd (mkRoute (Some (candidate r subnet)) (IPNet_IP gw)) None])).
Proof.
  intros Hparse Hgw Hip Hq Hnr Hc Hg Ha.
  rewrite (RequestAddress_finish (S fuel) d r s
             (mkState w1 (trace s ++
                [RouteListFiltered (mkRoute (Some (candidate r subnet)) []) [] None]))
             ip0 subnet (candidate r subnet) nr e0 gw w2 w3 w4 w5 Hparse Hgw);
    try assumption.
  - cbn [trace]. rewrite <- !app_assoc. reflexivity.
  - rewrite candidateLoop_round; [| discriminate | exact Hip].
    cbv zeta. rewrite Hq. apply candidateLoop_nil.
Qed.

(** X5. A request with no address returns the first address drawn when the
    route check of that address finds nothing (and the calls after it
    succeed): one draw, one check, for any fuel of at least one round. What
    [RandAddr] gives is not looked at before it is checked and returned. *)
Theorem RequestAddress_free_drawn_address (fuel : nat) (d : Driver)
    (r : RequestAddressRequest) (s : State W) (ip0 : IP) (subnet : IPNet) (ip : IP)
    (nr : types.NetworkResource) (e0 : option Go.error) (gw : IPNet)
    (w0 w1 w2 w3 w4 w5 : W) :
  ParseCIDR (PoolID r) = inl (ip0, subnet) ->
  index (Options r) "RequestAddressType" <> "com.docker.network.gateway" ->
  ParseIP (Address r) = [] ->
  hostRandAddr subnet (world s) = (ip, w0) ->
  let drawn := mkIPNet ip (IPNet_Mask (candidate r subnet)) in
  hostRouteListFiltered 0 (mkRoute (Some drawn) []) RT_FILTER_DST w0 = ([], None, w1) ->
  hostGetNetworkResourceBySubnet (PoolID r) w1 = (Some nr, e0, w2) ->
  hostConnectHost (types.ID nr) w2 = (None, w3) ->
  hostGetGatewayBySubnet (PoolID r) w3 = (Some gw, None, w4) ->
  hostRouteAdd (mkRoute (Some drawn) (IPNet_IP gw)) w4 = (None, w5) ->
  RequestAddress (S fuel) d r s =
    (Go.Done
       (Some (mkRequestAddressResponse
                (IPNet_String (mkIPNet ip (IPNet_Mask subnet))) ∅), None),
     mkState w5
       (trace s ++
        [RandAddr subnet ip;
         RouteListFiltered (mkRoute (Some drawn) []) [] None;
         GetNetworkResourceBySubnet (PoolID r) (Some nr) e0;
         ConnectHost (types.ID nr) None;
         GetGatewayBySubnet (PoolID r) (Some gw) None;
         RouteAdd (mkRoute (Some drawn) (IPNet_IP gw)) None])).
Proof.
  intros Hparse Hgw Hip Hdraw drawn Hq Hnr Hc Hg Ha. subst drawn.
  rewrite (RequestAddress_finish (S fuel) d r s
             (mkState w1 ((trace s ++ [RandAddr subnet ip]) ++
                [RouteListFiltered
                   (mkRoute (Some (mkIPNet ip (IPNet_Mask (candidate r subnet)))) [])
                   [] None]))
             ip0 subnet (mkIPNet ip (IPNet_Mask (candidate r subnet)))
             nr e0 gw w2 w3 w4 w5 Hparse Hgw);
    try assumption.
  - cbn [trace]. rewrite <- !app_assoc. reflexivity.
  - rewrite candidateLoop_round_draw; [| discriminate | exact Hip].
    rewrite Hdraw. cbv zeta. rewrite Hq. apply candidateLoop_nil.
Qed.

Lemma afterLoop_events (r : RequestAddressRequest) (subnet addr : IPNet) post out :
  afterLoop r subnet addr post out ->
  Forall (fun ev => isRandAddr ev = false /\
                    forall f found e, ev <> RouteListFiltered f found e) post.
Proof.
  intros Hpost. destruct Hpost;
    repeat first [apply List.Forall_nil
                 | apply List.Forall_cons; [split; [reflexivity | discriminate] |]].
Qed.

(** X6. A request with an address that parses never draws and never checks
    another address: in every run, whatever its end, [RandAddr] is not
    called and every route check is the check of the requested address under
    the single-host mask; and an address that comes back is the requested
    one under the pool's mask. *)
Theorem RequestAddress_explicit_address_only (fuel : nat) (d : Driver)
    (r : RequestAddressRequest) (s s' : State W) (ip0 : IP) (subnet : IPNet) out :
  ParseCIDR (PoolID r) = inl (ip0, subnet) ->
  ParseIP (Address r) <> [] ->
  RequestAddress fuel d r s = (out, s') ->
  exists evs,
    trace s' = trace s ++ evs /\
    Forall (fun ev => isRandAddr ev = false /\
                      forall f found e, ev = RouteListFiltered f found e ->
                                        f = mkRoute (Some (candidate r subnet)) []) evs /\
    (forall resp, out = Go.Done (Some resp, None) ->
       Resp_Address resp = IPNet_String (mkIPNet (ParseIP (Address r)) (IPNet_Mask subnet))).
Proof.
  intros Hparse Hip Hrun.
  destruct (decide (index (Options r) "RequestAddressType" = "com.docker.network.gateway"))
    as [Hgw | Hgw].
  { rewrite (RequestAddress_gateway_eq fuel d r s ip0 subnet Hparse Hgw) in Hrun.
    injection Hrun as <- <-. exists []. rewrite app_nil_r.
    split; [reflexivity |]. split; [constructor |]. intros resp [= <-]. reflexivity. }
  destruct (RequestAddress_after_loop fuel d r s s' ip0 subnet out Hparse Hgw Hrun)
    as (out1 & s1 & Hloop & Hend).
  apply candidateLoop_log in Hloop as (evs & Htr & _ & Hset & Hlast); [| discriminate].
  specialize (Hset Hip).
  assert (Hloopev :
            Forall (fun ev => isRandAddr ev = false /\
                      forall f found e, ev = RouteListFiltered f found e ->
                                        f = mkRoute (Some (candidate r subnet)) []) evs).
  { eapply List.Forall_impl; [| exact Hset].
    intros ev (found & err & ->). split; [reflexivity |]. now intros f fo e [= <- _ _]. }
  destruct out1 as [[addr | e] | msg |].
  - destruct Hend as (post & Htr' & Hpost). destruct Hlast as [_ Hkeep].
    specialize (Hkeep Hip). subst addr. exists (evs ++ post).
    split; [rewrite Htr', Htr, <- !app_assoc; reflexivity |]. split.
    + apply List.Forall_app. split; [exact Hloopev |].
      eapply List.Forall_impl; [| exact (afterLoop_events _ _ _ _ _ Hpost)].
      intros ev [Hd Hne]. split; [exact Hd |]. intros f fo e Heq.
      exfalso. exact (Hne f fo e Heq).
    + intros resp ->. inversion Hpost. reflexivity.
  - destruct Hend as [-> ->]. exists evs. split; [exact Htr |].
    split; [exact Hloopev | discriminate].
  - contradiction.
  - destruct Hend as [-> ->]. exists evs. split; [exact Htr |].
    split; [exact Hloopev | discriminate].
Qed.

(** X7. Releasing does not free an address. On a host where an added route
    is seen by the route check, once a request for an explicit address has
    come back with it, [ReleaseAddress] and then the same request never
    comes back: with every fuel the run is still checking that address when
    the fuel is used up. *)
Theorem released_address_is_not_reusable (fuel : nat) (d : Driver)
    (r : RequestAddressRequest) (s s' : State W) (resp : RequestAddressResponse)
    (ip0 : IP) (subnet : IPNet) :
  addedRoutesShow ->
  ParseCIDR (PoolID r) = inl (ip0, subnet) ->
  index (Options r) "RequestAddressType" <> "com.docker.network.gateway" ->
  ParseIP (Address r) <> [] ->
  RequestAddress fuel d r s = (Go.Done (Some resp, None), s') ->
  exists found,
    found <> [] /\
    forall fuel' rel,
      (let* _ := ReleaseAddress d rel in RequestAddress fuel' d r) s' =
        (Go.OutOfFuel,
         mkState (world s')
           (trace s' ++
            repeat (RouteListFiltered (mkRoute (Some (candidate r subnet)) []) found None)
              fuel')).
Proof.
  intros Hshow Hparse Hgw Hip Hrun.
  destruct (RequestAddress_returned_route fuel d r s s' resp ip0 subnet Hparse Hgw Hrun)
    as (addr & s1 & gw & w4 & Hloop & Hadd).
  apply candidateLoop_log in Hloop as (evs & _ & _ & _ & _ & Hkeep); [| discriminate].
  specialize (Hkeep Hip). subst addr.
  destruct (Hshow _ _ _ Hadd) as (r1 & rs & Hq). cbn [Dst] in Hq.
  exists (r1 :: rs). split; [discriminate |]. intros fuel' rel.
  change ((let* _ := ReleaseAddress d rel in RequestAddress fuel' d r) s')
    with (RequestAddress fuel' d r s').
  exact (RequestAddress_spins d r s' ip0 subnet r1 rs Hparse Hgw Hip Hq fuel').
Qed.

End DriverForward.

(** ** These properties on the host of the end-to-end scenario *)

Section MoreOnHost1.
Import net netlink ipam vxrIpam driverlog.
Local Open Scope list_scope.

(** On [sim.host] a route that was added matches the filter made of its own
    destination. *)
Lemma IP_Equal_refl (ip : IP) : IP_Equal ip ip = true.
Proof.
  unfold IP_Equal. rewrite Z.eqb_refl. unfold bytesEqual.
  now apply bool_decide_eq_true_2.
Qed.

Lemma dstMatches_own (route : Route) : sim.dstMatches (mkRoute (Dst route) []) route = true.
Proof.
  unfold sim.dstMatches. cbn [Dst]. destruct (Dst route) as [d |]; [| reflexivity].
  rewrite IP_Equal_refl. now rewrite bool_decide_eq_true_2.
Qed.

Lemma host_shows_added_routes : @addedRoutesShow sim.World sim.host.
Proof.
  intros route w w' Hadd. cbn in Hadd. injection Hadd as <-.
  cbn [hostRouteListFiltered sim.host sim.routes].
  rewrite List.filter_app. cbn [List.filter]. rewrite dstMatches_own.
  destruct (List.filter (sim.dstMatches (mkRoute (Dst route) [])) (sim.routes w))
    as [| r1 rs]; eexists _, _; reflexivity.
Qed.

(** A request for any address on the host that draws [10.1.1.9]: draw,
    check, and the four steps after the loop. *)
Lemma RequestAddress_steps_in_order_witness :
  let run := sim.requestAddress 3 sim.reqAny (sim.host1 [sim.ip9]) in
  @ParseCIDR ipv4.text (PoolID sim.reqAny)
    = inl (v4InV6Prefix ++ [10; 1; 1; 0]%Z, sim.subnet1) /\
  index (Options sim.reqAny) "RequestAddressType" <> "com.docker.network.gateway" /\
  exists evs,
    Forall (fun ev => isRandAddr ev = true \/ exists a, isCheckOf a ev) evs /\
    ((run.1 = Go.OutOfFuel /\ trace run.2 = [] ++ evs) \/
     (exists evs0 f found e,
        evs = evs0 ++ [RouteListFiltered f found (Some e)] /\
        run.1 = Go.Done (None, Some e) /\ trace run.2 = [] ++ evs) \/
     (exists evs0 addr post,
        evs = evs0 ++ [RouteListFiltered (mkRoute (Some addr) []) [] None] /\
        trace run.2 = [] ++ evs ++ post /\
        @afterLoop ipv4.text sim.reqAny sim.subnet1 addr post run.1)).
Proof.
  intros run. split; [reflexivity |]. split; [discriminate |].
  apply (@RequestAddress_steps_in_order sim.World ipv4.text sim.host 3 sim.driver
           sim.reqAny (sim.start (sim.host1 [sim.ip9])) run.2
           (v4InV6Prefix ++ [10; 1; 1; 0]%Z) sim.subnet1 run.1);
    [reflexivity | discriminate | apply surjective_pairing].
Defined.

(** A request on a pool with no network fails, and has added no route. *)
Lemma RequestAddress_failure_adds_no_route_witness :
  let run := sim.requestAddress 3 reqNoNetwork (sim.host1 []) in
  run.1 = Go.Done (None, Some "failed to get network from pool") /\
  exists evs,
    trace run.2 = [] ++ evs /\ Forall (fun ev => isRouteAdded ev = false) evs.
Proof.
  intros run. split; [reflexivity |].
  apply (@RequestAddress_failure_adds_no_route sim.World ipv4.text sim.host 3 sim.driver
           reqNoNetwork (sim.start (sim.host1 [])) run.2 run.1);
    [apply surjective_pairing | discriminate].
Defined.

(** The same request: its error comes after the network lookup. *)
Lemma RequestAddress_error_is_last_call_witness :
  let run := sim.requestAddress 3 reqNoNetwork (sim.host1 []) in
  run = (Go.Done (None, Some "failed to get network from pool"), run.2) /\
  exists evs last,
    trace run.2 = [] ++ evs ++ [last] /\
    ((exists f found,
        last = RouteListFiltered f found (Some "failed to get network from pool")) \/
     last = GetNetworkResourceBySubnet (PoolID reqNoNetwork) None
              (Some "failed to get network from pool") \/
     (last = GetNetworkResourceBySubnet (PoolID reqNoNetwork) None None /\
      "failed to get network from pool" = "failed to get network from pool") \/
     (exists id, last = ConnectHost id (Some "failed to get network from pool")) \/
     (exists gw, last = GetGatewayBySubnet (PoolID reqNoNetwork) gw
                          (Some "failed to get network from pool")) \/
     (exists route, last = RouteAdd route (Some "failed to get network from pool"))).
Proof.
  intros run. split; [reflexivity |].
  apply (@RequestAddress_error_is_last_call sim.World ipv4.text sim.host 3 sim.driver
           reqNoNetwork (sim.start (sim.host1 [])) run.2).
  reflexivity.
Defined.

(** The free address [10.1.1.9], asked for by name. *)
Lemma RequestAddress_free_explicit_address_witness :
  sim.requestAddress 1 reqFree (sim.host1 []) =
    (Go.Done (Some (mkRequestAddressResponse "10.1.1.9/24" ∅), None),
     mkState (host1With9 [])
       [RouteListFiltered (sim.check sim.ip9) [] None;
        GetNetworkResourceBySubnet "10.1.1.0/24" (Some sim.net1) None;
        ConnectHost "4f1a" None;
        GetGatewayBySubnet "10.1.1.0/24" (Some sim.gw1) None;
        RouteAdd route9 None]).
Proof.
  apply (@RequestAddress_free_explicit_address sim.World ipv4.text sim.host 0 sim.driver
           reqFree (sim.start (sim.host1 [])) (v4InV6Prefix ++ [10; 1; 1; 0]%Z) sim.subnet1
           sim.net1 None sim.gw1 (sim.host1 []) (sim.host1 []) (sim.host1 [])
           (sim.host1 []) (host1With9 []));
    first [reflexivity | discriminate].
Defined.

(** The free address [10.1.1.9], drawn. *)
Lemma RequestAddress_free_drawn_address_witness :
  sim.requestAddress 1 sim.reqAny (sim.host1 [sim.ip9]) =
    (Go.Done (Some (mkRequestAddressResponse "10.1.1.9/24" ∅), None),
     mkState (host1With9 [])
       [RandAddr sim.subnet1 sim.ip9;
        RouteListFiltered (sim.check sim.ip9) [] None;
        GetNetworkResourceBySubnet "10.1.1.0/24" (Some sim.net1) None;
        ConnectHost "4f1a" None;
        GetGatewayBySubnet "10.1.1.0/24" (Some sim.gw1) None;
        RouteAdd route9 None]).
Proof.
  apply (@RequestAddress_free_drawn_address sim.World ipv4.text sim.host 0 sim.driver
           sim.reqAny (sim.start (sim.host1 [sim.ip9]))
           (v4InV6Prefix ++ [10; 1; 1; 0]%Z) sim.subnet1 sim.ip9
           sim.net1 None sim.gw1 (sim.host1 []) (sim.host1 []) (sim.host1 [])
           (sim.host1 []) (sim.host1 []) (host1With9 []));
    first [reflexivity | discriminate].
Defined.

(** The request for the routed [10.1.1.5], out of fuel after three rounds:
    no draw, three checks of [10.1.1.5/32]. *)
Lemma RequestAddress_explicit_address_only_witness :
  let run := sim.requestAddress 3 sim.reqTaken (sim.host1 [sim.ip9]) in
  @ParseCIDR ipv4.text (PoolID sim.reqTaken)
    = inl (v4InV6Prefix ++ [10; 1; 1; 0]%Z, sim.subnet1) /\
  @ParseIP ipv4.text (Address sim.reqTaken) <> [] /\
  run.1 = Go.OutOfFuel /\
  exists evs,
    trace run.2 = [] ++ evs /\
    Forall (fun ev => isRandAddr ev = false /\
                      forall f found e, ev = RouteListFiltered f found e ->
                        f = mkRoute (Some (@candidate ipv4.text sim.reqTaken sim.subnet1)) [])
      evs /\
    (forall resp, run.1 = Go.Done (Some resp, None) ->
       Resp_Address resp =
         @IPNet_String ipv4.text
           (mkIPNet (@ParseIP ipv4.text (Address sim.reqTaken)) (IPNet_Mask sim.subnet1))).
Proof.
  intros run. split; [reflexivity |]. split; [discriminate |]. split; [reflexivity |].
  apply (@RequestAddress_explicit_address_only sim.World ipv4.text sim.host 3 sim.driver
           sim.reqTaken (sim.start (sim.host1 [sim.ip9])) run.2
           (v4InV6Prefix ++ [10; 1; 1; 0]%Z) sim.subnet1 run.1);
    [reflexivity | discriminate | apply surjective_pairing].
Defined.

(** [10.1.1.9] is given out, released, and asked for again. *)
Lemma released_address_is_not_reusable_witness :
  let first := sim.requestAddress 1 reqFree (sim.host1 []) in
  @addedRoutesShow sim.World sim.host /\
  first.1 = Go.Done (Some (mkRequestAddressResponse "10.1.1.9/24" ∅), None) /\
  exists found,
    found <> [] /\
    forall fuel' rel,
      (let* _ := @ReleaseAddress sim.World sim.driver rel
       in @RequestAddress sim.World ipv4.text sim.host fuel' sim.driver reqFree) first.2 =
        (Go.OutOfFuel,
         mkState (world first.2)
           (trace first.2 ++
            repeat (RouteListFiltered
                      (mkRoute (Some (@candidate ipv4.text reqFree sim.subnet1)) [])
                      found None) fuel')).
Proof.
  intros first. split; [exact host_shows_added_routes |]. split; [reflexivity |].
  apply (@released_address_is_not_reusable sim.World ipv4.text sim.host 1 sim.driver
           reqFree (sim.start (sim.host1 [])) first.2
           (mkRequestAddressResponse "10.1.1.9/24" ∅)
           (v4InV6Prefix ++ [10; 1; 1; 0]%Z) sim.subnet1);
    first [exact host_shows_added_routes | reflexivity | discriminate].
Defined.

End MoreOnHost1.

(** ** Every run of the cache *)

Section CacheRuns.
Import types client cachelog.
Context {W : Type} {API : DockerAPI W}.
Local Open Scope list_scope.

(** A lookup by pool that hits: the record, and nothing but the read. *)
Lemma GetNetworkResourceByPool_hit (pool : string) (s : State W) (p : ptr) :
  nrByPool (cache s) !! pool = Some p ->
  GetNetworkResourceByPool pool s =
    (Go.Done (Some p, None),
     mkState (heap s) (cache s) (world s) (trace s ++ [RLock; ReadByPool pool; RUnlock])).
Proof.
  intros Hhit. unfold GetNetworkResourceByPool, Go.bind, emit, readByPool.
  cbn [heap cache world trace]. rewrite Hhit. unfold Go.bind, emit.
  cbn [heap cache world trace Go.ret]. rewrite <- !app_assoc. reflexivity.
Qed.

(** A lookup by pool that misses: the list call, then the loop. *)
Lemma GetNetworkResourceByPool_miss_eq (pool : string) (s : State W)
    (res : list NetworkResource + Go.error) (w' : W) :
  nrByPool (cache s) !! pool = None ->
  dcNetworkList networkDriverName (world s) = (res, w') ->
  GetNetworkResourceByPool pool s =
    let s0 := mkState (heap s) (cache s) w'
                (trace s ++ [RLock; ReadByPool pool; RUnlock;
                             NetworkList networkDriverName res]) in
    match res with
    | inr err => (Go.Done (None, Some err), s0)
    | inl nl =>
        match findByPool pool nl s0 with
        | (Go.Done nr, s1) => (Go.Done (nr, None), s1)
        | (Go.Panic msg, s1) => (Go.Panic msg, s1)
        | (Go.OutOfFuel, s1) => (Go.OutOfFuel, s1)
        end
    end.
Proof.
  intros Hmiss Hlist. unfold GetNetworkResourceByPool, Go.bind at 1 2, emit, readByPool.
  cbn [heap cache world trace]. rewrite Hmiss.
  unfold Go.bind at 1 2, emit, networkList. cbn [heap cache world trace].
  rewrite Hlist. cbv zeta. rewrite <- !app_assoc. cbn [app].
  destruct res as [nl | err]; [| reflexivity].
  unfold Go.bind at 1. reflexivity.
Qed.

(** The four ways of a lookup by ID. *)
Lemma GetNetworkResourceByID_cases (id : string) (s : State W) :
  (exists p,
     nrByID (cache s) !! id = Some p /\
     GetNetworkResourceByID id s =
       (Go.Done (Some p, None),
        mkState (heap s) (cache s) (world s) (trace s ++ [RLock; ReadByID id; RUnlock]))) \/
  (exists e w',
     nrByID (cache s) !! id = None /\
     GetNetworkResourceByID id s =
       (Go.Done (None, Some e),
        mkState (heap s) (cache s) w'
          (trace s ++ [RLock; ReadByID id; RUnlock; NetworkInspect id (inr e)]))) \/
  (exists nr tp e w',
     nrByID (cache s) !! id = None /\ poolFromNR nr = (tp, Some e) /\
     GetNetworkResourceByID id s =
       (Go.Done (Some (length (heap s)), None),
        mkState (heap s ++ [nr]) (cache s) w'
          (trace s ++ [RLock; ReadByID id; RUnlock; NetworkInspect id (inl nr);
                       Lock; Unlock]))) \/
  (exists nr pool w',
     nrByID (cache s) !! id = None /\ poolFromNR nr = (pool, None) /\
     GetNetworkResourceByID id s =
       (Go.Done (Some (length (heap s)), None),
        mkState (heap s ++ [nr])
          (mkClient (<[ID nr := length (heap s)]> (nrByID (cache s)))
                    (<[pool := length (heap s)]> (nrByPool (cache s))))
          w'
          (trace s ++ [RLock; ReadByID id; RUnlock; NetworkInspect id (inl nr);
                       Lock; WriteByID (ID nr) (length (heap s));
                       WritePool pool (length (heap s)); Unlock]))).
Proof.
  destruct (nrByID (cache s) !! id) as [p |] eqn:Hl.
  - left. exists p. split; [reflexivity |]. now apply GetNetworkResourceByID_hit.
  - right. destruct (dcNetworkInspect id (world s)) as [res w'] eqn:Hins.
    rewrite (GetNetworkResourceByID_miss_eq id s res w' Hl Hins). cbv zeta.
    destruct res as [nr | err].
    + right. destruct (poolFromNR nr) as [pool [e |]] eqn:Hpool.
      * left. exists nr, pool, e, w'. rewrite <- app_assoc. now repeat split.
      * right. exists nr, pool, w'. rewrite <- app_assoc. now repeat split.
    + left. exists err, w'. now split.
Qed.

(** A pool that [poolFromNR] derives without an error is not empty. *)
Lemma poolFromConfig_nonempty (cfg : list IPAMConfig) (pool : string) :
  poolFromConfig cfg = (pool, None) -> pool <> "".
Proof.
  induction cfg as [| c rest IH]; cbn [poolFromConfig]; [discriminate |].
  destruct (bool_decide (Subnet c <> "")) eqn:Hc; [| exact IH].
  intros [= <-]. now apply bool_decide_eq_true_1 in Hc.
Qed.

Lemma poolFromConfig_error (cfg : list IPAMConfig) (tp : string) (e : Go.error) :
  poolFromConfig cfg = (tp, Some e) -> tp = "".
Proof.
  induction cfg as [| c rest IH]; cbn [poolFromConfig]; [now intros [= <-] |].
  destruct (bool_decide (Subnet c <> "")); [discriminate | exact IH].
Qed.

Lemma lockRun_app (l : LockState) (a b : list Event) :
  lockRun l (a ++ b) =
    match lockRun l a with
    | Some l' => lockRun l' b
    | None => None
    end.
Proof.
  revert l. induction a as [| e a IH]; intros l; [reflexivity |].
  cbn [app lockRun]. destruct (lockStep l e) as [l' |]; [apply IH | reflexivity].
Qed.

Lemma grows_refl (s s' : State W) :
  heap s' = heap s -> cache s' = cache s -> grows s s'.
Proof. intros Hh Hc. unfold grows. rewrite Hh, Hc. now repeat split. Qed.

Lemma grows_trans (s1 s2 s3 : State W) : grows s1 s2 -> grows s2 s3 -> grows s1 s3.
Proof.
  intros (P12 & I12 & Q12) (P23 & I23 & Q23). split; [now transitivity (heap s2) |].
  split; intros k Hk; [apply I23, I12 | apply Q23, Q12]; exact Hk.
Qed.

Lemma advances_trans (s1 s2 s3 : State W) :
  advances s1 s2 -> advances s2 s3 -> advances s1 s3.
Proof.
  intros ((e12 & T12 & L12) & G12 & S12) ((e23 & T23 & L23) & G23 & S23).
  split; [| split; [exact (grows_trans _ _ _ G12 G23) | auto]].
  exists (e12 ++ e23). split; [now rewrite T23, T12, app_assoc |].
  rewrite lockRun_app, L12. exact L23.
Qed.

(** A step that leaves the heap and the indexes alone. *)
Lemma advances_same_store (s s' : State W) (evs : list Event) :
  heap s' = heap s -> cache s' = cache s ->
  trace s' = trace s ++ evs -> lockRun Free evs = Some Free ->
  advances s s'.
Proof.
  intros Hh Hc Ht Hl. split; [now exists evs |]. split; [now apply grows_refl |].
  unfold sound. now rewrite Hh, Hc.
Qed.

(** Putting a fetched resource on the heap without indexing it. *)
Lemma advances_alloc (s : State W) (nr : NetworkResource) (w : W) (evs : list Event) :
  lockRun Free evs = Some Free ->
  advances s (mkState (heap s ++ [nr]) (cache s) w (trace s ++ evs)).
Proof.
  intros Hl. split; [now exists evs |]. split.
  - split; [now exists [nr] |]. now split.
  - intros [Hi Hp]. split; cbn [heap cache].
    + intros id p Hid. destruct (Hi id p Hid) as (nr0 & pool0 & Hh & Hrest).
      exists nr0, pool0. split; [now apply lookup_app_l_Some | exact Hrest].
    + intros pool p Hpl. destruct (Hp pool p Hpl) as (nr0 & Hh & Hrest).
      exists nr0. split; [now apply lookup_app_l_Some | exact Hrest].
Qed.

(** Putting a fetched resource on the heap and into both indexes. *)
Lemma advances_insert (s : State W) (nr : NetworkResource) (pool : string) (w : W)
    (evs : list Event) :
  poolFromNR nr = (pool, None) ->
  lockRun Free evs = Some Free ->
  advances s
    (mkState (heap s ++ [nr])
       (mkClient (<[ID nr := length (heap s)]> (nrByID (cache s)))
                 (<[pool := length (heap s)]> (nrByPool (cache s))))
       w (trace s ++ evs)).
Proof.
  intros Hpool Hl. split; [now exists evs |]. split.
  - split; [now exists [nr] |]. cbn [cache nrByID nrByPool].
    split; intros k Hk.
    + destruct (decide (ID nr = k)) as [<- | Hne];
        [rewrite lookup_insert_eq; eauto | now rewrite lookup_insert_ne].
    + destruct (decide (pool = k)) as [<- | Hne];
        [rewrite lookup_insert_eq; eauto | now rewrite lookup_insert_ne].
  - intros [Hi Hp]. split; cbn [heap cache nrByID nrByPool].
    + intros id p. destruct (decide (ID nr = id)) as [<- | Hne].
      * rewrite lookup_insert_eq. intros [= <-]. exists nr, pool.
        split; [| split; [reflexivity | split; [exact Hpool |]]].
        -- rewrite lookup_app_r by reflexivity. now rewrite Nat.sub_diag.
        -- rewrite lookup_insert_eq. eauto.
      * rewrite lookup_insert_ne by exact Hne. intros Hid.
        destruct (Hi id p Hid) as (nr0 & pool0 & Hh & Hid0 & Hpool0 & Hsome).
        exists nr0, pool0.
        split; [now apply lookup_app_l_Some |]. split; [exact Hid0 |].
        split; [exact Hpool0 |].
        destruct (decide (pool = pool0)) as [<- | Hpne].
        -- rewrite lookup_insert_eq. eauto.
        -- rewrite lookup_insert_ne by exact Hpne. exact Hsome.
    + intros k p. destruct (decide (pool = k)) as [<- | Hne].
      * rewrite lookup_insert_eq. intros [= <-]. exists nr. split; [| exact Hpool].
        rewrite lookup_app_r by reflexivity. now rewrite Nat.sub_diag.
      * rewrite lookup_insert_ne by exact Hne. intros Hk.
        destruct (Hp k p Hk) as (nr0 & Hh & Hrest).
        exists nr0. split; [now apply lookup_app_l_Some | exact Hrest].
Qed.

Lemma GetNetworkResourceByID_advances (id : string) (s : State W) :
  advances s (GetNetworkResourceByID id s).2.
Proof.
  destruct (GetNetworkResourceByID_cases id s)
    as [(p & _ & ->) | [(e & w' & _ & ->) | [(nr & tp & e & w' & _ & _ & ->)
       | (nr & pool & w' & _ & Hpool & ->)]]]; cbn [snd].
  - now eapply advances_same_store.
  - now eapply advances_same_store.
  - now apply advances_alloc.
  - now apply advances_insert.
Qed.

(** What a lookup by ID returns from a sound cache. *)
Lemma GetNetworkResourceByID_answers (id : string) (s : State W) :
  sound s ->
  exists res,
    (GetNetworkResourceByID id s).1 = Go.Done res /\
    answers (ByID id) s (GetNetworkResourceByID id s).2 res.
Proof.
  intros [Hi _].
  destruct (GetNetworkResourceByID_cases id s)
    as [(p & Hl & ->) | [(e & w' & _ & ->) | [(nr & tp & e & w' & _ & _ & ->)
       | (nr & pool & w' & _ & Hpool & ->)]]]; cbn [fst snd];
    eexists; (split; [reflexivity |]); cbn [answers heap trace].
  - destruct (Hi id p Hl) as (nr & pool & Hh & _). now exists nr.
  - exists [RLock; ReadByID id; RUnlock]. reflexivity.
  - exists nr. rewrite lookup_app_r by reflexivity. now rewrite Nat.sub_diag.
  - exists nr. rewrite lookup_app_r by reflexivity. now rewrite Nat.sub_diag.
Qed.

(** One round of the loop of a lookup by pool. *)
Lemma findByPool_cons (pool : string) (n : NetworkResource) (rest : list NetworkResource)
    (s : State W) :
  findByPool pool (n :: rest) s =
    match GetNetworkResourceByID (ID n) s with
    | (Go.Done (_, Some _), s1) => findByPool pool rest s1
    | (Go.Done (Some p, None), s1) =>
        match heap s1 !! p with
        | Some r =>
            if bool_decide ((poolFromNR r).1 = pool) then (Go.Done (Some p), s1)
            else findByPool pool rest s1
        | None => (Go.Panic Go.nilDeref, s1)
        end
    | (Go.Done (None, None), s1) => (Go.Panic Go.nilDeref, s1)
    | (Go.Panic msg, s1) => (Go.Panic msg, s1)
    | (Go.OutOfFuel, s1) => (Go.OutOfFuel, s1)
    end.
Proof.
  cbn [findByPool]. unfold Go.bind at 1.
  destruct (GetNetworkResourceByID (ID n) s) as [[[tnr [e |]] | msg |] s1];
    [destruct tnr; reflexivity | | reflexivity | reflexivity].
  unfold Go.bind, load. destruct tnr as [p |]; cbn [Go.deref Go.ret Go.panic];
    [| reflexivity].
  destruct (heap s1 !! p) as [r |]; cbn [Go.deref Go.ret Go.panic]; [| reflexivity].
  destruct (poolFromNR r) as [tp e']. cbn [fst].
  destruct (bool_decide (tp = pool)); reflexivity.
Qed.

(** The loop of a lookup by pool, from a sound cache: it ends, with a record
    of the wanted pool or with none; and for a pool that is not empty and not
    in the Pool index, the record it ends with is the one the Pool index then
    holds under the pool, and when it ends with none the pool is still not in
    the index. *)
Lemma findByPool_run (pool : string) (nl : list NetworkResource) :
  forall s : State W,
    sound s ->
    exists o,
      (findByPool pool nl s).1 = Go.Done o /\
      advances s (findByPool pool nl s).2 /\
      (forall p, o = Some p ->
         exists nr, heap (findByPool pool nl s).2 !! p = Some nr /\
                    (poolFromNR nr).1 = pool) /\
      (pool <> "" -> nrByPool (cache s) !! pool = None ->
       nrByPool (cache (findByPool pool nl s).2) !! pool = o).
Proof.
  induction nl as [| n rest IH]; intros s Hs.
  - exists None. cbn [findByPool Go.ret fst snd]. split; [reflexivity |].
    split; [now apply (advances_same_store s s []); rewrite ?app_nil_r |].
    split; [discriminate | auto].
  - pose proof (GetNetworkResourceByID_advances (ID n) s) as Hadv.
    rewrite findByPool_cons.
    destruct (GetNetworkResourceByID_cases (ID n) s)
      as [(p & Hl & Heq) | [(e & w' & _ & Heq) | [(nr & tp & e & w' & _ & Htp & Heq)
         | (nr & pool0 & w' & _ & Hpool & Heq)]]];
      rewrite Heq in Hadv |- *; cbn [snd] in Hadv;
      pose proof (proj2 (proj2 Hadv) Hs) as Hs1.
    + (* hit *)
      destruct Hs as [Hi Hp]. destruct (Hi _ _ Hl) as (nr & pool0 & Hh & _ & Hpool & Hsome).
      cbn [heap]. rewrite Hh, Hpool. cbn [fst].
      destruct (bool_decide (pool0 = pool)) eqn:Hd.
      * apply bool_decide_eq_true_1 in Hd. subst pool0.
        exists (Some p). cbn [fst snd]. split; [reflexivity |].
        split; [exact Hadv |]. split.
        -- intros p' [= <-]. exists nr. cbn [heap]. rewrite Hpool. now split.
        -- intros _ Hnone. cbn [cache]. rewrite Hnone in Hsome. now destruct Hsome.
      * destruct (IH _ Hs1) as (o & Hout & Hadv' & Hrec & Hidx).
        exists o. split; [exact Hout |]. split; [exact (advances_trans _ _ _ Hadv Hadv') |].
        split; [exact Hrec |]. intros Hne Hnone. now apply Hidx.
    + (* the inspect call fails *)
      destruct (IH _ Hs1) as (o & Hout & Hadv' & Hrec & Hidx).
      exists o. split; [exact Hout |]. split; [exact (advances_trans _ _ _ Hadv Hadv') |].
      split; [exact Hrec |]. intros Hne Hnone. now apply Hidx.
    + (* a resource with no pool *)
      cbn [heap]. rewrite lookup_app_r by reflexivity. rewrite Nat.sub_diag.
      cbn [lookup list_lookup]. rewrite Htp. cbn [fst].
      pose proof (poolFromConfig_error _ _ _ Htp) as ->.
      destruct (bool_decide ("" = pool)) eqn:Hd.
      * apply bool_decide_eq_true_1 in Hd. subst pool.
        exists (Some (length (heap s))). cbn [fst snd]. split; [reflexivity |].
        split; [exact Hadv |]. split.
        -- intros p' [= <-]. exists nr. cbn [heap]. rewrite Htp.
           split; [| reflexivity].
           rewrite lookup_app_r by reflexivity. now rewrite Nat.sub_diag.
        -- intros Hne. now destruct Hne.
      * destruct (IH _ Hs1) as (o & Hout & Hadv' & Hrec & Hidx).
        exists o. split; [exact Hout |]. split; [exact (advances_trans _ _ _ Hadv Hadv') |].
        split; [exact Hrec |]. intros Hne Hnone. now apply Hidx.
    + (* a resource with a pool *)
      cbn [heap]. rewrite lookup_app_r by reflexivity. rewrite Nat.sub_diag.
      cbn [lookup list_lookup]. rewrite Hpool. cbn [fst].
      destruct (bool_decide (pool0 = pool)) eqn:Hd.
      * apply bool_decide_eq_true_1 in Hd. subst pool0.
        exists (Some (length (heap s))). cbn [fst snd]. split; [reflexivity |].
        split; [exact Hadv |]. split.
        -- intros p' [= <-]. exists nr. cbn [heap]. rewrite Hpool.
           split; [| reflexivity].
           rewrite lookup_app_r by reflexivity. now rewrite Nat.sub_diag.
        -- intros _ _. cbn [cache nrByPool]. apply lookup_insert_eq.
      * apply bool_decide_eq_false_1 in Hd.
        destruct (IH _ Hs1) as (o & Hout & Hadv' & Hrec & Hidx).
        exists o. split; [exact Hout |]. split; [exact (advances_trans _ _ _ Hadv Hadv') |].
        split; [exact Hrec |]. intros Hne Hnone. apply Hidx; [exact Hne |].
        cbn [cache nrByPool]. now rewrite lookup_insert_ne.
Qed.

(** A lookup from a sound cache: it returns, what it returns is one of the
    [answers], the cache [advances]; and the record a lookup by a pool that
    is not empty returns is the record the Pool index then holds under that
    pool. *)
Lemma exec_run (o : Op) (s : State W) :
  sound s ->
  exists res,
    (exec o s).1 = Go.Done res /\
    advances s (exec o s).2 /\
    answers o s (exec o s).2 res /\
    (forall pool p, o = ByPool pool -> pool <> "" -> res = (Some p, None) ->
       nrByPool (cache (exec o s).2) !! pool = Some p).
Proof.
  intros Hs. destruct o as [id | pool]; cbn [exec].
  - destruct (GetNetworkResourceByID_answers id s Hs) as (res & Hres & Hans).
    exists res. split; [exact Hres |].
    split; [apply GetNetworkResourceByID_advances |]. split; [exact Hans | discriminate].
  - destruct (nrByPool (cache s) !! pool) as [p |] eqn:Hl.
    + rewrite (GetNetworkResourceByPool_hit pool s p Hl). cbn [fst snd].
      exists (Some p, None). split; [reflexivity |].
      split; [now eapply advances_same_store |]. split.
      * cbn [answers heap]. destruct Hs as [_ Hp].
        destruct (Hp pool p Hl) as (nr & Hh & Hpool). exists nr. now rewrite Hpool.
      * intros pool' p' [= <-] _ [= <-]. exact Hl.
    + destruct (dcNetworkList networkDriverName (world s)) as [res w'] eqn:Hlist.
      rewrite (GetNetworkResourceByPool_miss_eq pool s res w' Hl Hlist). cbv zeta.
      destruct res as [nl | err].
      * set (s0 := mkState (heap s) (cache s) w'
                     (trace s ++ [RLock; ReadByPool pool; RUnlock;
                                  NetworkList networkDriverName (inl nl)])).
        assert (Hadv0 : advances s s0) by now eapply advances_same_store.
        destruct (findByPool_run pool nl s0 (proj2 (proj2 Hadv0) Hs))
          as (r & Hout & Hadv & Hrec & Hidx).
        destruct (findByPool pool nl s0) as [out s1]. cbn [fst snd] in *. subst out.
        exists (r, None). split; [reflexivity |].
        split; [exact (advances_trans _ _ _ Hadv0 Hadv) |]. split.
        -- destruct r as [p |]; cbn [answers].
           ++ exact (Hrec p eq_refl).
           ++ exists pool. split; [reflexivity |]. intros Hne. now apply Hidx.
        -- intros pool' p' [= <-] Hne [= ->]. now apply Hidx.
      * cbn [fst snd]. exists (None, Some err). split; [reflexivity |].
        split; [now eapply advances_same_store |]. split; [| discriminate].
        cbn [answers trace]. now exists [RLock; ReadByPool pool; RUnlock].
Qed.

Lemma NewClient_sound (w : W) : sound (NewClient w).
Proof.
  split; intros k p Hk; cbn in Hk; rewrite lookup_empty in Hk; discriminate.
Qed.

(** Every state of the cache is sound, and its trace takes the lock from
    free to free. *)
Lemma reachable_inv (s : State W) :
  reachable s -> sound s /\ lockRun Free (trace s) = Some Free.
Proof.
  induction 1 as [w | s w Hs IH | s id a s' Hs IH Hrun | s pool a s' Hs IH Hrun].
  - split; [apply NewClient_sound | reflexivity].
  - exact IH.
  - destruct IH as [Hsound Hlock].
    destruct (exec_run (ByID id) s Hsound) as (_ & _ & Hadv & _).
    cbn [exec] in Hadv. rewrite Hrun in Hadv. cbn [snd] in Hadv.
    destruct Hadv as ((evs & -> & Hl) & _ & Hkeep).
    split; [auto |]. rewrite lockRun_app, Hlock. exact Hl.
  - destruct IH as [Hsound Hlock].
    destruct (exec_run (ByPool pool) s Hsound) as (_ & _ & Hadv & _).
    cbn [exec] in Hadv. rewrite Hrun in Hadv. cbn [snd] in Hadv.
    destruct Hadv as ((evs & -> & Hl) & _ & Hkeep).
    split; [auto |]. rewrite lockRun_app, Hlock. exact Hl.
Qed.

(** X8. Whatever the runtime answers, after any sequence of lookups: an
    entry of the ID index points to a record of the heap that has the key as
    its ID and derives a pool, and the Pool index has an entry under that
    pool; an entry of the Pool index points to a record of the heap whose
    derived pool is the key. *)
Theorem reachable_sound (s : State W) : reachable s -> sound s.
Proof. intros Hs. exact (proj1 (reachable_inv s Hs)). Qed.

(** X9. The Pool index never has an entry under the empty pool. *)
Theorem pool_index_has_no_empty_key (s : State W) :
  reachable s -> nrByPool (cache s) !! "" = None.
Proof.
  intros Hs. destruct (proj1 (reachable_inv s Hs)) as [_ Hp].
  destruct (nrByPool (cache s) !! "") as [p |] eqn:Hl; [| reflexivity].
  destruct (Hp "" p Hl) as (nr & _ & Hpool).
  now destruct (poolFromConfig_nonempty _ _ Hpool).
Qed.

(** X10. From any state of the cache a lookup returns: it dereferences no
    nil pointer. It returns a record of the heap and no error (a lookup by
    pool: a record whose derived pool is the pool asked for); or no record
    and the error of the runtime call it made last ([NetworkInspect] for a
    lookup by ID, [NetworkList] for a lookup by pool); or, a lookup by pool
    only, neither record nor error. *)
Theorem lookups_never_panic (o : Op) (s : State W) :
  reachable s ->
  exists res, (exec o s).1 = Go.Done res /\ answers o s (exec o s).2 res.
Proof.
  intros Hs.
  destruct (exec_run o s (proj1 (reachable_inv s Hs))) as (res & Hres & _ & Hans & _).
  now exists res.
Qed.

(** X11. The trace of every state of the cache keeps the lock discipline:
    each [RLock] is followed by its [RUnlock] and each [Lock] by its
    [Unlock] with no other lock operation between them, the indexes are read
    under the read lock only and written under the write lock only, and the
    runtime is called with the lock free. *)
Theorem reachable_lock_discipline (s : State W) :
  reachable s -> lockRun Free (trace s) = Some Free.
Proof. intros Hs. exact (proj2 (reachable_inv s Hs)). Qed.

(** X12. A lookup evicts nothing: the records of the heap stay where and as
    they are, and every key of either index is still a key of it. *)
Theorem lookups_never_evict (o : Op) (s : State W) :
  reachable s -> grows s (exec o s).2.
Proof.
  intros Hs.
  destruct (exec_run o s (proj1 (reachable_inv s Hs))) as (_ & _ & Hadv & _).
  exact (proj1 (proj2 Hadv)).
Qed.

(** A lookup by ID that misses and gets a resource with another ID. *)
Lemma GetNetworkResourceByID_miss_other (id : string) (s : State W)
    (nr : NetworkResource) (w1 : W) :
  nrByID (cache s) !! id = None ->
  dcNetworkInspect id (world s) = (inl nr, w1) ->
  ID nr <> id ->
  exists s1,
    GetNetworkResourceByID id s = (Go.Done (Some (length (heap s)), None), s1) /\
    heap s1 = heap s ++ [nr] /\ world s1 = w1 /\
    nrByID (cache s1) !! id = None.
Proof.
  intros Hmiss Hins Hne.
  rewrite (GetNetworkResourceByID_miss_eq id s (inl nr) w1 Hmiss Hins). cbv zeta.
  destruct (poolFromNR nr) as [pool [e |]]; eexists; (split; [reflexivity |]);
    cbn [heap world cache nrByID]; repeat split; try assumption.
  now rewrite lookup_insert_ne.
Qed.

(** X13. A lookup by a key that is not the ID of the resource the runtime
    gives for it (a network name, say) is never a hit: the record is indexed
    under the resource's ID only, so the same lookup asks the runtime again,
    and returns a second record at another address. *)
Theorem GetNetworkResourceByID_other_key (id : string) (s : State W)
    (nr nr2 : NetworkResource) (w1 w2 : W) :
  nrByID (cache s) !! id = None ->
  dcNetworkInspect id (world s) = (inl nr, w1) ->
  ID nr <> id ->
  dcNetworkInspect id w1 = (inl nr2, w2) ->
  ID nr2 <> id ->
  exists s1 s2,
    GetNetworkResourceByID id s = (Go.Done (Some (length (heap s)), None), s1) /\
    nrByID (cache s1) !! id = None /\
    GetNetworkResourceByID id s1 = (Go.Done (Some (S (length (heap s))), None), s2) /\
    heap s2 = heap s ++ [nr; nr2] /\
    nrByID (cache s2) !! id = None.
Proof.
  intros Hmiss Hins Hne Hins2 Hne2.
  destruct (GetNetworkResourceByID_miss_other id s nr w1 Hmiss Hins Hne)
    as (s1 & Hrun1 & Hh1 & Hw1 & Hmiss1).
  rewrite <- Hw1 in Hins2.
  destruct (GetNetworkResourceByID_miss_other id s1 nr2 w2 Hmiss1 Hins2 Hne2)
    as (s2 & Hrun2 & Hh2 & _ & Hmiss2).
  exists s1, s2. split; [exact Hrun1 |]. split; [exact Hmiss1 |].
  rewrite Hh1, length_app, Nat.add_1_r in Hrun2. split; [exact Hrun2 |].
  split; [| exact Hmiss2]. rewrite Hh2, Hh1, <- app_assoc. reflexivity.
Qed.

(** X14. The round trip of a lookup by ID that misses and caches: after it,
    the lookup by the resource's own ID and the lookup by the resource's
    derived pool both hit, both return the very record the miss returned,
    and neither calls the runtime. *)
Theorem GetNetworkResourceByID_round_trip (id : string) (s : State W)
    (nr : NetworkResource) (pool : string) (w' : W) :
  nrByID (cache s) !! id = None ->
  dcNetworkInspect id (world s) = (inl nr, w') ->
  poolFromNR nr = (pool, None) ->
  exists s',
    GetNetworkResourceByID id s = (Go.Done (Some (length (heap s)), None), s') /\
    GetNetworkResourceByID (ID nr) s' =
      (Go.Done (Some (length (heap s)), None),
       mkState (heap s') (cache s') (world s')
         (trace s' ++ [RLock; ReadByID (ID nr); RUnlock])) /\
    GetNetworkResourceByPool pool s' =
      (Go.Done (Some (length (heap s)), None),
       mkState (heap s') (cache s') (world s')
         (trace s' ++ [RLock; ReadByPool pool; RUnlock])).
Proof.
  intros Hmiss Hins Hpool.
  rewrite (GetNetworkResourceByID_miss_eq id s (inl nr) w' Hmiss Hins). cbv zeta.
  rewrite Hpool. eexists. split; [reflexivity |]. split.
  - apply GetNetworkResourceByID_hit. cbn [cache nrByID]. apply lookup_insert_eq.
  - apply GetNetworkResourceByPool_hit. cbn [cache nrByPool]. apply lookup_insert_eq.
Qed.

(** X15. The round trip of a lookup by pool: the record a lookup by a pool
    that is not empty returns is cached under that pool, so the same lookup
    then hits, returns the very same record, and does not call the runtime. *)
Theorem GetNetworkResourceByPool_round_trip (pool : string) (s s' : State W) (p : ptr) :
  reachable s ->
  pool <> "" ->
  GetNetworkResourceByPool pool s = (Go.Done (Some p, None), s') ->
  GetNetworkResourceByPool pool s' =
    (Go.Done (Some p, None),
     mkState (heap s') (cache s') (world s') (trace s' ++ [RLock; ReadByPool pool; RUnlock])).
Proof.
  intros Hs Hne Hrun.
  destruct (exec_run (ByPool pool) s (proj1 (reachable_inv s Hs)))
    as (res & Hres & _ & _ & Hidx).
  cbn [exec] in Hres, Hidx. rewrite Hrun in Hres, Hidx. cbn [fst snd] in Hres, Hidx.
  injection Hres as <-.
  apply GetNetworkResourceByPool_hit. exact (Hidx pool p eq_refl Hne eq_refl).
Qed.

(** X16. The lookup by the empty pool: the record it returns is one with no
    subnet at all (the error of [poolFromNR] is dropped in the loop, and the
    empty string it comes with equals the pool asked for); that record is
    not in the Pool index, so the same lookup lists the networks again. *)
Theorem GetNetworkResourceByPool_empty_pool (s s' : State W) (p : ptr) :
  reachable s ->
  GetNetworkResourceByPool "" s = (Go.Done (Some p, None), s') ->
  (exists nr, heap s' !! p = Some nr /\ poolFromNR nr = ("", Some "pool not found")) /\
  nrByPool (cache s') !! "" = None.
Proof.
  intros Hs Hrun.
  assert (Hs' : reachable s') by exact (reach_ByPool s "" _ s' Hs Hrun).
  destruct (exec_run (ByPool "") s (proj1 (reachable_inv s Hs)))
    as (res & Hres & _ & Hans & _).
  cbn [exec] in Hres, Hans. rewrite Hrun in Hres, Hans. cbn [fst snd] in Hres, Hans.
  injection Hres as <-. cbn [answers] in Hans. destruct Hans as (nr & Hh & Hfst).
  split.
  - exists nr. split; [exact Hh |].
    destruct (poolFromConfig_cases (Config (NR_IPAM nr))) as [[sub Hsub] | Herr].
    + exfalso. apply (poolFromConfig_nonempty _ _ Hsub).
      unfold poolFromNR in Hfst. now rewrite Hsub in Hfst.
    + exact Herr.
  - destruct (proj1 (reachable_inv s' Hs')) as [_ Hp].
    destruct (nrByPool (cache s') !! "") as [q |] eqn:Hl; [| reflexivity].
    destruct (Hp "" q Hl) as (nr0 & _ & Hpool).
    now destruct (poolFromConfig_nonempty _ _ Hpool).
Qed.

(** The loop over networks that are not in the ID index, on a runtime that
    fails every inspect call. *)
Lemma findByPool_all_fail (pool : string) (nl : list NetworkResource) :
  (forall id w, exists e w', dcNetworkInspect id w = (inr e, w')) ->
  forall s : State W,
    (forall n, n ∈ nl -> nrByID (cache s) !! ID n = None) ->
    exists s',
      findByPool pool nl s = (Go.Done None, s') /\
      heap s' = heap s /\ cache s' = cache s.
Proof.
  intros Hdeaf. induction nl as [| n rest IH]; intros s Hmiss.
  - exists s. now repeat split.
  - rewrite findByPool_cons.
    assert (Hn : nrByID (cache s) !! ID n = None) by (apply Hmiss; left).
    destruct (Hdeaf (ID n) (world s)) as (e & w' & Hins).
    rewrite (GetNetworkResourceByID_miss_eq (ID n) s (inr e) w' Hn Hins). cbv zeta.
    destruct (IH (mkState (heap s) (cache s) w'
                    (trace s ++ [RLock; ReadByID (ID n); RUnlock;
                                 NetworkInspect (ID n) (inr e)])))
      as (s' & Hrun & Hh & Hc).
    + intros m Hm. cbn [cache]. apply Hmiss. now right.
    + exists s'. now repeat split.
Qed.

(** X17. A lookup by pool drops the errors of the inspect calls of its
    loop: when the list call succeeds and every inspect call fails, it
    returns neither a record nor an error, and leaves heap and indexes as
    they were. *)
Theorem GetNetworkResourceByPool_drops_inspect_errors (pool : string) (s : State W)
    (nl : list NetworkResource) (w1 : W) :
  nrByPool (cache s) !! pool = None ->
  dcNetworkList networkDriverName (world s) = (inl nl, w1) ->
  (forall n, n ∈ nl -> nrByID (cache s) !! ID n = None) ->
  (forall id w, exists e w', dcNetworkInspect id w = (inr e, w')) ->
  exists s',
    GetNetworkResourceByPool pool s = (Go.Done (None, None), s') /\
    heap s' = heap s /\ cache s' = cache s.
Proof.
  intros Hmiss Hlist Hids Hdeaf.
  rewrite (GetNetworkResourceByPool_miss_eq pool s (inl nl) w1 Hmiss Hlist). cbv zeta.
  destruct (findByPool_all_fail pool nl Hdeaf
              (mkState (heap s) (cache s) w1
                 (trace s ++ [RLock; ReadByPool pool; RUnlock;
                              NetworkList networkDriverName (inl nl)])) Hids)
    as (s' & -> & Hh & Hc).
  exists s'. now repeat split.
Qed.

(** X18. A lookup by pool stops at the first match. When the first listed
    network is not in the ID index and the resource the runtime gives for it
    derives the pool asked for, the lookup makes one list call and one
    inspect call whatever else is listed, puts the record into both indexes
    and returns it. *)
Theorem GetNetworkResourceByPool_stops_at_first_match (pool : string) (s : State W)
    (n nr : NetworkResource) (rest : list NetworkResource) (w1 w2 : W) :
  nrByPool (cache s) !! pool = None ->
  dcNetworkList networkDriverName (world s) = (inl (n :: rest), w1) ->
  nrByID (cache s) !! ID n = None ->
  dcNetworkInspect (ID n) w1 = (inl nr, w2) ->
  poolFromNR nr = (pool, None) ->
  GetNetworkResourceByPool pool s =
    (Go.Done (Some (length (heap s)), None),
     mkState (heap s ++ [nr])
       (mkClient (<[ID nr := length (heap s)]> (nrByID (cache s)))
                 (<[pool := length (heap s)]> (nrByPool (cache s))))
       w2
       (trace s ++ [RLock; ReadByPool pool; RUnlock;
                    NetworkList networkDriverName (inl (n :: rest));
                    RLock; ReadByID (ID n); RUnlock; NetworkInspect (ID n) (inl nr);
                    Lock; WriteByID (ID nr) (length (heap s));
                    WritePool pool (length (heap s)); Unlock])).
Proof.
  intros Hmiss Hlist Hid Hins Hpool.
  rewrite (GetNetworkResourceByPool_miss_eq pool s _ w1 Hmiss Hlist). cbv zeta.
  rewrite findByPool_cons.
  rewrite (GetNetworkResourceByID_miss_eq (ID n)
             (mkState (heap s) (cache s) w1
                (trace s ++ [RLock; ReadByPool pool; RUnlock;
                             NetworkList networkDriverName (inl (n :: rest))]))
             (inl nr) w2 Hid Hins).
  cbv zeta. rewrite Hpool. cbn [heap cache world trace].
  rewrite lookup_app_r by reflexivity. rewrite Nat.sub_diag. cbn [lookup list_lookup].
  rewrite Hpool. cbn [fst]. rewrite bool_decide_eq_true_2 by reflexivity.
  rewrite <- !app_assoc. reflexivity.
Qed.

End CacheRuns.

(** ** These properties on concrete runtimes *)

Section MoreOnRuntimes.
Import types client cachelog.
Local Open Scope list_scope.

(** Two networks on one subnet, looked up by ID one after the other: the
    cache is not coherent, and it is sound. *)
Lemma reachable_sound_witness :
  let s := (sim.lookupID [sim.netA; sim.netB] "b2"
              (sim.lookupID [sim.netA; sim.netB] "a1" (NewClient tt)).2).2 in
  @reachable unit (sim.runtime [sim.netA; sim.netB]) s /\ sound s.
Proof.
  intros s.
  assert (Hr : @reachable unit (sim.runtime [sim.netA; sim.netB]) s)
    by (apply @reachable_ByID_run, @reachable_ByID_run, reach_new).
  split; [exact Hr |].
  exact (@reachable_sound unit (sim.runtime [sim.netA; sim.netB]) s Hr).
Defined.

(** A network with no subnet, looked up by ID and then by the empty pool. *)
Lemma pool_index_has_no_empty_key_witness :
  let s := (sim.lookupPool [sim.netBare; sim.netC] ""
              (sim.lookupID [sim.netBare; sim.netC] "d4" (NewClient tt)).2).2 in
  @reachable unit (sim.runtime [sim.netBare; sim.netC]) s /\
  nrByPool (cache s) !! "" = None.
Proof.
  intros s.
  assert (Hr : @reachable unit (sim.runtime [sim.netBare; sim.netC]) s)
    by (apply @reachable_ByPool_run, @reachable_ByID_run, reach_new).
  split; [exact Hr |].
  exact (@pool_index_has_no_empty_key unit (sim.runtime [sim.netBare; sim.netC]) s Hr).
Defined.

(** A lookup by pool on a new client. *)
Lemma lookups_never_panic_witness :
  @reachable unit (sim.runtime [sim.netA; sim.netC]) (NewClient tt) /\
  exists res,
    (@exec unit (sim.runtime [sim.netA; sim.netC]) (ByPool "10.0.1.0/24") (NewClient tt)).1
      = Go.Done res /\
    answers (ByPool "10.0.1.0/24") (NewClient tt)
      (@exec unit (sim.runtime [sim.netA; sim.netC]) (ByPool "10.0.1.0/24") (NewClient tt)).2
      res.
Proof.
  split; [apply reach_new |].
  apply (@lookups_never_panic unit (sim.runtime [sim.netA; sim.netC])). apply reach_new.
Defined.

(** A lookup by pool that goes through two lookups by ID, then a hit. *)
Lemma reachable_lock_discipline_witness :
  let s := (sim.lookupPool [sim.netA; sim.netC] "10.0.1.0/24"
              (sim.lookupPool [sim.netA; sim.netC] "10.0.1.0/24" (NewClient tt)).2).2 in
  @reachable unit (sim.runtime [sim.netA; sim.netC]) s /\
  lockRun Free (trace s) = Some Free.
Proof.
  intros s.
  assert (Hr : @reachable unit (sim.runtime [sim.netA; sim.netC]) s)
    by (apply @reachable_ByPool_run, @reachable_ByPool_run, reach_new).
  split; [exact Hr |].
  exact (@reachable_lock_discipline unit (sim.runtime [sim.netA; sim.netC]) s Hr).
Defined.

(** The second of two lookups by ID of networks on one subnet. *)
Lemma lookups_never_evict_witness :
  let s := (sim.lookupID [sim.netA; sim.netB] "a1" (NewClient tt)).2 in
  @reachable unit (sim.runtime [sim.netA; sim.netB]) s /\
  grows s (@exec unit (sim.runtime [sim.netA; sim.netB]) (ByID "b2") s).2.
Proof.
  intros s.
  assert (Hr : @reachable unit (sim.runtime [sim.netA; sim.netB]) s)
    by (apply @reachable_ByID_run, reach_new).
  split; [exact Hr |].
  exact (@lookups_never_evict unit (sim.runtime [sim.netA; sim.netB]) (ByID "b2") s Hr).
Defined.

(** The network ["a1"], looked up by its name ["red"], twice. *)
Lemma GetNetworkResourceByID_other_key_witness :
  exists s1 s2,
    sim.lookupID [sim.netA] "red" (NewClient tt) = (Go.Done (Some 0, None), s1) /\
    nrByID (cache s1) !! "red" = None /\
    sim.lookupID [sim.netA] "red" s1 = (Go.Done (Some 1, None), s2) /\
    heap s2 = [sim.netA; sim.netA] /\
    nrByID (cache s2) !! "red" = None.
Proof.
  apply (@GetNetworkResourceByID_other_key unit (sim.runtime [sim.netA]) "red"
           (NewClient tt) sim.netA sim.netA tt tt);
    first [reflexivity | discriminate].
Defined.

(** The network ["a1"], looked up by ID, then by ID and by pool. *)
Lemma GetNetworkResourceByID_round_trip_witness :
  exists s',
    sim.lookupID [sim.netA] "a1" (NewClient tt) = (Go.Done (Some 0, None), s') /\
    sim.lookupID [sim.netA] "a1" s' =
      (Go.Done (Some 0, None),
       mkState (heap s') (cache s') (world s')
         (trace s' ++ [RLock; ReadByID "a1"; RUnlock])) /\
    sim.lookupPool [sim.netA] "10.0.0.0/24" s' =
      (Go.Done (Some 0, None),
       mkState (heap s') (cache s') (world s')
         (trace s' ++ [RLock; ReadByPool "10.0.0.0/24"; RUnlock])).
Proof.
  apply (@GetNetworkResourceByID_round_trip unit (sim.runtime [sim.netA]) "a1"
           (NewClient tt) sim.netA "10.0.0.0/24" tt); reflexivity.
Defined.

(** The pool of the second listed network, looked up twice. *)
Lemma GetNetworkResourceByPool_round_trip_witness :
  let s' := (sim.lookupPool [sim.netA; sim.netC] "10.0.1.0/24" (NewClient tt)).2 in
  @reachable unit (sim.runtime [sim.netA; sim.netC]) (NewClient tt) /\
  "10.0.1.0/24" <> "" /\
  sim.lookupPool [sim.netA; sim.netC] "10.0.1.0/24" (NewClient tt)
    = (Go.Done (Some 1, None), s') /\
  sim.lookupPool [sim.netA; sim.netC] "10.0.1.0/24" s' =
    (Go.Done (Some 1, None),
     mkState (heap s') (cache s') (world s')
       (trace s' ++ [RLock; ReadByPool "10.0.1.0/24"; RUnlock])).
Proof.
  intros s'.
  assert (Hrun : sim.lookupPool [sim.netA; sim.netC] "10.0.1.0/24" (NewClient tt)
                 = (Go.Done (Some 1, None), s')) by (vm_compute; reflexivity).
  split; [apply reach_new |]. split; [discriminate |]. split; [exact Hrun |].
  apply (@GetNetworkResourceByPool_round_trip unit (sim.runtime [sim.netA; sim.netC])
           "10.0.1.0/24" (NewClient tt) s' 1);
    [apply reach_new | discriminate | exact Hrun].
Defined.

(** The empty pool on a runtime whose second network has no subnet. *)
Lemma GetNetworkResourceByPool_empty_pool_witness :
  let s' := (sim.lookupPool [sim.netA; sim.netBare] "" (NewClient tt)).2 in
  @reachable unit (sim.runtime [sim.netA; sim.netBare]) (NewClient tt) /\
  sim.lookupPool [sim.netA; sim.netBare] "" (NewClient tt) = (Go.Done (Some 1, None), s') /\
  (exists nr, heap s' !! 1 = Some nr /\ poolFromNR nr = ("", Some "pool not found")) /\
  nrByPool (cache s') !! "" = None.
Proof.
  intros s'.
  assert (Hrun : sim.lookupPool [sim.netA; sim.netBare] "" (NewClient tt)
                 = (Go.Done (Some 1, None), s')) by (vm_compute; reflexivity).
  split; [apply reach_new |]. split; [exact Hrun |].
  apply (@GetNetworkResourceByPool_empty_pool unit (sim.runtime [sim.netA; sim.netBare])
           (NewClient tt) s' 1); [apply reach_new | exact Hrun].
Defined.

(** Two listed networks on a runtime that fails every inspect call. *)
Lemma GetNetworkResourceByPool_drops_inspect_errors_witness :
  exists s',
    @GetNetworkResourceByPool unit (deaf [sim.netA; sim.netC]) "10.0.1.0/24" (NewClient tt)
      = (Go.Done (None, None), s') /\
    heap s' = [] /\ cache s' = mkClient ∅ ∅.
Proof.
  apply (@GetNetworkResourceByPool_drops_inspect_errors unit (deaf [sim.netA; sim.netC])
           "10.0.1.0/24" (NewClient tt) [sim.netA; sim.netC] tt).
  - reflexivity.
  - reflexivity.
  - intros n _. reflexivity.
  - intros id w. exists "network inspect failed", w. reflexivity.
Defined.

(** The pool of the first of two listed networks. *)
Lemma GetNetworkResourceByPool_stops_at_first_match_witness :
  sim.lookupPool [sim.netA; sim.netC] "10.0.0.0/24" (NewClient tt) =
    (Go.Done (Some 0, None),
     mkState [sim.netA] (mkClient (<["a1" := 0]> ∅) (<["10.0.0.0/24" := 0]> ∅)) tt
       [RLock; ReadByPool "10.0.0.0/24"; RUnlock;
        NetworkList networkDriverName (inl [sim.netA; sim.netC]);
        RLock; ReadByID "a1"; RUnlock; NetworkInspect "a1" (inl sim.netA);
        Lock; WriteByID "a1" 0; WritePool "10.0.0.0/24" 0; Unlock]).
Proof.
  apply (@GetNetworkResourceByPool_stops_at_first_match unit
           (sim.runtime [sim.netA; sim.netC]) "10.0.0.0/24" (NewClient tt)
           sim.netA sim.netA [sim.netC] tt tt); reflexivity.
Defined.

End MoreOnRuntimes.
